(** * CI job-history ingestion and caching pipeline

    A shallow embedding of the Prow job-history pipeline of
    [list_failed_prs.py] (class [ProwJobAnalyzer], the cache helpers, the
    time-window check, [count_failed_jobs_in_window] and the multi-job
    aggregators) and of the storage-path conversion of [prow/prow_crawler.py]
    and [prow/generate_gsutil_commands.py].

    Conventions of the embedding:
    - Python values decoded from JSON are the inductive type [json]; a Python
      [dict] is an association list looked up from the left; [None] is
      [JNull].
    - A Python computation is a function from a [state] to a [result] and a
      new state.  [Raise e] is an exception derived from [Exception];
      [Exit c] is [SystemExit] raised by [sys.exit(c)], which an
      [except Exception] clause does not catch.
    - The libraries the scripts call ([json], [datetime.fromisoformat],
      [requests], [urljoin], BeautifulSoup, the job-list document) are the
      fields of an environment record [Env]; every theorem holds for all
      environments.  Small concrete decoders instantiate the environment for
      the worked examples.
    - Instants and durations are integers counting microseconds, the
      resolution of [datetime] and [timedelta]. *)

From Stdlib Require Import ZArith Ascii String List Bool Lia.
From Stdlib Require PrimFloat DecimalString.
From stdpp Require Import base option list gmap strings.

Set Warnings "-register-all".
#[local] Arguments String.append : simpl nomatch.
Local Open Scope Z_scope.

(** ** Python string primitives *)

Module Str.

(** [strip_prefix p s]: the rest of [s] after its prefix [p], if [s]
    starts with [p]. *)
Fixpoint strip_prefix (p s : string) : option string :=
  match p, s with
  | EmptyString, _ => Some s
  | String a p', String b s' =>
      if Ascii.eqb a b then strip_prefix p' s' else None
  | String _ _, EmptyString => None
  end.

(** [partition sep s]: the text before and after the first occurrence of
    [sep] in [s], as [s.split(sep, 1)] cuts it. *)
Fixpoint partition (sep s : string) : option (string * string) :=
  match strip_prefix sep s with
  | Some rest => Some (EmptyString, rest)
  | None =>
      match s with
      | EmptyString => None
      | String c s' =>
          match partition sep s' with
          | Some (a, b) => Some (String c a, b)
          | None => None
          end
      end
  end.

(** [needle in s]. *)
Definition contains (needle s : string) : bool :=
  match partition needle s with Some _ => true | None => false end.

(** [s.rstrip(c)] for a one-character set: every trailing [c] is removed. *)
Fixpoint rstrip (c : ascii) (s : string) : string :=
  match s with
  | EmptyString => EmptyString
  | String a s' =>
      match rstrip c s' with
      | EmptyString =>
          if Ascii.eqb a c then EmptyString else String a EmptyString
      | r => String a r
      end
  end.

(** [s.replace(c, t)]: every occurrence of the character [c] becomes [t]. *)
Fixpoint replace (c : ascii) (t s : string) : string :=
  match s with
  | EmptyString => EmptyString
  | String a s' =>
      if Ascii.eqb a c then t +:+ replace c t s' else String a (replace c t s')
  end.

(** [n] copies of the character [c]. *)
Fixpoint repeat (c : ascii) (n : nat) : string :=
  match n with
  | O => EmptyString
  | S n' => String c (repeat c n')
  end.

(** The last character of [s] is [c]. *)
Fixpoint ends_with (c : ascii) (s : string) : bool :=
  match s with
  | EmptyString => false
  | String a EmptyString => Ascii.eqb a c
  | String _ s' => ends_with c s'
  end.

End Str.

(** ** Regular expression [var allBuilds = (.+);]

    [re.search] tries every start position from the left.  At a position
    the literal [var allBuilds = ] must match; [.+] then takes the longest
    non-empty run of characters other than line feed that is still followed
    by [;]; that run is group 1. *)

Module Re.

Definition newline : ascii := "010"%char.
Definition semicolon : ascii := ";"%char.
Definition all_builds_prefix : string := "var allBuilds = ".

(** The longest (possibly empty) prefix of the current line of [s] that
    is followed by [;]. *)
Fixpoint upto_last_semi (s : string) : option string :=
  match s with
  | EmptyString => None
  | String c s' =>
      if Ascii.eqb c newline then None
      else match upto_last_semi s' with
           | Some q => Some (String c q)
           | None => if Ascii.eqb c semicolon then Some EmptyString else None
           end
  end.

(** [(.+);] matched at the start of [s]: group 1. *)
Definition dot_plus_semi (s : string) : option string :=
  match s with
  | EmptyString => None
  | String c s' =>
      if Ascii.eqb c newline then None
      else option_map (String c) (upto_last_semi s')
  end.

(** The whole pattern matched at the start of [s]. *)
Definition match_here (s : string) : option string :=
  match Str.strip_prefix all_builds_prefix s with
  | Some rest => dot_plus_semi rest
  | None => None
  end.

(** [re.search(r'var allBuilds = (.+);', s)], returning [match.group(1)]. *)
Fixpoint search (s : string) : option string :=
  match match_here s with
  | Some g => Some g
  | None =>
      match s with
      | EmptyString => None
      | String _ s' => search s'
      end
  end.

(** [s] holds no line feed. *)
Fixpoint one_line (s : string) : bool :=
  match s with
  | EmptyString => true
  | String c s' => negb (Ascii.eqb c newline) && one_line s'
  end.

(** The literal prefix occurs in [pre +:+ rest] at a position inside
    [pre]. *)
Fixpoint occurs_within (pre rest : string) : bool :=
  match pre with
  | EmptyString => false
  | String _ pre' =>
      match Str.strip_prefix all_builds_prefix (pre +:+ rest) with
      | Some _ => true
      | None => occurs_within pre' rest
      end
  end.

End Re.

(** ** Values decoded from JSON *)

Inductive json : Type :=
| JNull
| JBool (b : bool)
| JNum (n : Z)
| JFloat (f : PrimFloat.float)
| JStr (s : string)
| JArr (l : list json)
| JObj (d : list (string * json)).

(** Exceptions derived from [Exception] that the scripts meet. *)
Inductive exn : Type :=
| AttributeError
| TypeError
| ValueError
| JSONDecodeError
| OSError
| RequestException
| OverflowError
| UnicodeDecodeError.

(** Outcome of a Python computation. *)
Inductive result (A : Type) : Type :=
| Ok (a : A)
| Raise (e : exn)
| Exit (code : Z).
Arguments Ok {A} a.
Arguments Raise {A} e.
Arguments Exit {A} code.

Module Py.

(** Truth value of a decoded value ([if v:], [not v]). *)
Definition truthy (v : json) : bool :=
  match v with
  | JNull => false
  | JBool b => b
  | JNum n => negb (n =? 0)
  | JFloat f => negb (PrimFloat.eqb f PrimFloat.zero)
  | JStr s => negb (String.eqb s EmptyString)
  | JArr l => match l with [] => false | _ => true end
  | JObj d => match d with [] => false | _ => true end
  end.

(** [v == s] for a string literal [s]. *)
Definition eq_str (v : json) (s : string) : bool :=
  match v with
  | JStr t => String.eqb t s
  | _ => false
  end.

(** Lookup in a dict. *)
Fixpoint lookup (k : string) (d : list (string * json)) : option json :=
  match d with
  | [] => None
  | (k', v) :: d' => if String.eqb k' k then Some v else lookup k d'
  end.

(** [v.get(k)]: only a dict has the method. *)
Definition get (v : json) (k : string) : result json :=
  match v with
  | JObj d => Ok (default JNull (lookup k d))
  | _ => Raise AttributeError
  end.

(** [v.get(k, dflt)]. *)
Definition get_default (v : json) (k : string) (dflt : json) : result json :=
  match v with
  | JObj d => Ok (default dflt (lookup k d))
  | _ => Raise AttributeError
  end.

(** The characters of a string, each a one-character string. *)
Fixpoint chars (s : string) : list json :=
  match s with
  | EmptyString => []
  | String c s' => JStr (String c EmptyString) :: chars s'
  end.

(** [for x in v]: a list yields its elements, a dict its keys, a string
    its characters; nothing else is iterable. *)
Definition iter (v : json) : result (list json) :=
  match v with
  | JArr l => Ok l
  | JObj d => Ok (map (fun kv => JStr (fst kv)) d)
  | JStr s => Ok (chars s)
  | _ => Raise TypeError
  end.

End Py.

(** ** Instants

    A [datetime] is its wall-clock reading and, when it is aware, its offset
    from UTC.  Ordering two datetimes is defined when both are aware (their
    UTC instants are compared) or both naive; Python raises [TypeError] for
    a naive and an aware operand.  A datetime lies in the years 1 to 9999,
    and [timedelta] holds at most 999999999 days either way; arithmetic
    that leaves either range raises [OverflowError].  Readings are in
    microseconds from 1970-01-01T00:00:00. *)

Record datetime : Type := { wall : Z; utcoffset : option Z }.

Definition microseconds_per_hour : Z := 3600000000.

(** [timedelta(hours=h)]. *)
Definition timedelta_hours (h : Z) : Z := h * microseconds_per_hour.

(** [timedelta(minutes=m)]. *)
Definition timedelta_minutes (m : Z) : Z := m * 60000000.

(** An aware datetime in UTC. *)
Definition utc (t : Z) : datetime := {| wall := t; utcoffset := Some 0 |}.

(** [a - d] for a datetime [a] and a timedelta [d]. *)
Definition datetime_sub (a : datetime) (d : Z) : datetime :=
  {| wall := wall a - d; utcoffset := utcoffset a |}.

(** [datetime.min] and [datetime.max]: 0001-01-01T00:00:00 and
    9999-12-31T23:59:59.999999. *)
Definition datetime_min : Z := -62135596800000000.
Definition datetime_max : Z := 253402300799999999.

(** [timedelta(hours=h)] can be built: its days, [h // 24], are within
    999999999 either way. *)
Definition timedelta_hours_ok (h : Z) : bool :=
  (-999999999 <=? h / 24) && (h / 24 <=? 999999999).

(** [t - timedelta(hours=h)] can be built and is a datetime. *)
Definition cutoff_in_range (t h : Z) : bool :=
  timedelta_hours_ok h
  && (datetime_min <=? t - timedelta_hours h)
  && (t - timedelta_hours h <=? datetime_max).

(** [a - timedelta(hours=h)]. *)
Definition datetime_sub_hours (a : datetime) (h : Z) : result datetime :=
  if cutoff_in_range (wall a) h
  then Ok (datetime_sub a (timedelta_hours h))
  else Raise OverflowError.

(** The UTC instant of an aware datetime. *)
Definition instant (a : datetime) : option Z :=
  match utcoffset a with
  | Some o => Some (wall a - o)
  | None => None
  end.

(** [a >= b]. *)
Definition datetime_ge (a b : datetime) : result bool :=
  match utcoffset a, utcoffset b with
  | Some oa, Some ob => Ok (wall b - ob <=? wall a - oa)
  | None, None => Ok (wall b <=? wall a)
  | _, _ => Raise TypeError
  end.

(** ** The environment: libraries and the outside world *)

(** An [<a>] element as BeautifulSoup presents it: [.string], the [href]
    attribute and [.get_text()]. *)
Record anchor : Type :=
  { a_string : option string; a_href : option string; a_text : string }.

Record Env : Type :=
  { (** [json.loads]; [None] is [json.JSONDecodeError]. *)
    json_loads : string -> option json;
    (** [json.dump(v, f, indent=2)]: the text written. *)
    json_dumps : json -> string;
    (** [datetime.fromisoformat]; [None] is [ValueError]. *)
    fromisoformat : string -> option datetime;
    (** [datetime.isoformat] of a naive local time. *)
    isoformat : Z -> string;
    (** [urllib.parse.urljoin] on two strings. *)
    urljoin : string -> string -> string;
    (** [requests.get(url, timeout=30)] followed by [raise_for_status()]:
        the response text, or [None] for [requests.RequestException]. *)
    requests_get : string -> option string;
    (** [BeautifulSoup(html, 'html.parser').find_all('a')], in document
        order. *)
    find_all_a : string -> list anchor;
    (** The successive readings of the system clock. *)
    clock : nat -> Z;
    (** The job-list provider: what [fetch_prow_job_names()] returns (the
        empty list when the configuration document is unavailable). *)
    fetch_prow_job_names : list string }.

(** ** The state: cache directory, clock position, observable events *)

(** What [open(cache_file, 'r')] and reading give: [IOError] for an
    unreadable file, [UnicodeDecodeError] for a file whose bytes are not
    text in the encoding of the locale, otherwise the file's text. *)
Inductive file_body : Type :=
| Unreadable
| Undecodable
| Text (s : string).

Record file : Type := { st_mtime : Z; body : file_body }.

(** What the scripts print, one constructor per [print] call. *)
Inductive message : Type :=
| ErrorFetchingJobHistory
| CouldNotFindAllBuilds
| ErrorParsingJSON
| ErrorExtractingBuildsData
| ErrorFetchingSpyglassLink (link : json)
| WarningReadingCacheFile (name : string)
| UsingCachedData (job : string)
| WarningFailedToFetch (job : string) (e : exn)
| FetchingJobNames
| NoJobNamesFound
| FoundJobsInConfig (n : nat)
| CheckingJob (job : string)
| CountingFailuresFor (job : string)
| FoundRecentFailures (failed total : nat)
| FoundTotalFailures (failures : nat) (counted total : nat)
| JobNotFoundInConfig (job : string)
| FoundJobsForReleases (jobs releases : nat)
| ProcessingRelease (release : string)
| CheckingJobForRelease (job release : string).

Inductive event : Type :=
| Get (url : string)
| Print (m : message).

Record state : Type :=
  { files : gmap string file; ticks : nat; trace : list event }.

Definition log (ev : event) (st : state) : state :=
  {| files := files st; ticks := ticks st; trace := trace st ++ [ev] |}.

Definition tick (st : state) : state :=
  {| files := files st; ticks := S (ticks st); trace := trace st |}.

Definition store (name : string) (f : file) (st : state) : state :=
  {| files := <[name := f]> (files st); ticks := ticks st; trace := trace st |}.

(** The URLs requested so far. *)
Definition requests_made (st : state) : list string :=
  omap (fun ev => match ev with Get u => Some u | Print _ => None end) (trace st).

(** The messages printed so far. *)
Definition printed (st : state) : list message :=
  omap (fun ev => match ev with Print m => Some m | Get _ => None end) (trace st).

(** ** Computations *)

Definition M (A : Type) : Type := state -> result A * state.

Definition ret {A} (a : A) : M A := fun st => (Ok a, st).

Definition bind {A B} (m : M A) (k : A -> M B) : M B :=
  fun st =>
    match m st with
    | (Ok a, st') => k a st'
    | (Raise e, st') => (Raise e, st')
    | (Exit c, st') => (Exit c, st')
    end.

Notation "'let*' x ':=' m 'in' k" := (bind m (fun x => k))
  (at level 10, x name, m at level 200, k at level 200).

Definition lift {A} (r : result A) : M A := fun st => (r, st).

(** [sys.exit(c)]. *)
Definition sys_exit {A} (c : Z) : M A := fun st => (Exit c, st).

Definition print (m : message) : M unit := fun st => (Ok tt, log (Print m) st).

(** [try: m  except <classes>: h]: the handler runs for a raised exception
    of one of the listed classes; [SystemExit] always passes through. *)
Definition try_except {A} (m : M A) (catches : exn -> bool) (h : exn -> M A) : M A :=
  fun st =>
    match m st with
    | (Raise e, st') => if catches e then h e st' else (Raise e, st')
    | r => r
    end.

(** [except Exception]. *)
Definition Exception (e : exn) : bool := true.

(** [when c: m]. *)
Definition when (c : bool) (m : M unit) : M unit := if c then m else ret tt.

(** A list comprehension / accumulating loop whose body may raise. *)
Fixpoint mapM {A B} (f : A -> M B) (l : list A) : M (list B) :=
  match l with
  | [] => ret []
  | x :: l' => let* y := f x in let* ys := mapM f l' in ret (y :: ys)
  end.

(** A loop that appends the elements passing a test. *)
Fixpoint filterM {A} (p : A -> M bool) (l : list A) : M (list A) :=
  match l with
  | [] => ret []
  | x :: l' =>
      let* b := p x in
      let* ys := filterM p l' in
      ret (if b then x :: ys else ys)
  end.

(** Sequencing of pure steps that may raise. *)
Definition rbind {A B} (r : result A) (k : A -> result B) : result B :=
  match r with
  | Ok a => k a
  | Raise e => Raise e
  | Exit c => Exit c
  end.

Notation "'let+' x ':=' r 'in' k" := (rbind r (fun x => k))
  (at level 10, x name, r at level 200, k at level 200).

Fixpoint mapR {A B} (f : A -> result B) (l : list A) : result (list B) :=
  match l with
  | [] => Ok []
  | x :: l' => let+ y := f x in let+ ys := mapR f l' in Ok (y :: ys)
  end.

Fixpoint filterR {A} (p : A -> result bool) (l : list A) : result (list A) :=
  match l with
  | [] => Ok []
  | x :: l' =>
      let+ b := p x in
      let+ ys := filterR p l' in
      Ok (if b then x :: ys else ys)
  end.

(** ** Records returned by the pipeline *)

(** The dict stored under ['latest_failed']. *)
Record latest_info : Type :=
  { li_build_id : json;
    li_started : json;
    li_duration : json;
    li_spyglass_url : string;
    li_artifacts_url : string;
    li_pr_numbers : list json;
    li_result : json }.

(** One element of ['failure_details']. *)
Record failure_detail : Type :=
  { fd_build_id : json; fd_started : json; fd_duration : json; fd_result : json }.

(** The dict returned by [count_failed_jobs_in_window]. *)
Record summary : Type :=
  { job_name : string;
    total_failures : nat;
    latest_failed : option latest_info;
    failure_details : list failure_detail }.

(** The dict returned by [get_latest_failed_job]. *)
Record latest_job : Type :=
  { lj_job_name : string; lj_info : latest_info }.

(** The dict returned by [get_multi_release_counts]: the matrix maps a
    release to a dict from job name to summary. *)
Record release_matrix : Type :=
  { rm_job_names : list string;
    rm_releases : list string;
    rm_matrix : list (string * list (string * summary)) }.

(** [d[k] = v] on a dict kept in insertion order. *)
Fixpoint dict_set {V} (k : string) (v : V) (d : list (string * V)) : list (string * V) :=
  match d with
  | [] => [(k, v)]
  | (k', v') :: d' =>
      if String.eqb k' k then (k', v) :: d' else (k', v') :: dict_set k v d'
  end.

(** ** Storage-path conversion ([prow_crawler.py], [generate_gsutil_commands.py]) *)

Definition slash : ascii := "/"%char.

(** [convert_artifacts_url_to_gcs_path]; the method of [ProwJobCrawler]
    and the function of [generate_gsutil_commands.py] have the same body
    (the method's [except] clause cannot fire on a string). *)
Definition convert_artifacts_url_to_gcs_path (artifacts_url : string) : option string :=
  if Str.contains "gcsweb-ci" artifacts_url && Str.contains "/gcs/" artifacts_url then
    match Str.partition "/gcs/" artifacts_url with
    | Some (_, gcs_path_part) => Some ("gs://" +:+ Str.rstrip slash gcs_path_part)
    | None => None
    end
  else None.

(** ** The pipeline of [list_failed_prs.py] *)

Definition BASE_URL : string :=
  "https://prow.ci.openshift.org/job-history/gs/test-platform-results/logs/".
Definition PROW_BASE_URL : string := "https://prow.ci.openshift.org".

(** [\w] on the code points below 256: letters, digits (including the
    Latin-1 ones) and the underscore. *)
Definition is_word (c : ascii) : bool :=
  let n := nat_of_ascii c in
  let between a b := Nat.leb a n && Nat.leb n b in
  (between 48 57 || between 65 90 || Nat.eqb n 95 || between 97 122
   || Nat.eqb n 170 || between 178 179 || Nat.eqb n 181 || between 185 186
   || between 188 190 || between 192 214 || between 216 246
   || between 248 255)%nat.

(** [re.sub(r'[^\w\-]', '_', job_name)]. *)
Fixpoint safe_job_name (job_name : string) : string :=
  match job_name with
  | EmptyString => EmptyString
  | String c s =>
      String (if is_word c || Ascii.eqb c "-" then c else "_"%char) (safe_job_name s)
  end.

(** [get_cache_file_path]: the file's name inside the cache directory. *)
Definition get_cache_file_path (job_name : string) : string :=
  safe_job_name job_name +:+ ".json".

(** [construct_full_job_name]. *)
Definition construct_full_job_name (job_name release_version : string) : string :=
  "periodic-ci-openshift-microshift-release-" +:+ release_version
  +:+ "-periodics-" +:+ job_name.

(** The summary of the [except Exception] branch of
    [count_failed_jobs_in_window]. *)
Definition degraded_summary (job : string) : summary :=
  {| job_name := job; total_failures := 0%nat;
     latest_failed := None; failure_details := [] |}.

Definition is_RequestException (e : exn) : bool :=
  match e with RequestException => true | _ => false end.

Definition is_IOError_or_JSONDecodeError (e : exn) : bool :=
  match e with OSError | JSONDecodeError => true | _ => false end.

Section Pipeline.

Context (E : Env).

(** *** Clock and network *)

(** [datetime.now()]: the next reading of the clock. *)
Definition now : M Z := fun st => (Ok (clock E (ticks st)), tick st).

(** [requests.get(url, timeout=30)], [raise_for_status()], [.text]. *)
Definition http_get (url : string) : M string :=
  fun st =>
    match requests_get E url with
    | Some text => (Ok text, log (Get url) st)
    | None => (Raise RequestException, log (Get url) st)
    end.

(** [urljoin(base, v)] for a decoded value [v]: a falsy [v] yields the
    base, a string is joined, anything else cannot be mixed with [str]. *)
Definition py_urljoin (base : string) (v : json) : result string :=
  match v with
  | JStr s => Ok (urljoin E base s)
  | _ => if Py.truthy v then Raise TypeError else Ok base
  end.

(** *** [ProwJobAnalyzer] *)

Definition job_url (job : string) : string := urljoin E BASE_URL job.

Definition fetch_job_history (job : string) : M string :=
  try_except (http_get (job_url job)) is_RequestException
    (fun _ => let* _ := print ErrorFetchingJobHistory in sys_exit 1).

Definition extract_builds_json (html_content : string) : M json :=
  try_except
    (match Re.search html_content with
     | None => let* _ := print CouldNotFindAllBuilds in sys_exit 1
     | Some json_str =>
         match json_loads E json_str with
         | Some builds_data => ret builds_data
         | None => lift (Raise JSONDecodeError)
         end
     end)
    Exception
    (fun e =>
       let* _ := print (match e with
                        | JSONDecodeError => ErrorParsingJSON
                        | _ => ErrorExtractingBuildsData
                        end) in
       sys_exit 1).

(** [build.get('Result') == 'FAILURE']. *)
Definition is_failure (build : json) : result bool :=
  let+ r := Py.get build "Result" in Ok (Py.eq_str r "FAILURE").

Definition get_failed_jobs (builds : json) : result (list json) :=
  let+ l := Py.iter builds in filterR is_failure l.

Definition fetch_spyglass_page (spyglass_link : json) : M (option string) :=
  try_except
    (let* full_url := lift (py_urljoin PROW_BASE_URL spyglass_link) in
     let* text := http_get full_url in
     ret (Some text))
    is_RequestException
    (fun _ =>
       let* _ := print (ErrorFetchingSpyglassLink spyglass_link) in ret None).

(** [link['href']] is non-empty. *)
Definition has_href (a : anchor) : bool :=
  match a_href a with
  | Some h => negb (String.eqb h EmptyString)
  | None => false
  end.

Definition extract_artifacts_url (html_content : string) : option string :=
  let links := find_all_a E html_content in
  let fallback :=
    match
      List.find
        (fun a =>
           match a_href a with
           | Some h => Str.contains "gcsweb-ci" h || Str.contains "Artifacts" (a_text a)
           | None => false
           end) links
    with
    | Some a => a_href a
    | None => None
    end in
  match
    List.find
      (fun a => match a_string a with
                | Some s => String.eqb s "Artifacts"
                | None => false
                end) links
  with
  | Some a => if has_href a then a_href a else fallback
  | None => fallback
  end.

(** *** Time window *)

Definition parse_job_start_time (start_time_str : json) : option datetime :=
  match start_time_str with
  | JStr s => fromisoformat E (Str.replace "Z" "+00:00" s)
  | _ => None
  end.

Definition is_within_time_window (start_time_str : json) (hours_back : Z) : M bool :=
  if negb (Py.truthy start_time_str) || Py.eq_str start_time_str "Unknown" then
    ret false
  else
    match parse_job_start_time start_time_str with
    | None => ret false
    | Some start_time =>
        let* t := now in
        let* cutoff_time := lift (datetime_sub_hours (utc t) hours_back) in
        lift (datetime_ge start_time cutoff_time)
    end.

(** *** Cache *)

Definition is_cache_valid (cache_file : string) (max_age_hours : Z) : M bool :=
  fun st =>
    match files st !! cache_file with
    | None => (Ok false, st)
    | Some f =>
        (let* t := now in
         let file_age := t - st_mtime f in
         ret (file_age <? timedelta_hours max_age_hours)) st
    end.

(** [with open(cache_file, 'r') as f: data = json.load(f)]. *)
Definition read_json (cache_file : string) : M json :=
  fun st =>
    match files st !! cache_file with
    | Some f =>
        match body f with
        | Text s =>
            match json_loads E s with
            | Some data => (Ok data, st)
            | None => (Raise JSONDecodeError, st)
            end
        | Unreadable => (Raise OSError, st)
        | Undecodable => (Raise UnicodeDecodeError, st)
        end
    | None => (Raise OSError, st)
    end.

(** Returns [JNull] for Python's [None]. *)
Definition load_cached_job_data (job : string) : M json :=
  let cache_file := get_cache_file_path job in
  let* valid := is_cache_valid cache_file 1 in
  if negb valid then ret JNull
  else
    try_except
      (let* data := read_json cache_file in
       lift (Py.get_default data "builds" (JArr [])))
      is_IOError_or_JSONDecodeError
      (fun _ => let* _ := print (WarningReadingCacheFile cache_file) in ret JNull).

(** Writing the file succeeds in this model; its modification time is the
    clock's reading at the write. *)
Definition save_job_data_to_cache (job : string) (builds_data : json) : M unit :=
  let cache_file := get_cache_file_path job in
  let* cached_at := now in
  let cache_data :=
    JObj [("job_name", JStr job);
          ("cached_at", JStr (isoformat E cached_at));
          ("builds", builds_data)] in
  let* written_at := now in
  fun st =>
    (Ok tt,
     store cache_file
       {| st_mtime := written_at; body := Text (json_dumps E cache_data) |} st).

Definition clear_cache_for_job (job : string) : M bool :=
  fun st =>
    let cache_file := get_cache_file_path job in
    match files st !! cache_file with
    | Some _ =>
        (Ok true,
         {| files := delete cache_file (files st);
            ticks := ticks st; trace := trace st |})
    | None => (Ok false, st)
    end.

(** *** Fetching one job's builds

    The block that opens both [count_failed_jobs_in_window] and
    [get_latest_failed_job]: cache first when caching is enabled, the
    dashboard otherwise ([fetch_from_dashboard] is the body of
    [if builds is None:]), and a cache write after a fetch. *)
Definition fetch_from_dashboard (job : string) (use_cache : bool) : M json :=
  let* html_content := fetch_job_history job in
  let* fetched := extract_builds_json html_content in
  let* _ := when use_cache (save_job_data_to_cache job fetched) in
  ret fetched.

Definition fetch_builds (job : string) (use_cache : bool) : M json :=
  let* builds :=
    (if use_cache then
       let* cached := load_cached_job_data job in
       let* _ := when (Py.truthy cached) (print (UsingCachedData job)) in
       ret cached
     else ret JNull) in
  match builds with
  | JNull => fetch_from_dashboard job use_cache
  | _ => ret builds
  end.

(** [is_within_time_window(job.get('Started', 'Unknown'), hours_back)]. *)
Definition started_in_window (hours_back : Z) (job : json) : M bool :=
  let* start_time := lift (Py.get_default job "Started" (JStr "Unknown")) in
  is_within_time_window start_time hours_back.

(** The loop collecting the failed jobs inside the window. *)
Definition failed_jobs_in_window (hours_back : Z) (failed_jobs : list json)
  : M (list json) :=
  filterM (started_in_window hours_back) failed_jobs.

(** The artifacts URL of the latest failure, [''] when unresolved. *)
Definition resolve_artifacts_url (spyglass_link : json) : M string :=
  if Py.truthy spyglass_link then
    let* html_content := fetch_spyglass_page spyglass_link in
    match html_content with
    | Some html =>
        if negb (String.eqb html EmptyString)
        then ret (default EmptyString (extract_artifacts_url html))
        else ret EmptyString
    | None => ret EmptyString
    end
  else ret EmptyString.

(** [[pull.get('number') for pull in pulls if pull.get('number')]]. *)
Fixpoint pull_numbers (pulls : list json) : result (list json) :=
  match pulls with
  | [] => Ok []
  | pull :: rest =>
      let+ number := Py.get pull "number" in
      let+ numbers := pull_numbers rest in
      Ok (if Py.truthy number then number :: numbers else numbers)
  end.

(** The related pull requests of a build. *)
Definition pr_numbers_of (build : json) : result (list json) :=
  let+ refs := Py.get_default build "Refs" (JObj []) in
  if Py.truthy refs then
    let+ pulls := Py.get_default refs "pulls" (JArr []) in
    let+ l := Py.iter pulls in
    pull_numbers l
  else Ok [].

(** The enriched record of the latest failure. *)
Definition enrich (latest : json) : M latest_info :=
  let* build_id := lift (Py.get_default latest "ID" (JStr "Unknown")) in
  let* spyglass_link := lift (Py.get_default latest "SpyglassLink" (JStr "")) in
  let* artifacts_url := resolve_artifacts_url spyglass_link in
  let* pr_numbers := lift (pr_numbers_of latest) in
  let* spyglass_url :=
    (if Py.truthy spyglass_link
     then lift (py_urljoin PROW_BASE_URL spyglass_link)
     else ret EmptyString) in
  let* started := lift (Py.get_default latest "Started" (JStr "Unknown")) in
  let* duration := lift (Py.get_default latest "Duration" (JStr "Unknown")) in
  let* result := lift (Py.get_default latest "Result" (JStr "Unknown")) in
  ret {| li_build_id := build_id; li_started := started;
         li_duration := duration; li_spyglass_url := spyglass_url;
         li_artifacts_url := artifacts_url; li_pr_numbers := pr_numbers;
         li_result := result |}.

Definition detail_of (job : json) : result failure_detail :=
  let+ build_id := Py.get_default job "ID" (JStr "Unknown") in
  let+ started := Py.get_default job "Started" (JStr "Unknown") in
  let+ duration := Py.get_default job "Duration" (JStr "Unknown") in
  let+ result := Py.get_default job "Result" (JStr "Unknown") in
  Ok {| fd_build_id := build_id; fd_started := started;
        fd_duration := duration; fd_result := result |}.

(** The [try] block of [count_failed_jobs_in_window]. *)
Definition count_failed_jobs_body (job : string) (hours_back : Z) (use_cache : bool)
  : M summary :=
  let* builds := fetch_builds job use_cache in
  let* failed_jobs := lift (get_failed_jobs builds) in
  let* in_window := failed_jobs_in_window hours_back failed_jobs in
  let* latest_failed_info :=
    match in_window with
    | [] => ret None
    | latest :: _ => let* info := enrich latest in ret (Some info)
    end in
  let* details := lift (mapR detail_of in_window) in
  ret {| job_name := job;
         total_failures := length in_window;
         latest_failed := latest_failed_info;
         failure_details := details |}.

Definition count_failed_jobs_in_window (job : string) (hours_back : Z) (use_cache : bool)
  : M summary :=
  try_except (count_failed_jobs_body job hours_back use_cache) Exception
    (fun e =>
       let* _ := print (WarningFailedToFetch job e) in
       ret (degraded_summary job)).

(** The [try] block of [get_latest_failed_job]. *)
Definition get_latest_failed_body (job : string) (hours_back : Z) (use_cache : bool)
  : M (option latest_job) :=
  let* builds := fetch_builds job use_cache in
  let* failed_jobs := lift (get_failed_jobs builds) in
  match failed_jobs with
  | [] => ret None
  | _ =>
      let* recent := failed_jobs_in_window hours_back failed_jobs in
      match recent with
      | [] => ret None
      | latest :: _ =>
          let* info := enrich latest in
          ret (Some {| lj_job_name := job; lj_info := info |})
      end
  end.

Definition get_latest_failed_job (job : string) (hours_back : Z) (use_cache : bool)
  : M (option latest_job) :=
  try_except (get_latest_failed_body job hours_back use_cache) Exception
    (fun e => let* _ := print (WarningFailedToFetch job e) in ret None).

(** *** Aggregation over jobs and releases *)

(** [if specific_job:] on an optional string. *)
Definition given (specific_job : option string) : option string :=
  match specific_job with
  | Some j => if String.eqb j EmptyString then None else Some j
  | None => None
  end.

(** The loop body of [get_multiple_periodic_jobs_counts]. *)
Definition count_one (release_version : string) (hours_back : Z) (use_cache : bool)
           (job : string) : M summary :=
  let full_job_name := construct_full_job_name job release_version in
  let* _ := print (CountingFailuresFor job) in
  count_failed_jobs_in_window full_job_name hours_back use_cache.

Definition sum_failures (l : list summary) : nat :=
  fold_left (fun acc s => (acc + total_failures s)%nat) l 0%nat.

Definition get_multiple_periodic_jobs_counts
           (release_version : string) (specific_job : option string)
           (hours_back : Z) (use_cache : bool) : M (list summary) :=
  match given specific_job with
  | Some job =>
      let* s :=
        count_failed_jobs_in_window
          (construct_full_job_name job release_version) hours_back use_cache in
      ret [s]
  | None =>
      let* _ := print FetchingJobNames in
      let job_names := fetch_prow_job_names E in
      match job_names with
      | [] => let* _ := print NoJobNamesFound in ret []
      | _ =>
          let* _ := print (FoundJobsInConfig (length job_names)) in
          let* job_counts :=
            mapM (count_one release_version hours_back use_cache) job_names in
          let* _ :=
            print (FoundTotalFailures (sum_failures job_counts)
                     (length job_counts) (length job_names)) in
          ret job_counts
      end
  end.

(** The inner loop of [get_multi_release_counts]: one release's column. *)
Fixpoint release_column (release_version : string) (hours_back : Z) (use_cache : bool)
         (job_names : list string) (release_data : list (string * summary))
  : M (list (string * summary)) :=
  match job_names with
  | [] => ret release_data
  | job :: rest =>
      let full_job_name := construct_full_job_name job release_version in
      let* _ := print (CheckingJobForRelease job release_version) in
      let* job_count_data :=
        count_failed_jobs_in_window full_job_name hours_back use_cache in
      release_column release_version hours_back use_cache rest
        (dict_set job job_count_data release_data)
  end.

(** The outer loop of [get_multi_release_counts]. *)
Fixpoint release_rows (hours_back : Z) (use_cache : bool) (job_names : list string)
         (release_versions : list string)
         (matrix : list (string * list (string * summary)))
  : M (list (string * list (string * summary))) :=
  match release_versions with
  | [] => ret matrix
  | release_version :: rest =>
      let* _ := print (ProcessingRelease release_version) in
      let* release_data :=
        release_column release_version hours_back use_cache job_names [] in
      release_rows hours_back use_cache job_names rest
        (dict_set release_version release_data matrix)
  end.

Definition empty_matrix : release_matrix :=
  {| rm_job_names := []; rm_releases := []; rm_matrix := [] |}.

Definition get_multi_release_counts
           (release_versions : list string) (specific_job : option string)
           (hours_back : Z) (use_cache : bool) : M release_matrix :=
  match fetch_prow_job_names E with
  | [] => let* _ := print NoJobNamesFound in ret empty_matrix
  | all_names =>
      let job_names :=
        match given specific_job with
        | Some job => List.filter (fun j => String.eqb j job) all_names
        | None => all_names
        end in
      match job_names with
      | [] =>
          let* _ := print (JobNotFoundInConfig (default EmptyString specific_job)) in
          ret empty_matrix
      | _ =>
          let* _ :=
            print (FoundJobsForReleases (length job_names) (length release_versions)) in
          let* matrix := release_rows hours_back use_cache job_names release_versions [] in
          ret {| rm_job_names := job_names;
                 rm_releases := release_versions;
                 rm_matrix := matrix |}
      end
  end.

End Pipeline.

(** ** Small concrete decoders

    Executable stand-ins for the library functions of the environment, used
    to run the pipeline on concrete documents.  Each covers a subset of its
    library function's inputs, on which it computes the library's result. *)

Module Basic.

Definition dquote : ascii := "034"%char.
Definition backslash : ascii := "092"%char.

(** A string written with ['] in place of the double quote. *)
Definition q (s : string) : string := Str.replace "'" (String dquote "") s.

Definition digit (c : ascii) : option Z :=
  let n := nat_of_ascii c in
  if (Nat.leb 48 n && Nat.leb n 57)%nat then Some (Z.of_nat n - 48) else None.

(** *** JSON: [null], booleans, integers, strings with the simple
    escapes, arrays and objects; numbers with a fraction or an exponent
    and [\u] escapes are outside the subset. *)

Definition is_ws (c : ascii) : bool :=
  match nat_of_ascii c with
  | 9%nat | 10%nat | 13%nat | 32%nat => true
  | _ => false
  end.

Fixpoint skip_ws (s : string) : string :=
  match s with
  | String c s' => if is_ws c then skip_ws s' else s
  | EmptyString => s
  end.

Definition unescape (c : ascii) : option ascii :=
  match c with
  | "n"%char => Some "010"%char
  | "t"%char => Some "009"%char
  | "r"%char => Some "013"%char
  | "b"%char => Some "008"%char
  | "f"%char => Some "012"%char
  | "/"%char => Some "/"%char
  | _ =>
      if Ascii.eqb c dquote then Some dquote
      else if Ascii.eqb c backslash then Some backslash
      else None
  end.

(** The characters of a string literal after its opening quote. *)
Fixpoint string_body (s : string) : option (string * string) :=
  match s with
  | EmptyString => None
  | String c s' =>
      if Ascii.eqb c dquote then Some (EmptyString, s')
      else if Ascii.eqb c backslash then
        match s' with
        | String e s'' =>
            match unescape e, string_body s'' with
            | Some ch, Some (t, r) => Some (String ch t, r)
            | _, _ => None
            end
        | EmptyString => None
        end
      else if Nat.ltb (nat_of_ascii c) 32 then None
      else
        match string_body s' with
        | Some (t, r) => Some (String c t, r)
        | None => None
        end
  end.

Fixpoint digits (acc : Z) (s : string) : Z * string :=
  match s with
  | String c s' =>
      match digit c with
      | Some d => digits (10 * acc + d) s'
      | None => (acc, s)
      end
  | EmptyString => (acc, s)
  end.

(** An integer literal without sign: no leading zero, no fraction, no
    exponent. *)
Definition natural (s : string) : option (Z * string) :=
  match s with
  | String c s' =>
      match digit c with
      | Some d =>
          let '(n, r) := if d =? 0 then (0, s') else digits d s' in
          match r with
          | String c' _ =>
              match digit c' with
              | Some _ => None
              | None =>
                  if Ascii.eqb c' "." || Ascii.eqb c' "e" || Ascii.eqb c' "E"
                  then None else Some (n, r)
              end
          | EmptyString => Some (n, r)
          end
      | None => None
      end
  | EmptyString => None
  end.

Fixpoint value (fuel : nat) (s : string) : option (json * string) :=
  match fuel with
  | O => None
  | S fuel' =>
      match skip_ws s with
      | EmptyString => None
      | String c r as t =>
          if Ascii.eqb c dquote then
            match string_body r with
            | Some (str, r') => Some (JStr str, r')
            | None => None
            end
          else if Ascii.eqb c "[" then
            match skip_ws r with
            | String "]" r' => Some (JArr [], r')
            | _ =>
                match elements fuel' r with
                | Some (l, r') => Some (JArr l, r')
                | None => None
                end
            end
          else if Ascii.eqb c "{" then
            match skip_ws r with
            | String "}" r' => Some (JObj [], r')
            | _ =>
                match members fuel' r with
                | Some (d, r') =>
                    Some (JObj (fold_left (fun acc kv => dict_set (fst kv) (snd kv) acc)
                                          d []), r')
                | None => None
                end
            end
          else if Ascii.eqb c "-" then
            match natural r with
            | Some (n, r') => Some (JNum (- n), r')
            | None => None
            end
          else
            match natural t with
            | Some (n, r') => Some (JNum n, r')
            | None =>
                match Str.strip_prefix "null" t with
                | Some r' => Some (JNull, r')
                | None =>
                    match Str.strip_prefix "true" t with
                    | Some r' => Some (JBool true, r')
                    | None =>
                        match Str.strip_prefix "false" t with
                        | Some r' => Some (JBool false, r')
                        | None => None
                        end
                    end
                end
            end
      end
  end
with elements (fuel : nat) (s : string) : option (list json * string) :=
  match fuel with
  | O => None
  | S fuel' =>
      match value fuel' s with
      | Some (v, r) =>
          match skip_ws r with
          | String "," r' =>
              match elements fuel' r' with
              | Some (l, r'') => Some (v :: l, r'')
              | None => None
              end
          | String "]" r' => Some ([v], r')
          | _ => None
          end
      | None => None
      end
  end
with members (fuel : nat) (s : string) : option (list (string * json) * string) :=
  match fuel with
  | O => None
  | S fuel' =>
      match skip_ws s with
      | String c r =>
          if Ascii.eqb c dquote then
            match string_body r with
            | Some (k, r1) =>
                match skip_ws r1 with
                | String ":" r2 =>
                    match value fuel' r2 with
                    | Some (v, r3) =>
                        match skip_ws r3 with
                        | String "," r4 =>
                            match members fuel' r4 with
                            | Some (d, r5) => Some ((k, v) :: d, r5)
                            | None => None
                            end
                        | String "}" r4 => Some ([(k, v)], r4)
                        | _ => None
                        end
                    | None => None
                    end
                | _ => None
                end
            | None => None
            end
          else None
      | EmptyString => None
      end
  end.

(** [json.loads] on the subset. *)
Definition loads (s : string) : option json :=
  match value (2 * String.length s + 2) s with
  | Some (v, r) =>
      match skip_ws r with
      | EmptyString => Some v
      | _ => None
      end
  | None => None
  end.

Fixpoint escape (s : string) : string :=
  match s with
  | EmptyString => EmptyString
  | String c s' =>
      if Ascii.eqb c dquote || Ascii.eqb c backslash
      then String backslash (String c (escape s'))
      else if Ascii.eqb c "010" then String backslash (String "n" (escape s'))
      else String c (escape s')
  end.

Definition quoted (s : string) : string :=
  String dquote (escape s +:+ String dquote "").

Definition decimal (n : Z) : string :=
  DecimalString.NilZero.string_of_int (Z.to_int n).

(** A compact rendering of a value; a float is written [NaN]. *)
Fixpoint dumps (v : json) : string :=
  match v with
  | JNull => "null"
  | JBool true => "true"
  | JBool false => "false"
  | JNum n => decimal n
  | JFloat _ => "NaN"
  | JStr s => quoted s
  | JArr l =>
      "[" +:+ (fix go (l : list json) : string :=
                 match l with
                 | [] => ""
                 | [x] => dumps x
                 | x :: l' => dumps x +:+ "," +:+ go l'
                 end) l +:+ "]"
  | JObj d =>
      "{" +:+ (fix go (d : list (string * json)) : string :=
                 match d with
                 | [] => ""
                 | [(k, x)] => quoted k +:+ ":" +:+ dumps x
                 | (k, x) :: d' => quoted k +:+ ":" +:+ dumps x +:+ "," +:+ go d'
                 end) d +:+ "}"
  end.

(** *** ISO 8601: [YYYY-MM-DD], then optionally a separator character,
    [HH:MM:SS], an optional fraction of six digits and an optional offset
    [+HH:MM] or [-HH:MM]. *)

Definition two (s : string) : option (Z * string) :=
  match s with
  | String a (String b r) =>
      match digit a, digit b with
      | Some x, Some y => Some (10 * x + y, r)
      | _, _ => None
      end
  | _ => None
  end.

Definition expect (c : ascii) (s : string) : option string :=
  match s with
  | String c' r => if Ascii.eqb c c' then Some r else None
  | EmptyString => None
  end.

Definition is_leap (y : Z) : bool :=
  ((y mod 4 =? 0) && negb (y mod 100 =? 0)) || (y mod 400 =? 0).

Definition days_in_month (y m : Z) : Z :=
  if m =? 2 then (if is_leap y then 29 else 28)
  else if (m =? 4) || (m =? 6) || (m =? 9) || (m =? 11) then 30 else 31.

(** Days from 1970-01-01 to the given date of the proleptic Gregorian
    calendar. *)
Definition days_from_civil (y m d : Z) : Z :=
  let y' := if m <=? 2 then y - 1 else y in
  let era := y' / 400 in
  let yoe := y' - era * 400 in
  let doy := (153 * (if 2 <? m then m - 3 else m + 9) + 2) / 5 + d - 1 in
  let doe := yoe * 365 + yoe / 4 - yoe / 100 + doy in
  era * 146097 + doe - 719468.

(** The date of a day number. *)
Definition civil_from_days (z : Z) : Z * Z * Z :=
  let z := z + 719468 in
  let era := z / 146097 in
  let doe := z - era * 146097 in
  let yoe := (doe - doe / 1460 + doe / 36524 - doe / 146096) / 365 in
  let doy := doe - (365 * yoe + yoe / 4 - yoe / 100) in
  let mp := (5 * doy + 2) / 153 in
  let d := doy - (153 * mp + 2) / 5 + 1 in
  let m := if mp <? 10 then mp + 3 else mp - 9 in
  let y := yoe + era * 400 in
  (if m <=? 2 then y + 1 else y, m, d).

Definition microseconds_per_second : Z := 1000000.
Definition microseconds_per_day : Z := 86400 * microseconds_per_second.

Definition date (s : string) : option (Z * string) :=
  match two s with
  | Some (c, r0) =>
      match two r0 with
      | Some (yy, r1) =>
          match expect "-" r1 with
          | Some r2 =>
              match two r2 with
              | Some (m, r3) =>
                  match expect "-" r3 with
                  | Some r4 =>
                      match two r4 with
                      | Some (d, r5) =>
                          let y := 100 * c + yy in
                          if (1 <=? y) && (1 <=? m) && (m <=? 12)
                             && (1 <=? d) && (d <=? days_in_month y m)
                          then Some (days_from_civil y m d * microseconds_per_day, r5)
                          else None
                      | None => None
                      end
                  | None => None
                  end
              | None => None
              end
          | None => None
          end
      | None => None
      end
  | None => None
  end.

(** [HH:MM:SS] in microseconds, with the range check [check]. *)
Definition hms (check : bool) (s : string) : option (Z * string) :=
  match two s with
  | Some (h, r1) =>
      match expect ":" r1 with
      | Some r2 =>
          match two r2 with
          | Some (m, r3) =>
              match expect ":" r3 with
              | Some r4 =>
                  match two r4 with
                  | Some (sec, r5) =>
                      if negb check || ((h <=? 23) && (m <=? 59) && (sec <=? 59))
                      then Some (((h * 60 + m) * 60 + sec) * microseconds_per_second, r5)
                      else None
                  | None => None
                  end
              | None => None
              end
          | None => None
          end
      | None => None
      end
  | None => None
  end.

Definition fraction (s : string) : option (Z * string) :=
  match expect "." s with
  | Some r =>
      match two r with
      | Some (a, r1) =>
          match two r1 with
          | Some (b, r2) =>
              match two r2 with
              | Some (c, r3) => Some ((a * 100 + b) * 100 + c, r3)
              | None => None
              end
          | None => None
          end
      | None => None
      end
  | None => Some (0, s)
  end.

(** [+HH:MM] or [-HH:MM], strictly inside a day. *)
Definition offset (s : string) : option (option Z) :=
  match s with
  | EmptyString => Some None
  | String sign r =>
      match two r with
      | Some (h, r1) =>
          match expect ":" r1 with
          | Some r2 =>
              match two r2 with
              | Some (m, EmptyString) =>
                  let o := (h * 60 + m) * 60 * microseconds_per_second in
                  if o <? microseconds_per_day then
                    if Ascii.eqb sign "+" then Some (Some o)
                    else if Ascii.eqb sign "-" then Some (Some (- o))
                    else None
                  else None
              | _ => None
              end
          | None => None
          end
      | None => None
      end
  end.

(** [datetime.fromisoformat] on the subset. *)
Definition iso_parse (s : string) : option datetime :=
  match date s with
  | Some (d, EmptyString) => Some {| wall := d; utcoffset := None |}
  | Some (d, String _ r) =>
      match hms true r with
      | Some (t, r1) =>
          match fraction r1 with
          | Some (f, r2) =>
              match offset r2 with
              | Some o => Some {| wall := d + t + f; utcoffset := o |}
              | None => None
              end
          | None => None
          end
      | None => None
      end
  | None => None
  end.

Definition pad (width : nat) (n : Z) : string :=
  let s := decimal n in
  Str.repeat "0" (width - String.length s) +:+ s.

(** [datetime.isoformat] of a naive time. *)
Definition iso_format (t : Z) : string :=
  let days := t / microseconds_per_day in
  let rest := t mod microseconds_per_day in
  let '(y, m, d) := civil_from_days days in
  let secs := rest / microseconds_per_second in
  let micro := rest mod microseconds_per_second in
  pad 4 y +:+ "-" +:+ pad 2 m +:+ "-" +:+ pad 2 d +:+ "T"
  +:+ pad 2 (secs / 3600) +:+ ":" +:+ pad 2 (secs / 60 mod 60) +:+ ":"
  +:+ pad 2 (secs mod 60)
  +:+ (if micro =? 0 then "" else "." +:+ pad 6 micro).

(** *** URLs: a relative reference that is a plain path *)

(** The text up to and including the last [/]. *)
Fixpoint directory (s : string) : string :=
  match s with
  | EmptyString => EmptyString
  | String c s' =>
      if Str.contains "/" s' then String c (directory s')
      else if Ascii.eqb c "/" then "/" else EmptyString
  end.

(** Scheme and authority of an absolute URL. *)
Definition origin (base : string) : string :=
  match Str.partition "://" base with
  | Some (scheme, rest) =>
      match Str.partition "/" rest with
      | Some (host, _) => scheme +:+ "://" +:+ host
      | None => base
      end
  | None => base
  end.

(** [urljoin] for an absolute base without query and a relative
    reference that is empty, an absolute path or a plain file name. *)
Definition join_url (base rel : string) : string :=
  match rel with
  | EmptyString => base
  | String c _ =>
      if Ascii.eqb c "/" then origin base +:+ rel
      else
        match Str.partition "://" base with
        | Some (scheme, rest) =>
            if Str.contains "/" rest then directory base +:+ rel
            else base +:+ "/" +:+ rel
        | None => directory base +:+ rel
        end
  end.

(** *** HTML: the anchors written [<a href='...'>text</a>] (with double
    quotes), without nested markup *)

Fixpoint anchors (fuel : nat) (html : string) : list anchor :=
  match fuel with
  | O => []
  | S fuel' =>
      match Str.partition (q "<a href='") html with
      | Some (_, r1) =>
          match Str.partition (q "'>") r1 with
          | Some (href, r2) =>
              match Str.partition "</a>" r2 with
              | Some (text, r3) =>
                  {| a_string := Some text; a_href := Some href; a_text := text |}
                  :: anchors fuel' r3
              | None => []
              end
          | None => []
          end
      | None => []
      end
  end.

Definition all_anchors (html : string) : list anchor :=
  anchors (String.length html) html.

(** The environment built from the decoders, a table of pages, a clock
    and a job list. *)
Definition env (pages : string -> option string) (clk : nat -> Z)
           (jobs : list string) : Env :=
  {| json_loads := loads;
     json_dumps := dumps;
     fromisoformat := iso_parse;
     isoformat := iso_format;
     urljoin := join_url;
     requests_get := pages;
     find_all_a := all_anchors;
     clock := clk;
     fetch_prow_job_names := jobs |}.

End Basic.

(** ** Example documents *)

(** The array literal of the extraction example. *)
Definition example_literal : string :=
  Basic.q "[{'ID':'1','Result':'FAILURE','Started':'2025-10-21T00:31:08Z'}]".

(** The statement [var allBuilds = [...];] of the extraction example. *)
Definition example_assignment : string :=
  "var allBuilds = " +:+ example_literal +:+ ";".

Definition example_record : json :=
  JObj [("ID", JStr "1"); ("Result", JStr "FAILURE");
        ("Started", JStr "2025-10-21T00:31:08Z")].

Definition example_builds : json := JArr [example_record].

(** A dashboard page holding the statement on a line of its own. *)
Definition example_page : string :=
  "<html><script>" +:+ String Re.newline ("  " +:+ example_assignment)
  +:+ String Re.newline "</script></html>".

(** An environment without network, with a clock stopped at [t]. *)
Definition offline (t : Z) : Env := Basic.env (fun _ => None) (fun _ => t) [].

(** The state of a fresh process with an empty cache directory. *)
Definition initial_state : state := {| files := ∅; ticks := 0; trace := [] |}.

(** ** Ways of leaving a computation *)

(** Pure steps raise or return; they never exit the process. *)
Definition no_exit {A} (r : result A) : Prop :=
  match r with Exit _ => False | _ => True end.

(** A computation that can leave the process only through [sys.exit(1)]. *)
Definition exits_with_1 {A} (m : M A) : Prop :=
  forall st, match fst (m st) with Exit c => c = 1 | _ => True end.

(** A computation that never leaves the process. *)
Definition stays {A} (m : M A) : Prop := forall st, no_exit (fst (m st)).

(** ** Reference descriptions used in the statements *)

Definition is_dict (v : json) : bool :=
  match v with JObj _ => true | _ => false end.

(** [b.get(k, dflt)] of a dict [b]. *)
Definition field (k : string) (dflt b : json) : json :=
  match b with
  | JObj d => default dflt (Py.lookup k d)
  | _ => dflt
  end.

(** The record's result string is exactly [FAILURE]. *)
Definition is_FAILURE (b : json) : bool :=
  is_dict b && Py.eq_str (field "Result" JNull b) "FAILURE".

(** The window test at the instant [t]: the start time is present, parses
    to a time with a UTC offset, and is not before [t] minus
    [hours_back] hours. *)
Definition started_within (E : Env) (t hours_back : Z) (b : json) : bool :=
  let s := field "Started" (JStr "Unknown") b in
  if negb (Py.truthy s) || Py.eq_str s "Unknown" then false
  else
    match parse_job_start_time E s with
    | Some start =>
        match instant start with
        | Some i => t - timedelta_hours hours_back <=? i
        | None => false
        end
    | None => false
    end.

(** The start time is missing, unparseable, or carries a UTC offset. *)
Definition started_has_offset (E : Env) (b : json) : bool :=
  match parse_job_start_time E (field "Started" (JStr "Unknown") b) with
  | Some start => match utcoffset start with Some _ => true | None => false end
  | None => true
  end.

(** The detail link is a string or absent. *)
Definition link_is_text (b : json) : bool :=
  match field "SpyglassLink" (JStr "") b with
  | JStr _ => true
  | v => negb (Py.truthy v)
  end.

(** The source-control references have the shape the pipeline reads. *)
Definition refs_are_readable (b : json) : bool :=
  match pr_numbers_of b with Ok _ => true | _ => false end.

(** A build record as the data model describes it. *)
Definition well_formed_build (E : Env) (b : json) : bool :=
  is_dict b && started_has_offset E b && link_is_text b && refs_are_readable b.

(** The unenriched detail of a record. *)
Definition detail (b : json) : failure_detail :=
  {| fd_build_id := field "ID" (JStr "Unknown") b;
     fd_started := field "Started" (JStr "Unknown") b;
     fd_duration := field "Duration" (JStr "Unknown") b;
     fd_result := field "Result" (JStr "Unknown") b |}.

(** The count equals the number of details, and a latest failure is
    present exactly when the count is positive. *)
Definition summary_invariant (s : summary) : Prop :=
  total_failures s = length (failure_details s)
  /\ (is_Some (latest_failed s) <-> (0 < total_failures s)%nat).

(** The cache file written for [job] holding [builds], stamped
    [cached_at] and last modified at [mtime]. *)
Definition cache_file_of (E : Env) (job : string) (builds : json) (cached_at mtime : Z)
  : file :=
  {| st_mtime := mtime;
     body := Text (json_dumps E (JObj [("job_name", JStr job);
                                       ("cached_at", JStr (isoformat E cached_at));
                                       ("builds", builds)])) |}.

(** Noon of 2025-10-21, UTC. *)
Definition noon_2025_10_21 : Z := 1761048000000000.

(** ** Example states and environments *)

(** A cache directory holding one file for [job]. *)
Definition cached_state (job : string) (mtime : Z) (contents : file_body) : state :=
  {| files := {[ get_cache_file_path job := {| st_mtime := mtime; body := contents |} ]};
     ticks := 0;
     trace := [] |}.

(** The text of a cache file holding the example's builds. *)
Definition example_cache_text : string :=
  Basic.q "{'job_name':'e2e','cached_at':'2025-10-21T11:00:00','builds':"
  +:+ example_literal +:+ "}".

(** A network on which exactly the listed URLs answer. *)
Fixpoint serving (pages : list (string * string)) (url : string) : option string :=
  match pages with
  | [] => None
  | (u, page) :: rest => if String.eqb u url then Some page else serving rest url
  end.

(** The URL of a job's dashboard page. *)
Definition dashboard (job : string) : string := Basic.join_url BASE_URL job.

(** An environment whose network serves [pages], with a clock stopped at
    [t] and the job list [jobs]. *)
Definition online (pages : list (string * string)) (t : Z) (jobs : list string) : Env :=
  Basic.env (serving pages) (fun _ => t) jobs.

(** The dashboard answers for [job] with a page whose embedded array
    decodes. *)
Definition dashboard_readable (E : Env) (job : string) : bool :=
  match requests_get E (job_url E job) with
  | Some html =>
      match Re.search html with
      | Some g => match json_loads E g with Some _ => true | None => false end
      | None => false
      end
  | None => false
  end.

(** The full name of the periodic job [job] of release 4.21. *)
Definition periodic (job : string) : string := construct_full_job_name job "4.21".

(** Three jobs: the first and the third have the example page as their
    dashboard, the second has [second_page]. *)
Definition three_jobs (second_page : string) : Env :=
  online [(dashboard (periodic "a"), example_page);
          (dashboard (periodic "b"), second_page);
          (dashboard (periodic "c"), example_page)]
         noon_2025_10_21 ["a"; "b"; "c"].

(** The summary of a job whose dashboard is the example page, computed at
    noon of 2025-10-21 with a window of twelve hours. *)
Definition example_summary (job : string) : summary :=
  {| job_name := job;
     total_failures := 1;
     latest_failed :=
       Some {| li_build_id := JStr "1";
               li_started := JStr "2025-10-21T00:31:08Z";
               li_duration := JStr "Unknown";
               li_spyglass_url := "";
               li_artifacts_url := "";
               li_pr_numbers := [];
               li_result := JStr "FAILURE" |};
     failure_details :=
       [{| fd_build_id := JStr "1";
           fd_started := JStr "2025-10-21T00:31:08Z";
           fd_duration := JStr "Unknown";
           fd_result := JStr "FAILURE" |}] |}.

(** The artifacts URL of a record as the pipeline resolves it: the link
    found on the record's detail page, and [""] (unresolved) when the
    record has no detail link, the page cannot be fetched or is empty, or
    no link is found on it. *)
Definition resolved_artifacts_url (E : Env) (b : json) : string :=
  match field "SpyglassLink" (JStr "") b with
  | JStr link =>
      if String.eqb link "" then ""
      else
        match requests_get E (urljoin E PROW_BASE_URL link) with
        | Some html =>
            if String.eqb html "" then ""
            else default "" (extract_artifacts_url E html)
        | None => ""
        end
  | _ => ""
  end.

(** The absolute URL of a record's detail page, [""] without a link. *)
Definition detail_page_url (E : Env) (b : json) : string :=
  match field "SpyglassLink" (JStr "") b with
  | JStr link => if String.eqb link "" then "" else urljoin E PROW_BASE_URL link
  | _ => ""
  end.

(** The enriched copy of a record. *)
Definition enriched (E : Env) (b : json) : latest_info :=
  {| li_build_id := field "ID" (JStr "Unknown") b;
     li_started := field "Started" (JStr "Unknown") b;
     li_duration := field "Duration" (JStr "Unknown") b;
     li_spyglass_url := detail_page_url E b;
     li_artifacts_url := resolved_artifacts_url E b;
     li_pr_numbers := match pr_numbers_of b with Ok l => l | _ => [] end;
     li_result := field "Result" (JStr "Unknown") b |}.

(** The summary over the in-window failures [in_window] of [job]. *)
Definition summary_of (E : Env) (job : string) (in_window : list json) : summary :=
  {| job_name := job;
     total_failures := length in_window;
     latest_failed :=
       match in_window with
       | [] => None
       | latest :: _ => Some (enriched E latest)
       end;
     failure_details := map detail in_window |}.

(** The records of [builds] whose result is [FAILURE] and whose start is
    within [hours_back] hours before [t], in the order of [builds]. *)
Definition failures_in_window (E : Env) (t hours_back : Z) (builds : list json)
  : list json :=
  List.filter (started_within E t hours_back) (List.filter is_FAILURE builds).

(** A build history with five runs, newest first: a success, a failure
    with a detail link and two pull requests, an aborted run, a second
    failure, and a failure of the evening before. *)
Definition history_literal : string :=
  Basic.q ("[{'ID':'104','Result':'SUCCESS','Started':'2025-10-21T10:00:00Z'},"
           +:+ "{'ID':'103','Result':'FAILURE','Started':'2025-10-21T08:00:00Z',"
           +:+ "'SpyglassLink':'/view/gs/test-platform-results/logs/e2e/103',"
           +:+ "'Refs':{'pulls':[{'number':5121},{'number':5130}]}},"
           +:+ "{'ID':'102','Result':'ABORTED','Started':'2025-10-21T06:00:00Z'},"
           +:+ "{'ID':'101','Result':'FAILURE','Started':'2025-10-21T02:00:00Z'},"
           +:+ "{'ID':'100','Result':'FAILURE','Started':'2025-10-20T20:00:00Z'}]").

Definition history_page : string := "var allBuilds = " +:+ history_literal +:+ ";".

Definition build_103 : json :=
  JObj [("ID", JStr "103"); ("Result", JStr "FAILURE");
        ("Started", JStr "2025-10-21T08:00:00Z");
        ("SpyglassLink", JStr "/view/gs/test-platform-results/logs/e2e/103");
        ("Refs", JObj [("pulls", JArr [JObj [("number", JNum 5121)];
                                       JObj [("number", JNum 5130)]])])].

Definition build_101 : json :=
  JObj [("ID", JStr "101"); ("Result", JStr "FAILURE");
        ("Started", JStr "2025-10-21T02:00:00Z")].

Definition history_builds : list json :=
  [JObj [("ID", JStr "104"); ("Result", JStr "SUCCESS");
         ("Started", JStr "2025-10-21T10:00:00Z")];
   build_103;
   JObj [("ID", JStr "102"); ("Result", JStr "ABORTED");
         ("Started", JStr "2025-10-21T06:00:00Z")];
   build_101;
   JObj [("ID", JStr "100"); ("Result", JStr "FAILURE");
         ("Started", JStr "2025-10-20T20:00:00Z")]].

(** The detail page of build 103 with its artifacts link. *)
Definition detail_page_103 : string :=
  Basic.q ("<html><a href='https://gcsweb-ci.example/gcs/test-platform-results/logs/e2e/103/'>"
           +:+ "Artifacts</a></html>").

Definition detail_url_103 : string :=
  Basic.join_url PROW_BASE_URL "/view/gs/test-platform-results/logs/e2e/103".

(** At noon of 2025-10-21: the dashboard of job [e2e] and the detail page
    of build 103 both answer. *)
Definition history_env : Env :=
  online [(dashboard "e2e", history_page); (detail_url_103, detail_page_103)]
         noon_2025_10_21 [].


(** [d.get(k)] on a dict kept in insertion order. *)
Fixpoint dict_get {V} (k : string) (d : list (string * V)) : option V :=
  match d with
  | [] => None
  | (k', v) :: d' => if String.eqb k' k then Some v else dict_get k d'
  end.

(** Every job of [jobs] has a readable dashboard in every release of
    [releases]. *)
Definition dashboards_readable (E : Env) (releases jobs : list string) : bool :=
  forallb (fun release =>
             forallb (fun job =>
                        dashboard_readable E (construct_full_job_name job release))
                     jobs)
          releases.

(** The cell of [job] and [release] holds a summary of that job. *)
Definition cell_filled (matrix : list (string * list (string * summary)))
           (release job : string) : Prop :=
  exists column s,
    dict_get release matrix = Some column
    /\ dict_get job column = Some s
    /\ job_name s = construct_full_job_name job release
    /\ summary_invariant s.

(** ** Further operations of [list_failed_prs.py] and [prow_crawler.py] *)

(** [s] ends with [suffix]. *)
Fixpoint has_suffix (suffix s : string) : bool :=
  String.eqb s suffix
  || match s with
     | EmptyString => false
     | String _ s' => has_suffix suffix s'
     end.

(** Every character of [s] passes [p]. *)
Fixpoint all_chars (p : ascii -> bool) (s : string) : bool :=
  match s with
  | EmptyString => true
  | String c s' => p c && all_chars p s'
  end.

(** The characters [re.sub(r'[^\w\-]', '_', ...)] leaves alone. *)
Definition is_safe_char (c : ascii) : bool := is_word c || Ascii.eqb c "-".

(** A name matched by [glob("*.json")]. *)
Definition is_json_file (name : string) : bool := has_suffix ".json" name.

(** [clear_all_cache]: every [*.json] file of the cache directory is
    unlinked and counted (unlinking succeeds in this model). *)
Definition clear_all_cache : M nat :=
  fun st =>
    (Ok (size (filter (fun kv : string * file => is_json_file kv.1 = true) (files st))),
     {| files := filter (fun kv : string * file => ~ is_json_file kv.1 = true) (files st);
        ticks := ticks st;
        trace := trace st |}).

(** The inner loop of [ProwJobCrawler.extract_pr_numbers]: the truthy
    numbers of [pulls] are appended to [pr_numbers]. *)
Fixpoint append_pull_numbers (pulls pr_numbers : list json) : result (list json) :=
  match pulls with
  | [] => Ok pr_numbers
  | pull :: rest =>
      let+ pr_number := Py.get pull "number" in
      append_pull_numbers rest
        (if Py.truthy pr_number then pr_numbers ++ [pr_number] else pr_numbers)
  end.

(** The outer loop of [ProwJobCrawler.extract_pr_numbers]. *)
Fixpoint extract_pr_numbers_from (failed_jobs pr_numbers : list json)
  : result (list json) :=
  match failed_jobs with
  | [] => Ok pr_numbers
  | job :: rest =>
      let+ refs := Py.get_default job "Refs" (JObj []) in
      let+ collected :=
        (if Py.truthy refs then
           let+ pulls := Py.get_default refs "pulls" (JArr []) in
           let+ l := Py.iter pulls in
           append_pull_numbers l pr_numbers
         else Ok pr_numbers) in
      extract_pr_numbers_from rest collected
  end.

(** [ProwJobCrawler.extract_pr_numbers]. *)
Definition extract_pr_numbers (failed_jobs : list json) : result (list json) :=
  extract_pr_numbers_from failed_jobs [].

(** [state in ["FAILURE", "PENDING"]]. *)
Definition failed_or_pending (state : json) : bool :=
  Py.eq_str state "FAILURE" || Py.eq_str state "PENDING".

(** The loop of [has_failed_or_running_tests], which returns at the first
    failed or pending check. *)
Fixpoint any_failed_or_running (checks : list json) : result bool :=
  match checks with
  | [] => Ok false
  | check :: rest =>
      let+ state := Py.get check "state" in
      if failed_or_pending state then Ok true else any_failed_or_running rest
  end.

(** [has_failed_or_running_tests]. *)
Definition has_failed_or_running_tests (status_checks : json) : result bool :=
  if negb (Py.truthy status_checks) then Ok false
  else let+ l := Py.iter status_checks in any_failed_or_running l.

(** The loop shared by [get_failed_checks] and [get_running_checks]: the
    contexts of the checks whose state is [wanted]. *)
Fixpoint contexts_in_state (wanted : string) (checks : list json) : result (list json) :=
  match checks with
  | [] => Ok []
  | check :: rest =>
      let+ state := Py.get check "state" in
      if Py.eq_str state wanted then
        let+ context := Py.get_default check "context" (JStr "Unknown") in
        let+ contexts := contexts_in_state wanted rest in
        Ok (context :: contexts)
      else contexts_in_state wanted rest
  end.

(** [get_failed_checks]. *)
Definition get_failed_checks (status_checks : json) : result (list json) :=
  let+ l := Py.iter status_checks in contexts_in_state "FAILURE" l.

(** [get_running_checks]. *)
Definition get_running_checks (status_checks : json) : result (list json) :=
  let+ l := Py.iter status_checks in contexts_in_state "PENDING" l.

(** The check is a dict whose state is [wanted]. *)
Definition in_state (wanted : string) (check : json) : bool :=
  Py.eq_str (field "state" JNull check) wanted.

Section Periodics.

Context (E : Env).

(** [get_periodic_job_data]. *)
Definition get_periodic_job_data (job : string) (hours_back : Z) (use_cache : bool)
  : M (list latest_job) :=
  let* latest_failed := get_latest_failed_job E job hours_back use_cache in
  ret (match latest_failed with Some l => [l] | None => [] end).

(** The loop of [get_multiple_periodic_jobs_data]. *)
Fixpoint latest_failures (release_version : string) (hours_back : Z) (use_cache : bool)
         (job_names : list string) (periodic_issues : list latest_job)
  : M (list latest_job) :=
  match job_names with
  | [] => ret periodic_issues
  | job :: rest =>
      let full_job_name := construct_full_job_name job release_version in
      let* _ := print (CheckingJob job) in
      let* latest_failed :=
        get_latest_failed_job E full_job_name hours_back use_cache in
      latest_failures release_version hours_back use_cache rest
        (match latest_failed with
         | Some l => periodic_issues ++ [l]
         | None => periodic_issues
         end)
  end.

(** [get_multiple_periodic_jobs_data]; [FoundJobsInConfig] stands for the
    line "Found n jobs in config, ..." of either aggregator. *)
Definition get_multiple_periodic_jobs_data
           (release_version : string) (specific_job : option string)
           (hours_back : Z) (use_cache : bool) : M (list latest_job) :=
  match given specific_job with
  | Some job =>
      get_periodic_job_data (construct_full_job_name job release_version)
                            hours_back use_cache
  | None =>
      let* _ := print FetchingJobNames in
      let job_names := fetch_prow_job_names E in
      match job_names with
      | [] => let* _ := print NoJobNamesFound in ret []
      | _ =>
          let* _ := print (FoundJobsInConfig (length job_names)) in
          let* periodic_issues :=
            latest_failures release_version hours_back use_cache job_names [] in
          let* _ :=
            print (FoundRecentFailures (length periodic_issues) (length job_names)) in
          ret periodic_issues
      end
  end.

End Periodics.

(** What [get_latest_failed_job] returns for a job whose count summary is
    [s]. *)
Definition latest_of_summary (job : string) (s : summary) : option latest_job :=
  option_map (fun info => {| lj_job_name := job; lj_info := info |}) (latest_failed s).

(** The outcome of [get_latest_failed_job] that corresponds to an outcome
    of [count_failed_jobs_in_window]. *)
Definition latest_of_count (job : string) (r : result summary * state)
  : result (option latest_job) * state :=
  match r with
  | (Ok s, st) => (Ok (latest_of_summary job s), st)
  | (Raise e, st) => (Raise e, st)
  | (Exit c, st) => (Exit c, st)
  end.

(** The document [save_job_data_to_cache] writes. *)
Definition cache_document (E : Env) (job : string) (builds : json) (cached_at : Z) : json :=
  JObj [("job_name", JStr job);
        ("cached_at", JStr (isoformat E cached_at));
        ("builds", builds)].

(** What a step may do to the world between [st] and [st']: it adds at
    most [n] requests to the log and leaves every cache file whose name
    does not satisfy [P] as it was. *)
Definition footprint (n : nat) (P : string -> Prop) (st st' : state) : Prop :=
  (exists l, requests_made st' = requests_made st ++ l /\ (length l <= n)%nat)
  /\ (forall name, ~ P name -> files st' !! name = files st !! name).

(** A computation whose every run, however it ends, stays within that. *)
Definition within {A} (n : nat) (P : string -> Prop) (m : M A) : Prop :=
  forall st, footprint n P st (snd (m st)).

(** [name] is the cache file of one of [jobs], and caching is on. *)
Definition cache_of (use_cache : bool) (jobs : list string) (name : string) : Prop :=
  use_cache = true /\ exists job, In job jobs /\ name = get_cache_file_path job.

(** The full names of the configured jobs for a release. *)
Definition full_names (release_version : string) (job_names : list string) : list string :=
  map (fun job => construct_full_job_name job release_version) job_names.

(** The text matched by [var allBuilds = (.+);] inside [page], with group
    [g]. *)
Definition has_assignment (page g : string) : Prop :=
  exists pre post,
    page = pre +:+ Re.all_builds_prefix +:+ g +:+ String Re.semicolon post
    /\ g <> "" /\ Re.one_line g = true.
(** The footprint of a run over [jobs], spelled out: at most [n] requests
    are added to the log, a cache file that belongs to none of [jobs] is
    as it was, and with caching off the cache directory is as it was. *)
Definition spent (n : nat) (use_cache : bool) (jobs : list string) (st st' : state) : Prop :=
  (exists l, requests_made st' = requests_made st ++ l /\ (length l <= n)%nat)
  /\ (forall name,
         (forall job, In job jobs -> name <> get_cache_file_path job) ->
         files st' !! name = files st !! name)
  /\ (use_cache = false -> files st' = files st).

(** The jobs an aggregator of one release works on: the specific job when
    one is given, the configured jobs otherwise. *)
Definition requested_jobs (E : Env) (specific_job : option string) : list string :=
  match given specific_job with
  | Some job => [job]
  | None => fetch_prow_job_names E
  end.

(** The jobs of the release matrix: the configured jobs, restricted to the
    specific job when one is given. *)
Definition selected_jobs (E : Env) (specific_job : option string) : list string :=
  match given specific_job with
  | Some job => List.filter (fun j => String.eqb j job) (fetch_prow_job_names E)
  | None => fetch_prow_job_names E
  end.

(** Two failed builds, newest first: the newer one started at 08:00 by a
    start time without UTC offset, the older one at 00:31:08 UTC. *)
Definition build_2_without_offset : json :=
  JObj [("ID", JStr "2"); ("Result", JStr "FAILURE");
        ("Started", JStr "2025-10-21T08:00:00")].

Definition build_1_with_offset : json :=
  JObj [("ID", JStr "1"); ("Result", JStr "FAILURE");
        ("Started", JStr "2025-10-21T00:31:08Z")].

Definition offset_less_literal : string :=
  Basic.q ("[{'ID':'2','Result':'FAILURE','Started':'2025-10-21T08:00:00'},"
           +:+ "{'ID':'1','Result':'FAILURE','Started':'2025-10-21T00:31:08Z'}]").

(** At noon of 2025-10-21 the dashboard of job [e2e] shows these two
    builds. *)
Definition offset_less_env : Env :=
  online [(dashboard "e2e", "var allBuilds = " +:+ offset_less_literal +:+ ";")]
         noon_2025_10_21 [].

(** A cache directory whose file for job [e2e], written at noon of
    2025-10-21, holds bytes that are not text. *)
Definition undecodable_cache : state := cached_state "e2e" noon_2025_10_21 Undecodable.

(** The same with a file that cannot be opened. *)
Definition unreadable_cache : state := cached_state "e2e" noon_2025_10_21 Unreadable.


(** * Properties *)

(** ** Strings *)

Lemma append_assoc (a b c : string) : (a +:+ b) +:+ c = a +:+ (b +:+ c).
Proof. induction a as [|x a IH]; simpl; [reflexivity | now rewrite IH]. Qed.

Lemma append_nil_r (a : string) : a +:+ "" = a.
Proof. induction a as [|x a IH]; simpl; [reflexivity | now rewrite IH]. Qed.

Lemma length_append (a b : string) :
  String.length (a +:+ b) = (String.length a + String.length b)%nat.
Proof. induction a as [|x a IH]; simpl; [reflexivity | now rewrite IH]. Qed.

Lemma strip_prefix_app (p r : string) : Str.strip_prefix p (p +:+ r) = Some r.
Proof.
  induction p as [|x p IH]; simpl; [reflexivity |].
  now rewrite Ascii.eqb_refl.
Qed.

Lemma strip_prefix_Some (p s r : string) :
  Str.strip_prefix p s = Some r -> s = p +:+ r.
Proof.
  revert s; induction p as [|x p IH]; intros s H; simpl in *.
  - now inversion H.
  - destruct s as [|y s]; [discriminate |].
    destruct (Ascii.eqb x y) eqn:Exy; [| discriminate].
    apply Ascii.eqb_eq in Exy; subst y. now rewrite (IH s H).
Qed.

Lemma partition_unfold (sep s : string) :
  Str.partition sep s =
  match Str.strip_prefix sep s with
  | Some rest => Some (EmptyString, rest)
  | None =>
      match s with
      | EmptyString => None
      | String c s' =>
          match Str.partition sep s' with
          | Some (a, b) => Some (String c a, b)
          | None => None
          end
      end
  end.
Proof. destruct s; reflexivity. Qed.

(** The cut is at an occurrence of the separator. *)
Lemma partition_Some (sep s a b : string) :
  Str.partition sep s = Some (a, b) -> s = a +:+ sep +:+ b.
Proof.
  revert a b; induction s as [|c s IH]; intros a b H; rewrite partition_unfold in H.
  - destruct (Str.strip_prefix sep "") eqn:P; [| discriminate].
    inversion H; subst. now apply strip_prefix_Some in P.
  - destruct (Str.strip_prefix sep (String c s)) eqn:P.
    + inversion H; subst. now apply strip_prefix_Some in P.
    + destruct (Str.partition sep s) as [[a' b']|] eqn:Q; [| discriminate].
      inversion H; subst. simpl. now rewrite (IH a' b eq_refl).
Qed.

(** The cut is at the first occurrence. *)
Lemma partition_first (sep s a b : string) :
  Str.partition sep s = Some (a, b) ->
  forall a' b', s = a' +:+ sep +:+ b' -> (String.length a <= String.length a')%nat.
Proof.
  revert a b; induction s as [|c s IH]; intros a b H a' b' Hs;
    rewrite partition_unfold in H.
  - destruct (Str.strip_prefix sep "") eqn:P; [| discriminate].
    inversion H; subst. simpl. lia.
  - destruct (Str.strip_prefix sep (String c s)) eqn:P.
    + inversion H; subst. simpl. lia.
    + destruct (Str.partition sep s) as [[a0 b0]|] eqn:Q; [| discriminate].
      inversion H; subst. destruct a' as [|c' a'].
      * simpl in Hs. rewrite Hs, strip_prefix_app in P. discriminate.
      * simpl in Hs. inversion Hs; subst. simpl.
        specialize (IH a0 b eq_refl a' b' eq_refl). lia.
Qed.

Lemma partition_None (sep s : string) :
  Str.partition sep s = None -> forall a b, s <> a +:+ sep +:+ b.
Proof.
  induction s as [|c s IH]; intros H a b Hs; rewrite partition_unfold in H.
  - destruct (Str.strip_prefix sep "") eqn:P; [discriminate |].
    destruct a; [| discriminate]. simpl in Hs.
    rewrite Hs, strip_prefix_app in P. discriminate.
  - destruct (Str.strip_prefix sep (String c s)) eqn:P; [discriminate |].
    destruct (Str.partition sep s) as [[a0 b0]|] eqn:Q; [discriminate |].
    destruct a as [|c' a].
    + simpl in Hs. rewrite Hs, strip_prefix_app in P. discriminate.
    + simpl in Hs. inversion Hs; subst. now apply (IH eq_refl a b).
Qed.

(** An occurrence with nothing earlier is where [partition] cuts. *)
Lemma partition_at_first (sep pre rest : string) :
  (forall a b, pre +:+ sep +:+ rest = a +:+ sep +:+ b ->
               (String.length pre <= String.length a)%nat) ->
  Str.partition sep (pre +:+ sep +:+ rest) = Some (pre, rest).
Proof.
  intros Hmin.
  destruct (Str.partition sep (pre +:+ sep +:+ rest)) as [[a b]|] eqn:P.
  - pose proof (partition_Some _ _ _ _ P) as Hs.
    pose proof (partition_first _ _ _ _ P pre rest eq_refl) as Hle.
    pose proof (Hmin a b Hs) as Hge.
    assert (Hlen : String.length a = String.length pre) by lia.
    clear - Hs Hlen. revert a Hs Hlen.
    induction pre as [|c pre IH]; intros [|c' a] Hs Hlen; simpl in *; try discriminate.
    + apply String.app_inj in Hs. now subst.
    + inversion Hs; subst. injection Hlen as Hlen.
      specialize (IH a H1 Hlen). now inversion IH; subst.
  - exfalso. exact (partition_None _ _ P pre rest eq_refl).
Qed.

(** [needle in s] holds exactly when [s] has an occurrence of [needle]. *)
Lemma contains_true (needle s : string) :
  Str.contains needle s = true <-> exists a b, s = a +:+ needle +:+ b.
Proof.
  unfold Str.contains. split.
  - destruct (Str.partition needle s) as [[a b]|] eqn:P; [| discriminate].
    intros _. exists a, b. now apply partition_Some.
  - intros (a & b & Hs).
    destruct (Str.partition needle s) eqn:P; [reflexivity |].
    exfalso. exact (partition_None _ _ P a b Hs).
Qed.

Lemma contains_false (needle s : string) :
  Str.contains needle s = false <-> forall a b, s <> a +:+ needle +:+ b.
Proof.
  split.
  - intros H a b Hs.
    assert (Str.contains needle s = true) by (apply contains_true; eauto).
    congruence.
  - intros H. destruct (Str.contains needle s) eqn:C; [| reflexivity].
    apply contains_true in C as (a & b & Hs). now destruct (H a b).
Qed.

(** [rstrip] removes a run of the character and leaves a string that does
    not end with it. *)
Lemma rstrip_spec (c : ascii) (s : string) :
  Str.ends_with c (Str.rstrip c s) = false /\
  exists n, s = Str.rstrip c s +:+ Str.repeat c n.
Proof.
  induction s as [|a s [IHe [n IHn]]]; simpl.
  - split; [reflexivity | now exists 0%nat].
  - destruct (Str.rstrip c s) as [|b r] eqn:R.
    + destruct (Ascii.eqb a c) eqn:Eac.
      * apply Ascii.eqb_eq in Eac; subst a.
        split; [reflexivity |]. exists (S n). simpl. now rewrite IHn at 1.
      * split; [simpl; exact Eac |]. exists n. simpl. now rewrite IHn at 1.
    + split; [exact IHe |]. exists n. simpl. now rewrite IHn at 1.
Qed.

(** Stripping is determined by the decomposition. *)
Lemma rstrip_unique (c : ascii) (core : string) (n : nat) :
  Str.ends_with c core = false ->
  Str.rstrip c (core +:+ Str.repeat c n) = core.
Proof.
  intros Hend.
  assert (Hrep : forall k, Str.rstrip c (Str.repeat c k) = "").
  { induction k as [|k IH]; simpl; [reflexivity |].
    now rewrite IH, Ascii.eqb_refl. }
  induction core as [|a core IH]; simpl.
  - apply Hrep.
  - destruct core as [|b core].
    + simpl in *. rewrite Hrep, Hend. reflexivity.
    + rewrite IH by exact Hend. reflexivity.
Qed.

(** ** Storage-path conversion *)

(** The spec's example URL has no [gcsweb-ci] in it, so the conversion
    does not resolve it. *)
Lemma gateway_example_unresolved :
  convert_artifacts_url_to_gcs_path
    "https://gateway.example/gcs/bucket/logs/job/123/" = None
  /\ convert_artifacts_url_to_gcs_path
       "https://gateway.example/gcs/bucket/logs/job/123/"
     <> Some "storage://bucket/logs/job/123".
Proof. split; [reflexivity | discriminate]. Qed.

(** C6, as amended: a URL is converted exactly when it contains
    [gcsweb-ci] and [/gcs/]; the result is [gs://] followed by everything
    after the first [/gcs/] with every trailing slash removed; any other
    URL is unresolved.  For instance
    [https://gcsweb-ci.example/gcs/bucket/logs/job/123/] becomes
    [gs://bucket/logs/job/123]. *)
Theorem storage_path_conversion :
  (forall url out,
      convert_artifacts_url_to_gcs_path url = Some out <->
      Str.contains "gcsweb-ci" url = true /\
      exists pre post n,
        url = pre +:+ "/gcs/" +:+ post +:+ Str.repeat slash n /\
        (forall a b, url = a +:+ "/gcs/" +:+ b ->
                     (String.length pre <= String.length a)%nat) /\
        Str.ends_with slash post = false /\
        out = "gs://" +:+ post)
  /\ (forall url,
         convert_artifacts_url_to_gcs_path url = None <->
         Str.contains "gcsweb-ci" url = false \/ Str.contains "/gcs/" url = false)
  /\ convert_artifacts_url_to_gcs_path
       "https://gcsweb-ci.example/gcs/bucket/logs/job/123/"
     = Some "gs://bucket/logs/job/123".
Proof.
  split; [| split; [| reflexivity]].
  - intros url out. unfold convert_artifacts_url_to_gcs_path. split.
    + destruct (Str.contains "gcsweb-ci" url) eqn:Cg; [| discriminate].
      destruct (Str.contains "/gcs/" url) eqn:Cs; [| discriminate]. simpl.
      destruct (Str.partition "/gcs/" url) as [[pre rest]|] eqn:P; [| discriminate].
      intros H; inversion H; subst; clear H. split; [reflexivity |].
      destruct (rstrip_spec slash rest) as [Hend [n Hn]].
      exists pre, (Str.rstrip slash rest), n. repeat split.
      * rewrite <- Hn. exact (partition_Some _ _ _ _ P).
      * exact (partition_first _ _ _ _ P).
      * exact Hend.
    + intros (Cg & pre & post & n & Hurl & Hmin & Hend & Hout). rewrite Cg.
      assert (Cs : Str.contains "/gcs/" url = true)
        by (apply contains_true; eauto).
      rewrite Cs. simpl. subst url.
      rewrite (partition_at_first "/gcs/" pre (post +:+ Str.repeat slash n) Hmin).
      rewrite (rstrip_unique _ _ _ Hend). now subst out.
  - intros url. unfold convert_artifacts_url_to_gcs_path. split.
    + destruct (Str.contains "gcsweb-ci" url); [| now left].
      destruct (Str.contains "/gcs/" url) eqn:Cs; [| now right]. simpl.
      unfold Str.contains in Cs.
      destruct (Str.partition "/gcs/" url) as [[pre rest]|]; discriminate.
    + intros [-> | ->]; [reflexivity |]. now rewrite andb_false_r.
Qed.

(** ** Locating the embedded array *)

Lemma search_unfold (s : string) :
  Re.search s =
  match Re.match_here s with
  | Some g => Some g
  | None => match s with
            | EmptyString => None
            | String _ s' => Re.search s'
            end
  end.
Proof. destruct s; reflexivity. Qed.

Lemma match_here_prefix (s g : string) :
  Re.match_here s = Some g -> exists r, s = Re.all_builds_prefix +:+ r.
Proof.
  unfold Re.match_here.
  destruct (Str.strip_prefix Re.all_builds_prefix s) as [r|] eqn:P; [| discriminate].
  intros _. exists r. now apply strip_prefix_Some.
Qed.

(** A page without the literal [var allBuilds = ] has no match. *)
Lemma search_without_prefix (page : string) :
  (forall a b, page <> a +:+ Re.all_builds_prefix +:+ b) -> Re.search page = None.
Proof.
  induction page as [|c page IH]; intros H; rewrite search_unfold.
  - destruct (Re.match_here "") as [g|] eqn:Mh; [| reflexivity].
    apply match_here_prefix in Mh as [r Hr]. now destruct (H "" r).
  - destruct (Re.match_here (String c page)) as [g|] eqn:Mh.
    + apply match_here_prefix in Mh as [r Hr]. now destruct (H "" r).
    + apply IH. intros a b Hab. apply (H (String c a) b). simpl. now rewrite Hab.
Qed.

(** On one line, the group runs up to the last semicolon. *)
Lemma upto_last_semi_line (g post : string) :
  Re.one_line g = true ->
  Re.upto_last_semi post = None ->
  Re.upto_last_semi (g +:+ String Re.semicolon post) = Some g.
Proof.
  intros Hg Hpost. induction g as [|c g IH]; simpl in *.
  - now rewrite Hpost.
  - apply andb_true_iff in Hg as [Hc Hg]. apply negb_true_iff in Hc.
    rewrite Hc, (IH Hg). reflexivity.
Qed.

Lemma dot_plus_semi_line (g post : string) :
  g <> "" ->
  Re.one_line g = true ->
  Re.upto_last_semi post = None ->
  Re.dot_plus_semi (g +:+ String Re.semicolon post) = Some g.
Proof.
  intros Hne Hg Hpost. destruct g as [|c g]; [congruence |].
  simpl in *. apply andb_true_iff in Hg as [Hc Hg]. apply negb_true_iff in Hc.
  rewrite Hc, (upto_last_semi_line g post Hg Hpost). reflexivity.
Qed.

(** The first occurrence of the prefix, followed by a one-line group, is
    what [re.search] returns. *)
Lemma search_first_occurrence (pre g post : string) :
  Re.occurs_within pre (Re.all_builds_prefix +:+ g +:+ String Re.semicolon post) = false ->
  g <> "" ->
  Re.one_line g = true ->
  Re.upto_last_semi post = None ->
  Re.search (pre +:+ Re.all_builds_prefix +:+ g +:+ String Re.semicolon post) = Some g.
Proof.
  intros Hocc Hne Hg Hpost.
  induction pre as [|c pre IH]; rewrite search_unfold.
  - unfold Re.match_here. cbn [String.append].
    rewrite strip_prefix_app, (dot_plus_semi_line g post Hne Hg Hpost). reflexivity.
  - cbn [Re.occurs_within] in Hocc. unfold Re.match_here.
    destruct (Str.strip_prefix Re.all_builds_prefix
                (String c pre +:+ Re.all_builds_prefix +:+ g +:+ String Re.semicolon post));
      [discriminate |].
    cbn [String.append]. exact (IH Hocc).
Qed.

Lemma extract_builds_json_found (E : Env) (page g : string) (v : json) (st : state) :
  Re.search page = Some g ->
  json_loads E g = Some v ->
  extract_builds_json E page st = (Ok v, st).
Proof.
  intros Hs Hl. unfold extract_builds_json, try_except. now rewrite Hs, Hl.
Qed.

Lemma extract_builds_json_not_found (E : Env) (page : string) (st : state) :
  Re.search page = None ->
  extract_builds_json E page st = (Exit 1, log (Print CouldNotFindAllBuilds) st).
Proof.
  intros Hs. unfold extract_builds_json, try_except. now rewrite Hs.
Qed.

Lemma extract_builds_json_malformed (E : Env) (page g : string) (st : state) :
  Re.search page = Some g ->
  json_loads E g = None ->
  extract_builds_json E page st = (Exit 1, log (Print ErrorParsingJSON) st).
Proof.
  intros Hs Hl. unfold extract_builds_json, try_except. now rewrite Hs, Hl.
Qed.

(** C7: a page whose first [var allBuilds = ] statement is the example's,
    ending its line, is extracted to exactly one build record, with ID 1
    and result FAILURE, whose start time parses to 2025-10-21T00:31:08 UTC;
    a page that does not contain [var allBuilds = ] makes the extraction
    exit with status 1, it never returns an empty list. *)
Theorem extraction_of_embedded_builds :
  (forall E pre post st,
      json_loads E example_literal = Some example_builds ->
      Re.occurs_within pre (example_assignment +:+ post) = false ->
      Re.upto_last_semi post = None ->
      extract_builds_json E (pre +:+ example_assignment +:+ post) st
      = (Ok example_builds, st))
  /\ extract_builds_json (offline 0) example_page initial_state
     = (Ok example_builds, initial_state)
  /\ extract_builds_json (offline 0) example_assignment initial_state
     = (Ok example_builds, initial_state)
  /\ get_failed_jobs example_builds = Ok [example_record]
  /\ Py.get example_record "ID" = Ok (JStr "1")
  /\ (forall E T,
         fromisoformat E "2025-10-21T00:31:08+00:00" = Some T ->
         rbind (Py.get example_record "Started")
               (fun s => Ok (parse_job_start_time E s)) = Ok (Some T))
  /\ parse_job_start_time (offline 0) (JStr "2025-10-21T00:31:08Z")
     = Some (utc 1761006668000000)
  /\ (forall E page st,
         (forall a b, page <> a +:+ "var allBuilds = " +:+ b) ->
         extract_builds_json E page st
         = (Exit 1, log (Print CouldNotFindAllBuilds) st)).
Proof.
  refine (conj _ (conj _ (conj _ (conj _ (conj _ (conj _ (conj _ _))))))).
  - intros E pre post st Hl Hocc Hpost.
    apply extract_builds_json_found with (g := example_literal); [| exact Hl].
    unfold example_assignment in *. rewrite !append_assoc in *.
    apply search_first_occurrence; [exact Hocc | discriminate | reflexivity | exact Hpost].
  - vm_compute. reflexivity.
  - vm_compute. reflexivity.
  - reflexivity.
  - reflexivity.
  - intros E T HT. simpl. now rewrite HT.
  - vm_compute. reflexivity.
  - intros E page st H. apply extract_builds_json_not_found.
    now apply search_without_prefix.
Qed.

(** ** Running computations *)

Lemma bind_Ok {A B} (m : M A) (k : A -> M B) (st st1 : state) (a : A) :
  m st = (Ok a, st1) -> bind m k st = k a st1.
Proof. intros H. unfold bind. now rewrite H. Qed.

Lemma bind_Raise {A B} (m : M A) (k : A -> M B) (st st1 : state) (e : exn) :
  m st = (Raise e, st1) -> bind m k st = (Raise e, st1).
Proof. intros H. unfold bind. now rewrite H. Qed.

Lemma bind_Exit {A B} (m : M A) (k : A -> M B) (st st1 : state) (c : Z) :
  m st = (Exit c, st1) -> bind m k st = (Exit c, st1).
Proof. intros H. unfold bind. now rewrite H. Qed.

Lemma bind_Ok_inv {A B} (m : M A) (k : A -> M B) (st st2 : state) (b : B) :
  bind m k st = (Ok b, st2) ->
  exists a st1, m st = (Ok a, st1) /\ k a st1 = (Ok b, st2).
Proof.
  unfold bind. destruct (m st) as [[a|e|c] st1]; intros H; try discriminate.
  now exists a, st1.
Qed.

Lemma lift_Ok_inv {A} (r : result A) (st st1 : state) (a : A) :
  lift r st = (Ok a, st1) -> r = Ok a /\ st1 = st.
Proof. unfold lift. intros H. now inversion H. Qed.

Lemma rbind_Ok_inv {A B} (r : result A) (k : A -> result B) (b : B) :
  rbind r k = Ok b -> exists a, r = Ok a /\ k a = Ok b.
Proof. destruct r as [a|e|c]; simpl; intros H; try discriminate. now exists a. Qed.

(** A [try] whose body does not raise is its body. *)
Lemma try_except_Ok {A} (m : M A) catches h (st st1 : state) (a : A) :
  m st = (Ok a, st1) -> try_except m catches h st = (Ok a, st1).
Proof. intros H. unfold try_except. now rewrite H. Qed.

Lemma try_except_Exit {A} (m : M A) catches h (st st1 : state) (c : Z) :
  m st = (Exit c, st1) -> try_except m catches h st = (Exit c, st1).
Proof. intros H. unfold try_except. now rewrite H. Qed.

Lemma try_except_caught {A} (m : M A) catches h (st st1 : state) (e : exn) :
  m st = (Raise e, st1) -> catches e = true ->
  try_except m catches h st = h e st1.
Proof. intros H C. unfold try_except. now rewrite H, C. Qed.

Lemma no_exit_rbind {A B} (r : result A) (k : A -> result B) :
  no_exit r -> (forall a, no_exit (k a)) -> no_exit (rbind r k).
Proof. destruct r; simpl; auto. Qed.

Lemma no_exit_get v k : no_exit (Py.get v k).
Proof. destruct v; exact I. Qed.

Lemma no_exit_get_default v k d : no_exit (Py.get_default v k d).
Proof. destruct v; exact I. Qed.

Lemma no_exit_iter v : no_exit (Py.iter v).
Proof. destruct v; exact I. Qed.

Lemma no_exit_mapR {A B} (f : A -> result B) (l : list A) :
  (forall a, no_exit (f a)) -> no_exit (mapR f l).
Proof.
  intros Hf. induction l as [|x l IH]; simpl; [exact I |].
  apply no_exit_rbind; [apply Hf |]. intros y.
  apply no_exit_rbind; [exact IH |]. intros ys. exact I.
Qed.

Lemma no_exit_filterR {A} (p : A -> result bool) (l : list A) :
  (forall a, no_exit (p a)) -> no_exit (filterR p l).
Proof.
  intros Hp. induction l as [|x l IH]; simpl; [exact I |].
  apply no_exit_rbind; [apply Hp |]. intros b.
  apply no_exit_rbind; [exact IH |]. intros ys. exact I.
Qed.

Lemma no_exit_pull_numbers l : no_exit (pull_numbers l).
Proof.
  induction l as [|x l IH]; simpl; [exact I |].
  apply no_exit_rbind; [apply no_exit_get |]. intros n.
  apply no_exit_rbind; [exact IH |]. intros ns. exact I.
Qed.

Lemma no_exit_pr_numbers_of b : no_exit (pr_numbers_of b).
Proof.
  unfold pr_numbers_of. apply no_exit_rbind; [apply no_exit_get_default |].
  intros refs. destruct (Py.truthy refs); [| exact I].
  apply no_exit_rbind; [apply no_exit_get_default |]. intros pulls.
  apply no_exit_rbind; [apply no_exit_iter |]. intros l. apply no_exit_pull_numbers.
Qed.

Lemma no_exit_detail_of b : no_exit (detail_of b).
Proof.
  unfold detail_of. repeat (apply no_exit_rbind; [apply no_exit_get_default | intros ?]).
  exact I.
Qed.

Lemma no_exit_get_failed_jobs builds : no_exit (get_failed_jobs builds).
Proof.
  unfold get_failed_jobs. apply no_exit_rbind; [apply no_exit_iter |].
  intros l. apply no_exit_filterR. intros b. unfold is_failure.
  apply no_exit_rbind; [apply no_exit_get |]. intros r. exact I.
Qed.

Lemma stays_exits_with_1 {A} (m : M A) : stays m -> exits_with_1 m.
Proof. intros H st. specialize (H st). now destruct (fst (m st)). Qed.

Lemma stays_ret {A} (a : A) : stays (ret a).
Proof. intros st. exact I. Qed.

Lemma stays_lift {A} (r : result A) : no_exit r -> stays (lift r).
Proof. intros H st. exact H. Qed.

Lemma stays_print m : stays (print m).
Proof. intros st. exact I. Qed.

Lemma stays_bind {A B} (m : M A) (k : A -> M B) :
  stays m -> (forall a, stays (k a)) -> stays (bind m k).
Proof.
  intros Hm Hk st. unfold bind. specialize (Hm st).
  destruct (m st) as [[a|e|c] st1]; simpl in *; [apply Hk | exact I | exact Hm].
Qed.

Lemma stays_try_except {A} (m : M A) catches h :
  stays m -> (forall e, stays (h e)) -> stays (try_except m catches h).
Proof.
  intros Hm Hh st. unfold try_except. specialize (Hm st).
  destruct (m st) as [[a|e|c] st1]; simpl in *; [exact I | | exact Hm].
  destruct (catches e); [apply Hh | exact I].
Qed.

Lemma exits_with_1_bind {A B} (m : M A) (k : A -> M B) :
  exits_with_1 m -> (forall a, exits_with_1 (k a)) -> exits_with_1 (bind m k).
Proof.
  intros Hm Hk st. unfold bind. specialize (Hm st).
  destruct (m st) as [[a|e|c] st1]; simpl in *; [apply Hk | exact I | exact Hm].
Qed.

Lemma exits_with_1_try_except {A} (m : M A) catches h :
  exits_with_1 m -> (forall e, exits_with_1 (h e)) ->
  exits_with_1 (try_except m catches h).
Proof.
  intros Hm Hh st. unfold try_except. specialize (Hm st).
  destruct (m st) as [[a|e|c] st1]; simpl in *; [exact I | | exact Hm].
  destruct (catches e); [apply Hh | exact I].
Qed.

Lemma stays_when c m : stays m -> stays (when c m).
Proof. intros H. destruct c; [exact H | apply stays_ret]. Qed.

Lemma stays_filterM {A} (p : A -> M bool) (l : list A) :
  (forall a, stays (p a)) -> stays (filterM p l).
Proof.
  intros Hp. induction l as [|x l IH]; simpl; [apply stays_ret |].
  apply stays_bind; [apply Hp |]. intros b.
  apply stays_bind; [exact IH |]. intros ys. apply stays_ret.
Qed.

Lemma stays_mapM {A B} (f : A -> M B) (l : list A) :
  (forall a, stays (f a)) -> stays (mapM f l).
Proof.
  intros Hf. induction l as [|x l IH]; simpl; [apply stays_ret |].
  apply stays_bind; [apply Hf |]. intros y.
  apply stays_bind; [exact IH |]. intros ys. apply stays_ret.
Qed.

(** ** The time-window check *)

Lemma eq_str_true (v : json) (s : string) : Py.eq_str v s = true <-> v = JStr s.
Proof.
  destruct v; simpl; try (split; [discriminate | intros H; discriminate H]).
  rewrite String.eqb_eq. split; [now intros -> | now intros [= ->]].
Qed.

(** A missing or unparseable start time is outside every window, and the
    clock is not read. *)
Lemma is_within_time_window_unknown (E : Env) (v : json) (h : Z) (st : state) :
  Py.truthy v = false \/ v = JStr "Unknown" \/ parse_job_start_time E v = None ->
  is_within_time_window E v h st = (Ok false, st).
Proof.
  intros H. unfold is_within_time_window.
  destruct (negb (Py.truthy v) || Py.eq_str v "Unknown") eqn:G; [reflexivity |].
  apply orb_false_iff in G as [Gt Gu]. apply negb_false_iff in Gt.
  destruct H as [H | [H | H]].
  - congruence.
  - subst v. discriminate Gu.
  - now rewrite H.
Qed.

(** A start time with a UTC offset is inside the window exactly when its
    instant is not before the clock's reading minus the window, as long as
    that cutoff is a datetime. *)
Lemma is_within_time_window_aware (E : Env) (v : json) (h : Z) (st : state)
      (start : datetime) (i : Z) :
  Py.truthy v = true -> v <> JStr "Unknown" ->
  parse_job_start_time E v = Some start ->
  instant start = Some i ->
  cutoff_in_range (clock E (ticks st)) h = true ->
  is_within_time_window E v h st
  = (Ok (clock E (ticks st) - timedelta_hours h <=? i), tick st).
Proof.
  intros Ht Hu Hp Hi Hr. unfold is_within_time_window. rewrite Ht.
  destruct (Py.eq_str v "Unknown") eqn:Gu; [now apply eq_str_true in Gu |].
  cbn [negb orb]. rewrite Hp.
  unfold bind, now, lift, datetime_sub_hours, datetime_ge, instant in *.
  cbn [utc wall]. rewrite Hr. cbn [datetime_sub utc wall utcoffset].
  destruct (utcoffset start) as [o|]; [| discriminate].
  inversion Hi; subst. do 3 f_equal. lia.
Qed.

(** Whatever the start time, once it parses, a cutoff outside the range of
    [datetime] (or a window too long for [timedelta]) raises
    [OverflowError]. *)
Lemma is_within_time_window_overflow (E : Env) (v : json) (h : Z) (st : state)
      (start : datetime) :
  Py.truthy v = true -> v <> JStr "Unknown" ->
  parse_job_start_time E v = Some start ->
  cutoff_in_range (clock E (ticks st)) h = false ->
  is_within_time_window E v h st = (Raise OverflowError, tick st).
Proof.
  intros Ht Hu Hp Hr. unfold is_within_time_window. rewrite Ht.
  destruct (Py.eq_str v "Unknown") eqn:Gu; [now apply eq_str_true in Gu |].
  cbn [negb orb]. rewrite Hp.
  unfold bind, now, lift, datetime_sub_hours. cbn [utc wall]. now rewrite Hr.
Qed.

(** A parseable start time without offset cannot be compared with the
    aware cutoff. *)
Lemma is_within_time_window_naive (E : Env) (v : json) (h : Z) (st : state)
      (start : datetime) :
  Py.truthy v = true -> v <> JStr "Unknown" ->
  parse_job_start_time E v = Some start ->
  utcoffset start = None ->
  cutoff_in_range (clock E (ticks st)) h = true ->
  is_within_time_window E v h st = (Raise TypeError, tick st).
Proof.
  intros Ht Hu Hp Ho Hr. unfold is_within_time_window. rewrite Ht.
  destruct (Py.eq_str v "Unknown") eqn:Gu; [now apply eq_str_true in Gu |].
  cbn [negb orb]. rewrite Hp.
  unfold bind, now, lift, datetime_sub_hours, datetime_ge. cbn [utc wall]. rewrite Hr.
  cbn [datetime_sub utc wall utcoffset]. now rewrite Ho.
Qed.

(** The lower bound of the window is inclusive: twelve hours before noon
    of 2025-10-21, a build started at midnight is inside and one started a
    second earlier is outside. *)
Lemma time_window_inclusive :
  is_within_time_window (offline noon_2025_10_21) (JStr "2025-10-21T00:00:00Z") 12
                        initial_state
  = (Ok true, tick initial_state)
  /\ is_within_time_window (offline noon_2025_10_21) (JStr "2025-10-20T23:59:59Z") 12
                           initial_state
     = (Ok false, tick initial_state).
Proof. split; vm_compute; reflexivity. Qed.

(** C5, at the failing input: a start time that parses but carries no UTC
    offset makes the check raise [TypeError] instead of returning a
    boolean; inside [count_failed_jobs_in_window] the job then degrades to
    a summary without failures. *)
Theorem time_window_offset_less_start_raises :
  fst (is_within_time_window (offline noon_2025_10_21)
         (JStr "2025-10-21T06:00:00") 12 initial_state)
  = Raise TypeError.
Proof. vm_compute. reflexivity. Qed.

(** ** The cache *)

Lemma requests_made_log_Get (u : string) (st : state) :
  requests_made (log (Get u) st) = requests_made st ++ [u].
Proof. unfold requests_made, log. simpl. now rewrite omap_app. Qed.

Lemma requests_made_log_Print (m : message) (st : state) :
  requests_made (log (Print m) st) = requests_made st.
Proof.
  unfold requests_made, log. simpl. rewrite omap_app. simpl. now rewrite app_nil_r.
Qed.

Lemma printed_log_Print (m : message) (st : state) :
  printed (log (Print m) st) = printed st ++ [m].
Proof. unfold printed, log. simpl. now rewrite omap_app. Qed.

(** The age test of an existing file: strictly younger than the maximum. *)
Lemma is_cache_valid_present (E : Env) (name : string) (f : file) (max : Z) (st : state) :
  files st !! name = Some f ->
  is_cache_valid E name max st
  = (Ok (clock E (ticks st) - st_mtime f <? timedelta_hours max), tick st).
Proof. intros H. unfold is_cache_valid. now rewrite H. Qed.

Lemma is_cache_valid_absent (E : Env) (name : string) (max : Z) (st : state) :
  files st !! name = None -> is_cache_valid E name max st = (Ok false, st).
Proof. intros H. unfold is_cache_valid. now rewrite H. Qed.

Lemma load_absent (E : Env) (job : string) (st : state) :
  files st !! get_cache_file_path job = None ->
  load_cached_job_data E job st = (Ok JNull, st).
Proof.
  intros H. unfold load_cached_job_data.
  now rewrite (bind_Ok _ _ _ _ _ (is_cache_valid_absent E _ 1 st H)).
Qed.

Lemma load_stale (E : Env) (job : string) (f : file) (st : state) :
  files st !! get_cache_file_path job = Some f ->
  timedelta_hours 1 <= clock E (ticks st) - st_mtime f ->
  load_cached_job_data E job st = (Ok JNull, tick st).
Proof.
  intros H Hage. unfold load_cached_job_data.
  rewrite (bind_Ok _ _ _ _ _ (is_cache_valid_present E _ f 1 st H)).
  destruct (Z.ltb_spec (clock E (ticks st) - st_mtime f) (timedelta_hours 1)); [lia |].
  reflexivity.
Qed.

Lemma load_fresh (E : Env) (job : string) (f : file) (st : state) :
  files st !! get_cache_file_path job = Some f ->
  clock E (ticks st) - st_mtime f < timedelta_hours 1 ->
  load_cached_job_data E job st
  = try_except
      (let* data := read_json E (get_cache_file_path job) in
       lift (Py.get_default data "builds" (JArr [])))
      is_IOError_or_JSONDecodeError
      (fun _ =>
         let* _ := print (WarningReadingCacheFile (get_cache_file_path job)) in
         ret JNull)
      (tick st).
Proof.
  intros H Hage. unfold load_cached_job_data.
  rewrite (bind_Ok _ _ _ _ _ (is_cache_valid_present E _ f 1 st H)).
  destruct (Z.ltb_spec (clock E (ticks st) - st_mtime f) (timedelta_hours 1)); [| lia].
  reflexivity.
Qed.

(** A fresh, readable entry that decodes to a dict yields its builds. *)
Lemma load_hit (E : Env) (job : string) (f : file) (st : state)
      (s : string) (d : list (string * json)) :
  files st !! get_cache_file_path job = Some f ->
  clock E (ticks st) - st_mtime f < timedelta_hours 1 ->
  body f = Text s ->
  json_loads E s = Some (JObj d) ->
  load_cached_job_data E job st
  = (Ok (default (JArr []) (Py.lookup "builds" d)), tick st).
Proof.
  intros H Hage Hb Hl. rewrite (load_fresh E job f st H Hage).
  unfold try_except, bind, read_json. cbn [files tick]. now rewrite H, Hb, Hl.
Qed.

(** A fresh entry that cannot be read or decoded is a miss with a warning. *)
Lemma load_corrupt (E : Env) (job : string) (f : file) (st : state) :
  files st !! get_cache_file_path job = Some f ->
  clock E (ticks st) - st_mtime f < timedelta_hours 1 ->
  body f = Unreadable \/ (exists s, body f = Text s /\ json_loads E s = None) ->
  load_cached_job_data E job st
  = (Ok JNull,
     log (Print (WarningReadingCacheFile (get_cache_file_path job))) (tick st)).
Proof.
  intros H Hage Hbad. rewrite (load_fresh E job f st H Hage).
  unfold try_except, bind, read_json. cbn [files tick].
  rewrite H. destruct Hbad as [Hb | (s & Hb & Hl)].
  - now rewrite Hb.
  - now rewrite Hb, Hl.
Qed.

(** A fresh entry whose bytes are not text: the [UnicodeDecodeError] of
    the read is none of the two classes the handler names, and leaves
    [load_cached_job_data] without a warning. *)
Lemma load_undecodable (E : Env) (job : string) (f : file) (st : state) :
  files st !! get_cache_file_path job = Some f ->
  clock E (ticks st) - st_mtime f < timedelta_hours 1 ->
  body f = Undecodable ->
  load_cached_job_data E job st = (Raise UnicodeDecodeError, tick st).
Proof.
  intros H Hage Hb. rewrite (load_fresh E job f st H Hage).
  unfold try_except, bind, read_json. cbn [files tick]. now rewrite H, Hb.
Qed.

(** A fresh entry that decodes to something other than a dict: the
    [AttributeError] of [data.get] leaves [load_cached_job_data] as well. *)
Lemma load_not_a_dict (E : Env) (job : string) (f : file) (st : state)
      (s : string) (v : json) :
  files st !! get_cache_file_path job = Some f ->
  clock E (ticks st) - st_mtime f < timedelta_hours 1 ->
  body f = Text s ->
  json_loads E s = Some v ->
  is_dict v = false ->
  load_cached_job_data E job st = (Raise AttributeError, tick st).
Proof.
  intros H Hage Hb Hl Hd. rewrite (load_fresh E job f st H Hage).
  unfold try_except, bind, read_json. cbn [files tick]. rewrite H, Hb, Hl.
  destruct v; try reflexivity. discriminate Hd.
Qed.


(** ** Fetching with and without the cache *)

Lemma fetch_builds_no_cache (E : Env) (job : string) (st : state) :
  fetch_builds E job false st = fetch_from_dashboard E job false st.
Proof. reflexivity. Qed.

Lemma fetch_builds_miss (E : Env) (job : string) (st st1 : state) :
  load_cached_job_data E job st = (Ok JNull, st1) ->
  fetch_builds E job true st = fetch_from_dashboard E job true st1.
Proof.
  intros H. unfold fetch_builds.
  rewrite (bind_Ok _ _ st st1 JNull); [reflexivity |].
  now rewrite (bind_Ok _ _ _ _ _ H).
Qed.

Lemma fetch_builds_hit (E : Env) (job : string) (st st1 : state) (l : list json) :
  load_cached_job_data E job st = (Ok (JArr l), st1) ->
  fetch_builds E job true st
  = (Ok (JArr l),
     match l with [] => st1 | _ => log (Print (UsingCachedData job)) st1 end).
Proof.
  intros H. unfold fetch_builds.
  rewrite (bind_Ok _ _ st
             (match l with [] => st1 | _ => log (Print (UsingCachedData job)) st1 end)
             (JArr l)); [reflexivity |].
  rewrite (bind_Ok _ _ _ _ _ H). destruct l; reflexivity.
Qed.

(** The dashboard is always requested by [fetch_from_dashboard], and
    nothing else is. *)
Lemma fetch_from_dashboard_requests (E : Env) (job : string) (uc : bool) (st : state) :
  requests_made (snd (fetch_from_dashboard E job uc st))
  = requests_made st ++ [job_url E job].
Proof.
  unfold fetch_from_dashboard, bind, fetch_job_history, try_except, http_get.
  destruct (requests_get E (job_url E job)) as [html|]; simpl.
  - unfold extract_builds_json, try_except.
    destruct (Re.search html) as [g|]; simpl.
    + destruct (json_loads E g) as [v|]; simpl.
      * destruct uc; simpl; apply requests_made_log_Get.
      * rewrite requests_made_log_Print. apply requests_made_log_Get.
    + rewrite requests_made_log_Print. apply requests_made_log_Get.
  - rewrite requests_made_log_Print. apply requests_made_log_Get.
Qed.


(** A successful fetch with caching stores the extracted builds. *)
Lemma fetch_from_dashboard_stores (E : Env) (job html g : string) (v : json) (st : state) :
  requests_get E (job_url E job) = Some html ->
  Re.search html = Some g ->
  json_loads E g = Some v ->
  fetch_from_dashboard E job true st
  = (Ok v,
     store (get_cache_file_path job)
       (cache_file_of E job v (clock E (ticks st)) (clock E (S (ticks st))))
       (tick (tick (log (Get (job_url E job)) st)))).
Proof.
  intros Hget Hs Hl.
  unfold fetch_from_dashboard, bind, fetch_job_history, try_except, http_get.
  rewrite Hget. rewrite (extract_builds_json_found E html g v _ Hs Hl).
  reflexivity.
Qed.

(** ** Staleness of cache entries *)

(** An entry whose age equals the maximum age, and so does not exceed it,
    is already refused. *)
Lemma cache_entry_refused_at_max_age :
  let st := cached_state "e2e" 0 (Text example_cache_text) in
  let E := offline (0 + timedelta_hours 1) in
  ~ (timedelta_hours 1 < clock E (ticks st) - 0)
  /\ fst (is_cache_valid E (get_cache_file_path "e2e") 1 st) = Ok false
  /\ fst (load_cached_job_data E "e2e" st) = Ok JNull.
Proof. vm_compute. repeat split; try reflexivity. intros H; discriminate H. Qed.

(** C4, as amended: an existing entry is valid exactly while its age is
    strictly less than the maximum age; with a maximum of one hour, an
    entry written at T is returned at T + 59 minutes and refused, the file
    still being there, at T + 61 minutes (and already at T + 60 minutes). *)
Theorem cache_staleness_boundary (E : Env) (job : string) (f : file) (st : state) :
  files st !! get_cache_file_path job = Some f ->
  let age := clock E (ticks st) - st_mtime f in
  (forall max,
      fst (is_cache_valid E (get_cache_file_path job) max st) = Ok true
      <-> age < timedelta_hours max)
  /\ (forall s d,
         age < timedelta_hours 1 ->
         body f = Text s ->
         json_loads E s = Some (JObj d) ->
         fst (load_cached_job_data E job st)
         = Ok (default (JArr []) (Py.lookup "builds" d)))
  /\ (timedelta_hours 1 <= age ->
      fst (load_cached_job_data E job st) = Ok JNull
      /\ files (snd (load_cached_job_data E job st)) !! get_cache_file_path job = Some f)
  /\ timedelta_minutes 59 < timedelta_hours 1 < timedelta_minutes 61.
Proof.
  intros H age. refine (conj _ (conj _ (conj _ _))).
  - intros max. rewrite (is_cache_valid_present E _ f max st H). simpl.
    fold age. destruct (Z.ltb_spec age (timedelta_hours max)); split; intros; try lia;
      try reflexivity; discriminate.
  - intros s d Hage Hb Hl. now rewrite (load_hit E job f st s d H Hage Hb Hl).
  - intros Hage. rewrite (load_stale E job f st H Hage). split; [reflexivity | exact H].
  - vm_compute. split; reflexivity.
Qed.

Lemma cache_staleness_boundary_witness :
  fst (load_cached_job_data (offline (timedelta_minutes 59)) "e2e"
         (cached_state "e2e" 0 (Text example_cache_text)))
  = Ok example_builds
  /\ fst (load_cached_job_data (offline (timedelta_minutes 61)) "e2e"
            (cached_state "e2e" 0 (Text example_cache_text)))
     = Ok JNull.
Proof.
  split.
  - refine (proj1 (proj2 (cache_staleness_boundary
                            (offline (timedelta_minutes 59)) "e2e"
                            {| st_mtime := 0; body := Text example_cache_text |}
                            (cached_state "e2e" 0 (Text example_cache_text)) _))
                  example_cache_text
                  [("job_name", JStr "e2e"); ("cached_at", JStr "2025-10-21T11:00:00");
                   ("builds", example_builds)] _ _ _).
    + vm_compute. reflexivity.
    + vm_compute. reflexivity.
    + reflexivity.
    + vm_compute. reflexivity.
  - refine (proj1 (proj1 (proj2 (proj2 (cache_staleness_boundary
                            (offline (timedelta_minutes 61)) "e2e"
                            {| st_mtime := 0; body := Text example_cache_text |}
                            (cached_state "e2e" 0 (Text example_cache_text)) _))) _)).
    + vm_compute. reflexivity.
    + vm_compute. intros H; discriminate H.
Defined.

(** ** Failures of one job stay inside the job *)

(** [count_failed_jobs_in_window] returns a summary or exits; it never
    raises to its caller. *)
Lemma count_never_raises (E : Env) (job : string) (h : Z) (uc : bool) (st : state) :
  match fst (count_failed_jobs_in_window E job h uc st) with
  | Raise _ => False
  | _ => True
  end.
Proof.
  unfold count_failed_jobs_in_window, try_except.
  destruct (count_failed_jobs_body E job h uc st) as [[s|e|c] st1]; simpl; exact I.
Qed.

Lemma latest_never_raises (E : Env) (job : string) (h : Z) (uc : bool) (st : state) :
  match fst (get_latest_failed_job E job h uc st) with
  | Raise _ => False
  | _ => True
  end.
Proof.
  unfold get_latest_failed_job, try_except.
  destruct (get_latest_failed_body E job h uc st) as [[s|e|c] st1]; simpl; exact I.
Qed.

(** An exception in the [try] block yields the zero-failure summary. *)
Lemma count_degrades (E : Env) (job : string) (h : Z) (uc : bool)
      (st st1 : state) (e : exn) :
  count_failed_jobs_body E job h uc st = (Raise e, st1) ->
  count_failed_jobs_in_window E job h uc st
  = (Ok (degraded_summary job), log (Print (WarningFailedToFetch job e)) st1).
Proof.
  intros H. unfold count_failed_jobs_in_window.
  now rewrite (try_except_caught _ _ _ _ _ _ H eq_refl).
Qed.

(** ** Corrupt cache entries *)

(** The two kinds of corrupt entry the handler names: a cache file that
    exists and is young enough, but cannot be opened or holds text that
    does not decode as JSON, is a miss: [load_cached_job_data] prints a
    warning and returns nothing, and the caller goes on to request the
    dashboard page. *)
Theorem corrupt_cache_entry_is_a_miss (E : Env) (job : string) (f : file) (st : state) :
  files st !! get_cache_file_path job = Some f ->
  clock E (ticks st) - st_mtime f < timedelta_hours 1 ->
  body f = Unreadable \/ (exists s, body f = Text s /\ json_loads E s = None) ->
  let warned :=
    log (Print (WarningReadingCacheFile (get_cache_file_path job))) (tick st) in
  load_cached_job_data E job st = (Ok JNull, warned)
  /\ printed warned = printed st ++ [WarningReadingCacheFile (get_cache_file_path job)]
  /\ fetch_builds E job true st = fetch_from_dashboard E job true warned
  /\ requests_made (snd (fetch_builds E job true st))
     = requests_made st ++ [job_url E job]
  /\ (forall h, match fst (count_failed_jobs_in_window E job h true st) with
                | Raise _ => False
                | _ => True
                end)
  /\ (forall h, match fst (get_latest_failed_job E job h true st) with
                | Raise _ => False
                | _ => True
                end).
Proof.
  intros H Hage Hbad warned.
  pose proof (load_corrupt E job f st H Hage Hbad) as Hload. fold warned in Hload.
  refine (conj Hload (conj _ (conj _ (conj _ (conj _ _))))).
  - unfold warned. rewrite printed_log_Print. reflexivity.
  - exact (fetch_builds_miss E job st warned Hload).
  - rewrite (fetch_builds_miss E job st warned Hload), fetch_from_dashboard_requests.
    unfold warned. rewrite requests_made_log_Print. reflexivity.
  - intros h. apply count_never_raises.
  - intros h. apply latest_never_raises.
Qed.

Lemma corrupt_cache_entry_is_a_miss_witness :
  (* an unreadable file *)
  fst (load_cached_job_data (offline (timedelta_minutes 5)) "e2e"
         (cached_state "e2e" 0 Unreadable))
  = Ok JNull
  (* a truncated file, with the dashboard answering *)
  /\ fetch_builds (online [(dashboard "e2e", example_page)] (timedelta_minutes 5) [])
                  "e2e" true (cached_state "e2e" 0 (Text "{"))
     = fetch_from_dashboard
         (online [(dashboard "e2e", example_page)] (timedelta_minutes 5) [])
         "e2e" true
         (log (Print (WarningReadingCacheFile (get_cache_file_path "e2e")))
              (tick (cached_state "e2e" 0 (Text "{")))).
Proof.
  split.
  - refine (f_equal fst (proj1 (corrupt_cache_entry_is_a_miss
              (offline (timedelta_minutes 5)) "e2e"
              {| st_mtime := 0; body := Unreadable |}
              (cached_state "e2e" 0 Unreadable) _ _ _))).
    + vm_compute. reflexivity.
    + vm_compute. reflexivity.
    + left. reflexivity.
  - refine (proj1 (proj2 (proj2 (corrupt_cache_entry_is_a_miss
              (online [(dashboard "e2e", example_page)] (timedelta_minutes 5) []) "e2e"
              {| st_mtime := 0; body := Text "{" |}
              (cached_state "e2e" 0 (Text "{")) _ _ _)))).
    + vm_compute. reflexivity.
    + vm_compute. reflexivity.
    + right. exists "{". split; [reflexivity | vm_compute; reflexivity].
Defined.

(** C8, at the failing input: the cache file of the job is young enough
    but holds bytes that are not text.  Reading it raises
    [UnicodeDecodeError], which is neither of the two classes the handler
    of [load_cached_job_data] names: no warning about the cache file is
    printed and the read is not a miss.  The exception reaches
    [count_failed_jobs_in_window], whose own handler reports the job
    without failures; the dashboard, which shows two failures in the
    window, is never requested, and the file stays in place.  A file that
    cannot be opened, in the same place, is the miss the handler provides
    for: a warning, then the dashboard and the detail page are requested
    and the two failures are counted. *)
Theorem undecodable_cache_entry_is_not_a_miss :
  load_cached_job_data history_env "e2e" undecodable_cache
  = (Raise UnicodeDecodeError, tick undecodable_cache)
  /\ fst (count_failed_jobs_in_window history_env "e2e" 12 true undecodable_cache)
     = Ok {| job_name := "e2e"; total_failures := 0;
             latest_failed := None; failure_details := [] |}
  /\ requests_made
       (snd (count_failed_jobs_in_window history_env "e2e" 12 true undecodable_cache))
     = []
  /\ printed
       (snd (count_failed_jobs_in_window history_env "e2e" 12 true undecodable_cache))
     = [WarningFailedToFetch "e2e" UnicodeDecodeError]
  /\ files
       (snd (count_failed_jobs_in_window history_env "e2e" 12 true undecodable_cache))
     = files undecodable_cache
  /\ fst (get_latest_failed_job history_env "e2e" 12 true undecodable_cache) = Ok None
  /\ option_map total_failures
       (match fst (count_failed_jobs_in_window history_env "e2e" 12 true
                     unreadable_cache) with
        | Ok s => Some s
        | _ => None
        end)
     = Some 2%nat
  /\ requests_made
       (snd (count_failed_jobs_in_window history_env "e2e" 12 true unreadable_cache))
     = [dashboard "e2e"; detail_url_103]
  /\ printed
       (snd (count_failed_jobs_in_window history_env "e2e" 12 true unreadable_cache))
     = [WarningReadingCacheFile (get_cache_file_path "e2e")].
Proof.
  refine (conj _ (conj _ (conj _ (conj _ (conj _ (conj _ (conj _ (conj _ _))))))));
    vm_compute; reflexivity.
Qed.

(** ** Cache hit, cache miss, caching disabled *)



(** ** Leaving the process *)

Lemma stays_now (E : Env) : stays (now E).
Proof. intros st. exact I. Qed.

Lemma stays_is_cache_valid (E : Env) name max : stays (is_cache_valid E name max).
Proof.
  intros st. unfold is_cache_valid. destruct (files st !! name); exact I.
Qed.

Lemma stays_read_json (E : Env) name : stays (read_json E name).
Proof.
  intros st. unfold read_json.
  destruct (files st !! name) as [f|]; [| exact I].
  destruct (body f) as [| |s]; [exact I | exact I |]. destruct (json_loads E s); exact I.
Qed.

Lemma stays_load (E : Env) job : stays (load_cached_job_data E job).
Proof.
  unfold load_cached_job_data. apply stays_bind; [apply stays_is_cache_valid |].
  intros valid. destruct valid; simpl; [| apply stays_ret].
  apply stays_try_except.
  - apply stays_bind; [apply stays_read_json |]. intros data.
    apply stays_lift, no_exit_get_default.
  - intros e. apply stays_bind; [apply stays_print | intros; apply stays_ret].
Qed.

Lemma stays_save (E : Env) job builds : stays (save_job_data_to_cache E job builds).
Proof.
  unfold save_job_data_to_cache. apply stays_bind; [apply stays_now |]. intros t.
  apply stays_bind; [apply stays_now |]. intros t'. intros st. exact I.
Qed.

Lemma stays_is_within_time_window (E : Env) v h : stays (is_within_time_window E v h).
Proof.
  unfold is_within_time_window.
  destruct (negb (Py.truthy v) || Py.eq_str v "Unknown"); [apply stays_ret |].
  destruct (parse_job_start_time E v) as [start|]; [| apply stays_ret].
  apply stays_bind; [apply stays_now |]. intros t.
  apply stays_bind.
  - apply stays_lift. unfold datetime_sub_hours.
    destruct (cutoff_in_range (wall (utc t)) h); exact I.
  - intros cutoff. apply stays_lift. unfold datetime_ge.
    destruct (utcoffset start), (utcoffset cutoff); exact I.
Qed.

Lemma stays_failed_jobs_in_window (E : Env) h l : stays (failed_jobs_in_window E h l).
Proof.
  unfold failed_jobs_in_window. apply stays_filterM. intros b.
  unfold started_in_window.
  apply stays_bind; [apply stays_lift, no_exit_get_default |].
  intros v. apply stays_is_within_time_window.
Qed.

Lemma no_exit_py_urljoin (E : Env) base v : no_exit (py_urljoin E base v).
Proof. unfold py_urljoin. destruct v; simpl; try exact I; destruct (_ : bool); exact I. Qed.

Lemma stays_http_get (E : Env) url : stays (http_get E url).
Proof. intros st. unfold http_get. destruct (requests_get E url); exact I. Qed.

Lemma stays_fetch_spyglass_page (E : Env) link : stays (fetch_spyglass_page E link).
Proof.
  unfold fetch_spyglass_page. apply stays_try_except.
  - apply stays_bind; [apply stays_lift, no_exit_py_urljoin |]. intros url.
    apply stays_bind; [apply stays_http_get |]. intros text. apply stays_ret.
  - intros e. apply stays_bind; [apply stays_print | intros; apply stays_ret].
Qed.

Lemma stays_resolve_artifacts_url (E : Env) link : stays (resolve_artifacts_url E link).
Proof.
  unfold resolve_artifacts_url. destruct (Py.truthy link); [| apply stays_ret].
  apply stays_bind; [apply stays_fetch_spyglass_page |].
  intros [html|]; [| apply stays_ret].
  destruct (negb (String.eqb html "")); apply stays_ret.
Qed.

Lemma stays_enrich (E : Env) latest : stays (enrich E latest).
Proof.
  unfold enrich.
  apply stays_bind; [apply stays_lift, no_exit_get_default |]. intros build_id.
  apply stays_bind; [apply stays_lift, no_exit_get_default |]. intros link.
  apply stays_bind; [apply stays_resolve_artifacts_url |]. intros artifacts_url.
  apply stays_bind; [apply stays_lift, no_exit_pr_numbers_of |]. intros prs.
  apply stays_bind.
  { destruct (Py.truthy link); [apply stays_lift, no_exit_py_urljoin | apply stays_ret]. }
  intros url.
  repeat (apply stays_bind; [apply stays_lift, no_exit_get_default | intros ?]).
  apply stays_ret.
Qed.

Lemma exits_with_1_fetch_job_history (E : Env) job : exits_with_1 (fetch_job_history E job).
Proof.
  intros st. unfold fetch_job_history, try_except, http_get.
  destruct (requests_get E (job_url E job)); simpl; [exact I | reflexivity].
Qed.

Lemma exits_with_1_extract (E : Env) html : exits_with_1 (extract_builds_json E html).
Proof.
  intros st. unfold extract_builds_json, try_except.
  destruct (Re.search html) as [g|]; simpl; [| reflexivity].
  destruct (json_loads E g); simpl; [exact I | reflexivity].
Qed.

Lemma exits_with_1_fetch_from_dashboard (E : Env) job uc :
  exits_with_1 (fetch_from_dashboard E job uc).
Proof.
  unfold fetch_from_dashboard.
  apply exits_with_1_bind; [apply exits_with_1_fetch_job_history |]. intros html.
  apply exits_with_1_bind; [apply exits_with_1_extract |]. intros fetched.
  apply stays_exits_with_1.
  apply stays_bind; [apply stays_when, stays_save | intros; apply stays_ret].
Qed.

Lemma stays_cache_probe (E : Env) job (uc : bool) :
  stays (if uc
         then let* cached := load_cached_job_data E job in
              let* _ := when (Py.truthy cached) (print (UsingCachedData job)) in
              ret cached
         else ret JNull).
Proof.
  destruct uc; [| apply stays_ret].
  apply stays_bind; [apply stays_load |]. intros cached.
  apply stays_bind; [apply stays_when, stays_print | intros; apply stays_ret].
Qed.

Lemma exits_with_1_fetch_builds (E : Env) job uc : exits_with_1 (fetch_builds E job uc).
Proof.
  unfold fetch_builds.
  apply exits_with_1_bind; [apply stays_exits_with_1, stays_cache_probe |].
  intros builds.
  destruct builds; try (apply stays_exits_with_1, stays_ret).
  apply exits_with_1_fetch_from_dashboard.
Qed.

(** What follows the fetch in the [try] block of
    [count_failed_jobs_in_window] never exits. *)
Lemma stays_after_fetch (E : Env) (job : string) (h : Z) (builds : json) :
  stays (let* failed_jobs := lift (get_failed_jobs builds) in
         let* in_window := failed_jobs_in_window E h failed_jobs in
         let* latest_failed_info :=
           match in_window with
           | [] => ret None
           | latest :: _ => let* info := enrich E latest in ret (Some info)
           end in
         let* details := lift (mapR detail_of in_window) in
         ret {| job_name := job;
                total_failures := length in_window;
                latest_failed := latest_failed_info;
                failure_details := details |}).
Proof.
  apply stays_bind; [apply stays_lift, no_exit_get_failed_jobs |]. intros failed.
  apply stays_bind; [apply stays_failed_jobs_in_window |]. intros in_window.
  apply stays_bind.
  { destruct in_window as [|latest rest]; [apply stays_ret |].
    apply stays_bind; [apply stays_enrich | intros; apply stays_ret]. }
  intros info.
  apply stays_bind; [apply stays_lift, no_exit_mapR, no_exit_detail_of |].
  intros details. apply stays_ret.
Qed.

Lemma exits_with_1_count_body (E : Env) job h uc :
  exits_with_1 (count_failed_jobs_body E job h uc).
Proof.
  unfold count_failed_jobs_body.
  apply exits_with_1_bind; [apply exits_with_1_fetch_builds |]. intros builds.
  apply stays_exits_with_1, stays_after_fetch.
Qed.

Lemma exits_with_1_count (E : Env) job h uc :
  exits_with_1 (count_failed_jobs_in_window E job h uc).
Proof.
  unfold count_failed_jobs_in_window.
  apply exits_with_1_try_except; [apply exits_with_1_count_body |].
  intros e. apply stays_exits_with_1.
  apply stays_bind; [apply stays_print | intros; apply stays_ret].
Qed.

(** ** The summary's invariant *)

Lemma mapR_length {A B} (f : A -> result B) (l : list A) (l' : list B) :
  mapR f l = Ok l' -> length l' = length l.
Proof.
  revert l'. induction l as [|x l IH]; simpl; intros l' H.
  - now inversion H.
  - apply rbind_Ok_inv in H as (y & _ & H).
    apply rbind_Ok_inv in H as (ys & Hys & H).
    inversion H; subst. simpl. now rewrite (IH ys Hys).
Qed.

(** The shape of a summary that comes out of the [try] block. *)
Lemma count_body_shape (E : Env) (job : string) (h : Z) (uc : bool)
      (st st' : state) (s : summary) :
  count_failed_jobs_body E job h uc st = (Ok s, st') ->
  exists in_window : list json,
    job_name s = job
    /\ total_failures s = length in_window
    /\ length (failure_details s) = length in_window
    /\ (is_Some (latest_failed s) <-> in_window <> []).
Proof.
  unfold count_failed_jobs_body. intros H.
  apply bind_Ok_inv in H as (builds & st1 & _ & H).
  apply bind_Ok_inv in H as (failed & st2 & _ & H).
  apply bind_Ok_inv in H as (in_window & st3 & _ & H).
  apply bind_Ok_inv in H as (info & st4 & Hinfo & H).
  apply bind_Ok_inv in H as (details & st5 & Hdetails & H).
  apply lift_Ok_inv in Hdetails as [Hdetails _].
  inversion H; subst; clear H. exists in_window. simpl.
  repeat split; try reflexivity.
  - exact (mapR_length _ _ _ Hdetails).
  - destruct in_window as [|latest rest]; [| discriminate].
    inversion Hinfo; subst. intros [x Hx]. discriminate Hx.
  - destruct in_window as [|latest rest]; [congruence |]. intros _.
    apply bind_Ok_inv in Hinfo as (i & st6 & _ & Hret). inversion Hret; subst. eauto.
Qed.

Lemma degraded_summary_invariant (job : string) : summary_invariant (degraded_summary job).
Proof.
  split; [reflexivity |]. simpl. split; [intros [x Hx]; discriminate Hx | lia].
Qed.

(** C10: whatever the job, the window and the cache setting, a summary
    returned by [count_failed_jobs_in_window] has [total_failures] equal to
    the length of [failure_details] and a [latest_failed] exactly when
    [total_failures] is positive; the function returns such a summary or
    exits with status 1, and on the [except] path the summary is the one
    with zero failures, no details and no latest failure. *)
Theorem summary_invariant_always (E : Env) (job : string) (h : Z) (uc : bool) (st : state) :
  match fst (count_failed_jobs_in_window E job h uc st) with
  | Ok s => job_name s = job /\ summary_invariant s
  | Raise _ => False
  | Exit c => c = 1
  end
  /\ (forall e st1,
         count_failed_jobs_body E job h uc st = (Raise e, st1) ->
         fst (count_failed_jobs_in_window E job h uc st) = Ok (degraded_summary job))
  /\ total_failures (degraded_summary job) = 0%nat
  /\ failure_details (degraded_summary job) = []
  /\ latest_failed (degraded_summary job) = None.
Proof.
  refine (conj _ (conj _ (conj eq_refl (conj eq_refl eq_refl)))).
  - pose proof (exits_with_1_count E job h uc st) as Hexit.
    unfold count_failed_jobs_in_window, try_except in *.
    destruct (count_failed_jobs_body E job h uc st) as [[s|e|c] st1] eqn:Hbody; simpl in *.
    + destruct (count_body_shape E job h uc st st1 s Hbody)
        as (in_window & Hjob & Htotal & Hlen & Hlatest).
      split; [exact Hjob |]. split; [congruence |].
      rewrite Hlatest, Htotal. destruct in_window; simpl; split; intros; try lia; congruence.
    + split; [reflexivity | apply degraded_summary_invariant].
    + exact Hexit.
  - intros e st1 Hbody. now rewrite (count_degrades E job h uc st st1 e Hbody).
Qed.

(** ** Batches *)

Lemma dashboard_readable_true (E : Env) (job : string) :
  dashboard_readable E job = true ->
  exists html g v,
    requests_get E (job_url E job) = Some html
    /\ Re.search html = Some g /\ json_loads E g = Some v.
Proof.
  unfold dashboard_readable.
  destruct (requests_get E (job_url E job)) as [html|] eqn:Hget; [| discriminate].
  destruct (Re.search html) as [g|] eqn:Hs; [| discriminate].
  destruct (json_loads E g) as [v|] eqn:Hl; [| discriminate].
  intros _. exists html, g, v. auto.
Qed.

Lemma fetch_from_dashboard_plain (E : Env) (job html g : string) (v : json) (st : state) :
  requests_get E (job_url E job) = Some html ->
  Re.search html = Some g ->
  json_loads E g = Some v ->
  fetch_from_dashboard E job false st = (Ok v, log (Get (job_url E job)) st).
Proof.
  intros Hget Hs Hl.
  unfold fetch_from_dashboard, bind, fetch_job_history, try_except, http_get.
  rewrite Hget. rewrite (extract_builds_json_found E html g v _ Hs Hl). reflexivity.
Qed.

Lemma stays_fetch_builds_readable (E : Env) (job : string) (uc : bool) :
  dashboard_readable E job = true -> stays (fetch_builds E job uc).
Proof.
  intros Hr. apply dashboard_readable_true in Hr as (html & g & v & Hget & Hs & Hl).
  unfold fetch_builds. apply stays_bind; [apply stays_cache_probe |].
  intros builds. destruct builds; try apply stays_ret.
  intros st. destruct uc.
  - now rewrite (fetch_from_dashboard_stores E job html g v st Hget Hs Hl).
  - now rewrite (fetch_from_dashboard_plain E job html g v st Hget Hs Hl).
Qed.

(** With a readable dashboard the per-job operation returns a summary. *)
Lemma count_returns (E : Env) (job : string) (h : Z) (uc : bool) (st : state) :
  dashboard_readable E job = true ->
  exists s st',
    count_failed_jobs_in_window E job h uc st = (Ok s, st')
    /\ job_name s = job /\ summary_invariant s.
Proof.
  intros Hr.
  assert (Hstay : no_exit (fst (count_failed_jobs_body E job h uc st))).
  { unfold count_failed_jobs_body.
    apply stays_bind; [now apply stays_fetch_builds_readable |].
    intros builds. apply stays_after_fetch. }
  unfold count_failed_jobs_in_window, try_except.
  destruct (count_failed_jobs_body E job h uc st) as [[s|e|c] st1] eqn:Hbody; simpl in *.
  - exists s, st1. split; [reflexivity |].
    destruct (count_body_shape E job h uc st st1 s Hbody)
      as (in_window & Hjob & Htotal & Hlen & Hlatest).
    split; [exact Hjob |]. split; [congruence |].
    rewrite Hlatest, Htotal. destruct in_window; simpl; split; intros; try lia; congruence.
  - eexists _, _. split; [reflexivity |].
    split; [reflexivity | apply degraded_summary_invariant].
  - destruct Hstay.
Qed.

Lemma mapM_all_return {A B} (f : A -> M B) (P : A -> B -> Prop) (l : list A) :
  (forall x, In x l -> forall st, exists y st', f x st = (Ok y, st') /\ P x y) ->
  forall st, exists ys st', mapM f l st = (Ok ys, st') /\ Forall2 P l ys.
Proof.
  induction l as [|x l IH]; intros Hf st; simpl.
  - exists [], st. split; [reflexivity | constructor].
  - destruct (Hf x (or_introl eq_refl) st) as (y & st1 & Hy & HP).
    destruct (IH (fun x' Hx' => Hf x' (or_intror Hx')) st1) as (ys & st2 & Hys & HPs).
    exists (y :: ys), st2. split; [| now constructor].
    rewrite (bind_Ok _ _ _ _ _ Hy), (bind_Ok _ _ _ _ _ Hys). reflexivity.
Qed.

Lemma dict_get_set_eq {V} (k : string) (v : V) (d : list (string * V)) :
  dict_get k (dict_set k v d) = Some v.
Proof.
  induction d as [|[k' v'] d IH]; simpl.
  - now rewrite String.eqb_refl.
  - destruct (String.eqb k' k) eqn:Ek; simpl; now rewrite Ek.
Qed.

Lemma dict_get_set_ne {V} (k k' : string) (v : V) (d : list (string * V)) :
  k <> k' -> dict_get k' (dict_set k v d) = dict_get k' d.
Proof.
  intros Hne. induction d as [|[k0 v0] d IH]; simpl.
  - destruct (String.eqb_spec k k'); [contradiction | reflexivity].
  - destruct (String.eqb_spec k0 k) as [-> | Hk]; simpl.
    + destruct (String.eqb_spec k k'); [contradiction | reflexivity].
    + now rewrite IH.
Qed.

(** One release's column: every job of the list ends up with a summary,
    and the entries already there for other jobs are kept. *)
Lemma release_column_complete (E : Env) (release : string) (h : Z) (uc : bool)
      (jobs : list string) :
  forallb (fun job => dashboard_readable E (construct_full_job_name job release)) jobs
  = true ->
  forall (data : list (string * summary)) (st : state),
  exists column st',
    release_column E release h uc jobs data st = (Ok column, st')
    /\ (forall job,
           In job jobs ->
           exists s, dict_get job column = Some s
                     /\ job_name s = construct_full_job_name job release
                     /\ summary_invariant s)
    /\ (forall job, ~ In job jobs -> dict_get job column = dict_get job data).
Proof.
  induction jobs as [|job jobs IH]; intros Hall data st; simpl.
  - exists data, st. split; [reflexivity | split; [intros job [] | reflexivity]].
  - simpl in Hall. apply andb_true_iff in Hall as [Hjob Hall].
    destruct (count_returns E (construct_full_job_name job release) h uc
                (log (Print (CheckingJobForRelease job release)) st) Hjob)
      as (s & st1 & Hs & Hname & Hinv).
    destruct (IH Hall (dict_set job s data) st1) as (column & st2 & Hrun & Hin & Hout).
    exists column, st2. split; [| split].
    + unfold bind at 1. simpl. now rewrite (bind_Ok _ _ _ _ _ Hs).
    + intros j [<- | Hj].
      * destruct (in_dec String.string_dec job jobs) as [Hmem | Hmem]; [now apply Hin |].
        exists s. rewrite (Hout job Hmem), dict_get_set_eq.
        split; [reflexivity | split; assumption].
      * now apply Hin.
    + intros j Hj. rewrite Hout by tauto.
      apply dict_get_set_ne. intros ->. apply Hj. now left.
Qed.

Lemma release_rows_complete (E : Env) (h : Z) (uc : bool) (jobs releases : list string) :
  dashboards_readable E releases jobs = true ->
  forall (matrix : list (string * list (string * summary))) (st : state),
  exists m st',
    release_rows E h uc jobs releases matrix st = (Ok m, st')
    /\ (forall release job, In release releases -> In job jobs -> cell_filled m release job)
    /\ (forall release, ~ In release releases -> dict_get release m = dict_get release matrix).
Proof.
  unfold dashboards_readable.
  induction releases as [|release releases IH]; intros Hall matrix st; simpl.
  - exists matrix, st. split; [reflexivity | split; [intros r j [] | reflexivity]].
  - simpl in Hall. apply andb_true_iff in Hall as [Hrel Hall].
    destruct (release_column_complete E release h uc jobs Hrel []
                (log (Print (ProcessingRelease release)) st))
      as (column & st1 & Hcol & Hin & _).
    destruct (IH Hall (dict_set release column matrix) st1) as (m & st2 & Hrun & Hcells & Hout).
    exists m, st2. split; [| split].
    + unfold bind at 1. simpl. now rewrite (bind_Ok _ _ _ _ _ Hcol).
    + intros r j [<- | Hr] Hj.
      * destruct (in_dec String.string_dec release releases) as [Hmem | Hmem];
          [now apply Hcells |].
        destruct (Hin j Hj) as (s & Hget & Hname & Hinv).
        exists column, s. rewrite (Hout release Hmem), dict_get_set_eq.
        split; [reflexivity | split; [assumption | split; assumption]].
      * now apply Hcells.
    + intros r Hr. rewrite Hout by tauto.
      apply dict_get_set_ne. intros ->. apply Hr. now left.
Qed.

(** C1, at the failing input: three jobs, the second with a dashboard page
    without the embedded array.  The process exits with status 1 while the
    second job is being fetched: no summary is returned, by the aggregator
    or by the release matrix, and the third job is never looked at.  The
    same happens when the second job's dashboard cannot be fetched.  When
    instead the second job's page decodes to something that is not a list
    of records, an ordinary exception, the handler of
    [count_failed_jobs_in_window] gives that job the summary without
    failures and the other two jobs are reported. *)
Theorem batch_aborted_by_one_extraction_failure :
  fst (get_multiple_periodic_jobs_counts (three_jobs "<html>maintenance</html>")
         "4.21" None 12 true initial_state)
  = Exit 1
  /\ requests_made
       (snd (get_multiple_periodic_jobs_counts (three_jobs "<html>maintenance</html>")
               "4.21" None 12 true initial_state))
     = [dashboard (periodic "a"); dashboard (periodic "b")]
  /\ fst (get_multi_release_counts (three_jobs "<html>maintenance</html>")
            ["4.21"] None 12 true initial_state)
     = Exit 1
  /\ ~ (exists l st',
          get_multiple_periodic_jobs_counts (three_jobs "<html>maintenance</html>")
            "4.21" None 12 true initial_state = (Ok l, st')
          /\ length l = 3%nat)
  /\ fst (get_multiple_periodic_jobs_counts
            (online [(dashboard (periodic "a"), example_page);
                     (dashboard (periodic "c"), example_page)]
                    noon_2025_10_21 ["a"; "b"; "c"])
            "4.21" None 12 true initial_state)
     = Exit 1
  /\ fst (get_multiple_periodic_jobs_counts (three_jobs "var allBuilds = 5;")
            "4.21" None 12 true initial_state)
     = Ok [example_summary (periodic "a");
           degraded_summary (periodic "b");
           example_summary (periodic "c")].
Proof.
  assert (H : fst (get_multiple_periodic_jobs_counts (three_jobs "<html>maintenance</html>")
                     "4.21" None 12 true initial_state) = Exit 1)
    by (vm_compute; reflexivity).
  refine (conj H (conj _ (conj _ (conj _ (conj _ _))))).
  - vm_compute. reflexivity.
  - vm_compute. reflexivity.
  - intros (l & st' & Hrun & _). rewrite Hrun in H. discriminate H.
  - vm_compute. reflexivity.
  - vm_compute. reflexivity.
Qed.

(** When every job's dashboard page can be fetched and its embedded
    array decoded, the multi-job aggregator returns one
    summary per job, in the order of the job list, and the release matrix
    has a summary in the cell of every job and release, each satisfying
    the summary invariant; a job whose processing raises an exception gets
    the summary with zero failures and no latest failure, and the loop
    goes on.  Both return the summaries only. *)
Theorem batch_returns_every_summary (E : Env) (releases : list string) (h : Z) (uc : bool)
        (st : state) :
  dashboards_readable E releases (fetch_prow_job_names E) = true ->
  (forall release,
      In release releases ->
      exists l st',
        get_multiple_periodic_jobs_counts E release None h uc st = (Ok l, st')
        /\ Forall2 (fun job s => job_name s = construct_full_job_name job release
                                 /\ summary_invariant s)
                   (fetch_prow_job_names E) l)
  /\ (exists m st',
         get_multi_release_counts E releases None h uc st = (Ok m, st')
         /\ forall release job,
              In release releases -> In job (fetch_prow_job_names E) ->
              rm_job_names m = fetch_prow_job_names E
              /\ rm_releases m = releases
              /\ cell_filled (rm_matrix m) release job)
  /\ (forall job st0 e st1,
         count_failed_jobs_body E job h uc st0 = (Raise e, st1) ->
         count_failed_jobs_in_window E job h uc st0
         = (Ok (degraded_summary job), log (Print (WarningFailedToFetch job e)) st1)).
Proof.
  intros Hall.
  refine (conj _ (conj _ (fun job st0 e st1 => count_degrades E job h uc st0 st1 e))).
  - intros release Hrel.
    assert (Hjobs : forall job, In job (fetch_prow_job_names E) ->
                                dashboard_readable E (construct_full_job_name job release)
                                = true).
    { unfold dashboards_readable in Hall. rewrite forallb_forall in Hall.
      specialize (Hall release Hrel). now rewrite forallb_forall in Hall. }
    unfold get_multiple_periodic_jobs_counts. simpl.
    destruct (fetch_prow_job_names E) as [|j js] eqn:Hnames.
    + eexists [], _. split; [reflexivity | constructor].
    + rewrite <- Hnames in *.
      destruct (mapM_all_return (count_one E release h uc)
                  (fun job s => job_name s = construct_full_job_name job release
                                /\ summary_invariant s)
                  (fetch_prow_job_names E)) with
        (st := log (Print (FoundJobsInConfig (length (fetch_prow_job_names E))))
                   (log (Print FetchingJobNames) st))
        as (l & st1 & Hrun & Hl).
      { intros job Hin st0. unfold count_one.
        destruct (count_returns E (construct_full_job_name job release) h uc
                    (log (Print (CountingFailuresFor job)) st0) (Hjobs job Hin))
          as (s & st' & Hs & Hname & Hinv).
        exists s, st'. split; [| now split]. exact Hs. }
      eexists l, _. split; [| exact Hl].
      unfold bind at 1. simpl. unfold bind at 1. simpl.
      rewrite (bind_Ok _ _ _ _ _ Hrun). reflexivity.
  - unfold get_multi_release_counts. simpl.
    destruct (fetch_prow_job_names E) as [|j js] eqn:Hnames.
    + eexists _, _. split; [reflexivity |]. intros release job _ [].
    + rewrite <- Hnames in *.
      destruct (release_rows_complete E h uc (fetch_prow_job_names E) releases Hall []
                  (log (Print (FoundJobsForReleases (length (fetch_prow_job_names E))
                                                    (length releases))) st))
        as (m & st1 & Hrun & Hcells & _).
      replace (length (fetch_prow_job_names E)) with (S (length js)) in Hrun
        by now rewrite Hnames.
      eexists _, st1. split.
      * unfold bind at 1. simpl.
        rewrite (bind_Ok _ _ _ _ _ Hrun). reflexivity.
      * intros release job Hr Hj. simpl.
        split; [reflexivity | split; [reflexivity | now apply Hcells]].
Qed.

(** ** Summarising well-formed build lists *)

Lemma filterR_pure {A} (p : A -> result bool) (q : A -> bool) (l : list A) :
  (forall x, In x l -> p x = Ok (q x)) -> filterR p l = Ok (List.filter q l).
Proof.
  induction l as [|x l IH]; intros H; simpl; [reflexivity |].
  rewrite (H x (or_introl eq_refl)). simpl.
  rewrite (IH (fun y Hy => H y (or_intror Hy))). simpl.
  destruct (q x); reflexivity.
Qed.

Lemma mapR_pure {A B} (f : A -> result B) (g : A -> B) (l : list A) :
  (forall x, In x l -> f x = Ok (g x)) -> mapR f l = Ok (map g l).
Proof.
  induction l as [|x l IH]; intros H; simpl; [reflexivity |].
  rewrite (H x (or_introl eq_refl)). simpl.
  rewrite (IH (fun y Hy => H y (or_intror Hy))). reflexivity.
Qed.

Lemma is_dict_inv (b : json) : is_dict b = true -> exists d, b = JObj d.
Proof. destruct b; try discriminate. eauto. Qed.

(** On a list of dicts, [get_failed_jobs] keeps exactly the records whose
    result is the string [FAILURE], in order. *)
Lemma get_failed_jobs_dicts (elems : list json) :
  forallb is_dict elems = true ->
  get_failed_jobs (JArr elems) = Ok (List.filter is_FAILURE elems).
Proof.
  intros H. unfold get_failed_jobs. simpl. apply filterR_pure.
  intros b Hb. rewrite forallb_forall in H.
  destruct (is_dict_inv b (H b Hb)) as [d ->]. reflexivity.
Qed.

Lemma forallb_filter {A} (p q : A -> bool) (l : list A) :
  forallb p l = true -> forallb p (List.filter q l) = true.
Proof.
  rewrite !forallb_forall. intros H x Hx. apply filter_In in Hx as [Hx _]. auto.
Qed.

(** With the clock stopped at [t] and a cutoff that is a datetime, the
    window test of a record whose start time is unknown or has an offset
    is [started_within]. *)
Lemma started_in_window_stopped (E : Env) (t h : Z) (b : json) (st : state) :
  (forall n, clock E n = t) ->
  cutoff_in_range t h = true ->
  is_dict b = true ->
  started_has_offset E b = true ->
  exists st',
    started_in_window E h b st = (Ok (started_within E t h b), st')
    /\ files st' = files st /\ trace st' = trace st.
Proof.
  intros Hclock Hr Hd Ho. destruct (is_dict_inv b Hd) as [d ->].
  unfold started_in_window, started_within, started_has_offset in *. simpl in *.
  set (v := default (JStr "Unknown") (Py.lookup "Started" d)) in *.
  unfold bind, lift at 1.
  destruct (negb (Py.truthy v) || Py.eq_str v "Unknown") eqn:G.
  - exists st. rewrite is_within_time_window_unknown; [now repeat split |].
    apply orb_true_iff in G as [G | G].
    + left. now apply negb_true_iff in G.
    + right; left. now apply eq_str_true in G.
  - apply orb_false_iff in G as [Gt Gu]. apply negb_false_iff in Gt.
    assert (Hu : v <> JStr "Unknown").
    { intros Hv. apply eq_str_true in Hv. congruence. }
    destruct (parse_job_start_time E v) as [start|] eqn:Hp.
    + destruct (utcoffset start) as [o|] eqn:Hoff; [| discriminate].
      exists (tick st).
      rewrite (is_within_time_window_aware E v h st start (wall start - o) Gt Hu Hp)
        by (first [unfold instant; now rewrite Hoff | now rewrite Hclock]).
      unfold instant. rewrite Hoff, Hclock. now repeat split.
    + exists st. rewrite is_within_time_window_unknown by auto. now repeat split.
Qed.

Lemma failed_jobs_in_window_stopped (E : Env) (t h : Z) (l : list json) (st : state) :
  (forall n, clock E n = t) ->
  cutoff_in_range t h = true ->
  forallb (fun b => is_dict b && started_has_offset E b) l = true ->
  exists st',
    failed_jobs_in_window E h l st = (Ok (List.filter (started_within E t h) l), st')
    /\ files st' = files st /\ trace st' = trace st.
Proof.
  intros Hclock Hr. revert st. unfold failed_jobs_in_window.
  induction l as [|b l IH]; intros st H; simpl.
  - exists st. now repeat split.
  - simpl in H. apply andb_true_iff in H as [Hb Hl].
    apply andb_true_iff in Hb as [Hd Ho].
    destruct (started_in_window_stopped E t h b st Hclock Hr Hd Ho)
      as (st1 & Hrun & Hf & Ht).
    destruct (IH st1 Hl) as (st2 & Hrest & Hf2 & Ht2).
    exists st2. rewrite (bind_Ok _ _ _ _ _ Hrun), (bind_Ok _ _ _ _ _ Hrest).
    split; [| split; congruence].
    unfold ret. destruct (started_within E t h b); reflexivity.
Qed.

(** The enriched copy of a well-formed record. *)
Lemma enrich_well_formed (E : Env) (b : json) (st : state) :
  well_formed_build E b = true ->
  exists st', enrich E b st = (Ok (enriched E b), st') /\ files st' = files st.
Proof.
  unfold well_formed_build. intros H.
  apply andb_true_iff in H as [H Hrefs]. apply andb_true_iff in H as [H Hlink].
  apply andb_true_iff in H as [Hd _]. destruct (is_dict_inv b Hd) as [d ->].
  unfold refs_are_readable in Hrefs.
  destruct (pr_numbers_of (JObj d)) as [prs| |] eqn:Hprs; try discriminate.
  unfold link_is_text in Hlink.
  unfold enrich, enriched, detail_page_url, resolved_artifacts_url.
  rewrite Hprs. simpl field in *. simpl Py.get_default.
  remember (default (JStr "") (Py.lookup "SpyglassLink" d)) as link eqn:Hlk.
  clear Hlk.
  unfold bind at 1, lift at 1. unfold bind at 1, lift at 1.
  assert (Hres : exists st',
             resolve_artifacts_url E link st
             = (Ok match link with
                   | JStr s =>
                       if String.eqb s "" then ""
                       else match requests_get E (urljoin E PROW_BASE_URL s) with
                            | Some html =>
                                if String.eqb html "" then ""
                                else default "" (extract_artifacts_url E html)
                            | None => ""
                            end
                   | _ => ""
                   end, st')
             /\ files st' = files st).
  { unfold resolve_artifacts_url.
    destruct link as [| | | |s| |];
      try (cbv beta iota in Hlink; apply negb_true_iff in Hlink;
           rewrite Hlink; exists st; now split).
    cbn [Py.truthy]. destruct (String.eqb s "") eqn:Es; simpl; [exists st; now split |].
    unfold fetch_spyglass_page, try_except, bind, lift, py_urljoin, http_get.
    destruct (requests_get E (urljoin E PROW_BASE_URL s)) as [html|]; simpl.
    - destruct (String.eqb html ""); simpl; eexists; split; reflexivity.
    - eexists; split; reflexivity. }
  destruct Hres as (st1 & Hres & Hfiles).
  rewrite (bind_Ok _ _ _ _ _ Hres).
  unfold bind, lift, ret.
  exists st1. split; [| exact Hfiles].
  destruct link as [| | | |s| |];
    try (cbv beta iota in Hlink; apply negb_true_iff in Hlink;
         rewrite Hlink; reflexivity).
  cbn [Py.truthy]. destruct (String.eqb s ""); reflexivity.
Qed.

Lemma detail_of_dict (b : json) : is_dict b = true -> detail_of b = Ok (detail b).
Proof. intros H. destruct (is_dict_inv b H) as [d ->]. reflexivity. Qed.

(** The summary of a well-formed build list, with the clock stopped and
    a cutoff that is a datetime. *)
Lemma count_on_well_formed_builds (E : Env) (job : string) (h : Z) (uc : bool)
      (st st1 : state) (elems : list json) (t : Z) :
  (forall n, clock E n = t) ->
  cutoff_in_range t h = true ->
  fetch_builds E job uc st = (Ok (JArr elems), st1) ->
  forallb (well_formed_build E) elems = true ->
  exists st',
    count_failed_jobs_in_window E job h uc st
    = (Ok (summary_of E job (failures_in_window E t h elems)), st').
Proof.
  intros Hclock Hr Hfetch Hwf.
  assert (Hall : forall b, In b elems -> well_formed_build E b = true)
    by (now apply forallb_forall).
  assert (Hdicts : forallb is_dict elems = true).
  { apply forallb_forall. intros b Hb. specialize (Hall b Hb).
    unfold well_formed_build in Hall. now repeat (apply andb_true_iff in Hall as [Hall _]). }
  set (failed := List.filter is_FAILURE elems).
  assert (Hfailed_wf : forall b, In b failed -> well_formed_build E b = true).
  { intros b Hb. apply filter_In in Hb as [Hb _]. auto. }
  assert (Hoff : forallb (fun b => is_dict b && started_has_offset E b) failed = true).
  { apply forallb_forall. intros b Hb. specialize (Hfailed_wf b Hb).
    unfold well_formed_build in Hfailed_wf.
    apply andb_true_iff in Hfailed_wf as [Hw _]. now apply andb_true_iff in Hw as [Hw _]. }
  destruct (failed_jobs_in_window_stopped E t h failed st1 Hclock Hr Hoff)
    as (st2 & Hwin & _ & _).
  fold (failures_in_window E t h elems) in Hwin.
  set (in_window := failures_in_window E t h elems) in *.
  assert (Hin_wf : forall b, In b in_window -> well_formed_build E b = true).
  { intros b Hb. apply filter_In in Hb as [Hb _]. auto. }
  assert (Hdetails : mapR detail_of in_window = Ok (map detail in_window)).
  { apply mapR_pure. intros b Hb. apply detail_of_dict.
    specialize (Hin_wf b Hb). unfold well_formed_build in Hin_wf.
    now repeat (apply andb_true_iff in Hin_wf as [Hin_wf _]). }
  assert (Hlatest : exists st3,
             match in_window with
             | [] => ret None
             | latest :: _ => let* info := enrich E latest in ret (Some info)
             end st2
             = (Ok match in_window with
                   | [] => None
                   | latest :: _ => Some (enriched E latest)
                   end, st3)).
  { destruct in_window as [|latest rest]; [now exists st2 |].
    destruct (enrich_well_formed E latest st2 (Hin_wf latest (or_introl eq_refl)))
      as (st3 & Hen & _).
    exists st3. now rewrite (bind_Ok _ _ _ _ _ Hen). }
  destruct Hlatest as (st3 & Hlatest).
  exists st3. unfold count_failed_jobs_in_window. apply try_except_Ok.
  unfold count_failed_jobs_body.
  rewrite (bind_Ok _ _ _ _ _ Hfetch).
  rewrite (get_failed_jobs_dicts elems Hdicts). unfold bind at 1, lift at 1.
  fold failed. rewrite (bind_Ok _ _ _ _ _ Hwin).
  rewrite (bind_Ok _ _ _ _ _ Hlatest).
  change (List.filter (started_within E t h) failed) with in_window.
  rewrite Hdetails. reflexivity.
Qed.

Lemma is_FAILURE_exactly (d : list (string * json)) :
  is_FAILURE (JObj d) = true <-> Py.lookup "Result" d = Some (JStr "FAILURE").
Proof.
  unfold is_FAILURE. simpl. rewrite eq_str_true.
  destruct (Py.lookup "Result" d) as [v|]; simpl.
  - split; [now intros -> | now intros [= ->]].
  - split; discriminate.
Qed.

(** Where the summary is the one described: for a list of build records
    (dicts whose start time is unknown or carries an offset), with the
    clock stopped at [t] and a cutoff that is a datetime, the summary
    counts exactly the records whose result is the string [FAILURE] and
    whose start lies in the window, kept in dashboard order;
    [total_failures] is their number, [failure_details] lists them, and
    the first of them, if any, is [latest_failed] with its pull-request
    numbers. *)
Theorem summarize_counts_failures_in_window
        (E : Env) (job : string) (h : Z) (uc : bool) (st st1 : state)
        (elems : list json) (t : Z) :
  (forall n, clock E n = t) ->
  cutoff_in_range t h = true ->
  fetch_builds E job uc st = (Ok (JArr elems), st1) ->
  forallb (well_formed_build E) elems = true ->
  let in_window := failures_in_window E t h elems in
  (exists s st',
      count_failed_jobs_in_window E job h uc st = (Ok s, st')
      /\ job_name s = job
      /\ total_failures s = length in_window
      /\ failure_details s = map detail in_window
      /\ match in_window with
         | [] => latest_failed s = None
         | latest :: _ =>
             exists info,
               latest_failed s = Some info
               /\ li_build_id info = field "ID" (JStr "Unknown") latest
               /\ li_started info = field "Started" (JStr "Unknown") latest
               /\ li_result info = field "Result" (JStr "Unknown") latest
               /\ li_artifacts_url info = resolved_artifacts_url E latest
               /\ pr_numbers_of latest = Ok (li_pr_numbers info)
         end)
  /\ in_window
     = List.filter (started_within E t h) (List.filter is_FAILURE elems)
  /\ (forall b, In b in_window <->
                In b elems /\ is_FAILURE b = true /\ started_within E t h b = true)
  /\ (forall d, is_FAILURE (JObj d) = true <->
                Py.lookup "Result" d = Some (JStr "FAILURE")).
Proof.
  intros Hclock Hr Hfetch Hwf in_window.
  refine (conj _ (conj eq_refl (conj _ is_FAILURE_exactly))).
  - destruct (count_on_well_formed_builds E job h uc st st1 elems t Hclock Hr Hfetch Hwf)
      as (st' & Hrun).
    exists (summary_of E job in_window), st'.
    refine (conj Hrun (conj eq_refl (conj eq_refl (conj eq_refl _)))).
    destruct in_window as [|latest rest] eqn:Hw; [reflexivity |].
    exists (enriched E latest). simpl.
    refine (conj eq_refl (conj eq_refl (conj eq_refl (conj eq_refl (conj eq_refl _))))).
    assert (Hin : In latest (failures_in_window E t h elems))
      by (fold in_window; rewrite Hw; now left).
    unfold failures_in_window in Hin.
    apply filter_In in Hin as [Hin _]. apply filter_In in Hin as [Hin _].
    rewrite forallb_forall in Hwf. specialize (Hwf latest Hin).
    unfold well_formed_build in Hwf. apply andb_true_iff in Hwf as [_ Hrefs].
    unfold refs_are_readable in Hrefs.
    destruct (pr_numbers_of latest); [reflexivity | discriminate | discriminate].
  - intros b. unfold in_window, failures_in_window.
    rewrite !filter_In. tauto.
Qed.

Lemma summarize_counts_failures_in_window_witness :
  exists s st',
    count_failed_jobs_in_window history_env "e2e" 12 false initial_state = (Ok s, st')
    /\ job_name s = "e2e"
    /\ total_failures s = 2%nat
    /\ failure_details s = [detail build_103; detail build_101]
    /\ exists info,
         latest_failed s = Some info
         /\ li_build_id info = JStr "103"
         /\ li_started info = JStr "2025-10-21T08:00:00Z"
         /\ li_result info = JStr "FAILURE"
         /\ li_artifacts_url info
            = "https://gcsweb-ci.example/gcs/test-platform-results/logs/e2e/103/"
         /\ Ok [JNum 5121; JNum 5130] = Ok (li_pr_numbers info).
Proof.
  refine (proj1 (summarize_counts_failures_in_window
                   history_env "e2e" 12 false initial_state
                   (log (Get (dashboard "e2e")) initial_state)
                   history_builds noon_2025_10_21 _ _ _ _)).
  - intros n. reflexivity.
  - vm_compute. reflexivity.
  - vm_compute. reflexivity.
  - vm_compute. reflexivity.
Defined.

(** ** Failed builds are records *)

Lemma is_failure_dict (b : json) (r : bool) : is_failure b = Ok r -> is_dict b = true.
Proof. destruct b; try discriminate. reflexivity. Qed.

Lemma filterR_is_failure_dicts (l r : list json) :
  filterR is_failure l = Ok r -> forallb is_dict l = true.
Proof.
  revert r. induction l as [|x l IH]; intros r H; [reflexivity |].
  simpl in H. apply rbind_Ok_inv in H as (b & Hb & H).
  apply rbind_Ok_inv in H as (ys & Hys & _).
  simpl. rewrite (is_failure_dict x b Hb). exact (IH ys Hys).
Qed.

Lemma filterR_incl {A} (p : A -> result bool) (l r : list A) :
  filterR p l = Ok r -> incl r l.
Proof.
  revert r. induction l as [|x l IH]; intros r H.
  - inversion H. apply incl_refl.
  - simpl in H. apply rbind_Ok_inv in H as (b & Hb & H).
    apply rbind_Ok_inv in H as (ys & Hys & H). inversion H; subst.
    specialize (IH ys Hys). destruct b.
    + intros y [-> | Hy]; [now left | right; auto].
    + intros y Hy. right. auto.
Qed.

Lemma filterM_incl {A} (p : A -> M bool) (l r : list A) (st st' : state) :
  filterM p l st = (Ok r, st') -> incl r l.
Proof.
  revert r st st'. induction l as [|x l IH]; intros r st st' H.
  - inversion H. apply incl_refl.
  - simpl in H. apply bind_Ok_inv in H as (b & st1 & Hb & H).
    apply bind_Ok_inv in H as (ys & st2 & Hys & H). inversion H; subst.
    specialize (IH ys _ _ Hys). destruct b.
    + intros y [-> | Hy]; [now left | right; auto].
    + intros y Hy. right. auto.
Qed.

Lemma failed_jobs_are_dicts (builds : json) (failed : list json) :
  get_failed_jobs builds = Ok failed -> forallb is_dict failed = true.
Proof.
  unfold get_failed_jobs. intros H. apply rbind_Ok_inv in H as (l & _ & H).
  apply forallb_forall. intros x Hx.
  pose proof (filterR_is_failure_dicts l failed H) as Hl.
  rewrite forallb_forall in Hl. apply Hl. exact (filterR_incl _ _ _ H x Hx).
Qed.

(** The details of the failures in the window are always computed. *)
Lemma details_of_window (E : Env) (h : Z) (builds : json) (failed inw : list json)
      (st st' : state) :
  get_failed_jobs builds = Ok failed ->
  failed_jobs_in_window E h failed st = (Ok inw, st') ->
  mapR detail_of inw = Ok (map detail inw).
Proof.
  intros Hf Hw. apply mapR_pure. intros x Hx. apply detail_of_dict.
  pose proof (failed_jobs_are_dicts builds failed Hf) as Hd.
  rewrite forallb_forall in Hd. apply Hd.
  exact (filterM_incl _ _ _ _ _ Hw x Hx).
Qed.

Lemma bind_unfold {A B} (m : M A) (k : A -> M B) (st : state) :
  bind m k st
  = match m st with
    | (Ok a, st') => k a st'
    | (Raise e, st') => (Raise e, st')
    | (Exit c, st') => (Exit c, st')
    end.
Proof. reflexivity. Qed.

(** ** Artifact pages that cannot be fetched *)





Lemma batch_returns_every_summary_witness :
  (exists l st',
      get_multiple_periodic_jobs_counts (three_jobs "var allBuilds = 5;")
        "4.21" None 12 true initial_state = (Ok l, st')
      /\ Forall2 (fun job s => job_name s = construct_full_job_name job "4.21"
                               /\ summary_invariant s)
                 ["a"; "b"; "c"] l)
  /\ fst (get_multiple_periodic_jobs_counts (three_jobs "var allBuilds = 5;")
            "4.21" None 12 true initial_state)
     = Ok [example_summary (periodic "a");
           degraded_summary (periodic "b");
           example_summary (periodic "c")].
Proof.
  split.
  - refine (proj1 (batch_returns_every_summary (three_jobs "var allBuilds = 5;")
                     ["4.21"] 12 true initial_state _) "4.21" _).
    + vm_compute. reflexivity.
    + simpl. left. reflexivity.
  - vm_compute. reflexivity.
Defined.

(** One offset-less start time among the failed builds turns the whole
    job into a job without failures, although the next build failed inside
    the window. *)
Lemma offset_less_start_hides_failures :
  fst (count_failed_jobs_in_window
         (online [(dashboard "e2e",
                   "var allBuilds = "
                   +:+ Basic.q ("[{'ID':'2','Result':'FAILURE','Started':'2025-10-21T08:00:00'},"
                                +:+ "{'ID':'1','Result':'FAILURE',"
                                +:+ "'Started':'2025-10-21T00:31:08Z'}]")
                   +:+ ";")]
                 noon_2025_10_21 [])
         "e2e" 12 false initial_state)
  = Ok (degraded_summary "e2e").
Proof. vm_compute. reflexivity. Qed.

(** A window that reaches before year 1: the cutoff is no datetime, the
    [OverflowError] of the subtraction is swallowed like every other
    exception, and the job is reported without failures. *)
Lemma window_before_year_one_hides_failures :
  fst (is_within_time_window history_env (JStr "2025-10-21T08:00:00Z") 20000000
         initial_state)
  = Raise OverflowError
  /\ fst (count_failed_jobs_in_window history_env "e2e" 20000000 false initial_state)
     = Ok (degraded_summary "e2e").
Proof. split; vm_compute; reflexivity. Qed.

(** C2, at the failing input: the dashboard shows two failed builds, the
    newer one with a start time without UTC offset, the older one started
    at 00:31:08 UTC, and the summary is asked at noon for twelve hours
    back.  Both records are selected as failures, and the older one is
    inside the window; but the window check of the newer one raises
    [TypeError], the handler of [count_failed_jobs_in_window] takes over,
    and the summary has no failures, no latest failure and no details.
    With the offset written out on the newer build, the same list yields
    both failures, the newer one as the latest. *)
Theorem in_window_failure_lost_to_offset_less_start :
  fetch_builds offset_less_env "e2e" false initial_state
  = (Ok (JArr [build_2_without_offset; build_1_with_offset]),
     log (Get (dashboard "e2e")) initial_state)
  /\ get_failed_jobs (JArr [build_2_without_offset; build_1_with_offset])
     = Ok [build_2_without_offset; build_1_with_offset]
  /\ fst (is_within_time_window offset_less_env (JStr "2025-10-21T00:31:08Z") 12
            initial_state)
     = Ok true
  /\ fst (is_within_time_window offset_less_env (JStr "2025-10-21T08:00:00") 12
            initial_state)
     = Raise TypeError
  /\ fst (count_failed_jobs_in_window offset_less_env "e2e" 12 false initial_state)
     = Ok {| job_name := "e2e"; total_failures := 0;
             latest_failed := None; failure_details := [] |}
  /\ printed (snd (count_failed_jobs_in_window offset_less_env "e2e" 12 false
                     initial_state))
     = [WarningFailedToFetch "e2e" TypeError]
  /\ option_map total_failures
       (match fst (count_failed_jobs_in_window
                     (online [(dashboard "e2e",
                               "var allBuilds = "
                               +:+ Basic.q ("[{'ID':'2','Result':'FAILURE',"
                                            +:+ "'Started':'2025-10-21T08:00:00Z'},"
                                            +:+ "{'ID':'1','Result':'FAILURE',"
                                            +:+ "'Started':'2025-10-21T00:31:08Z'}]")
                               +:+ ";")]
                             noon_2025_10_21 [])
                     "e2e" 12 false initial_state) with
        | Ok s => Some s
        | _ => None
        end)
     = Some 2%nat.
Proof.
  refine (conj _ (conj _ (conj _ (conj _ (conj _ (conj _ _)))))); vm_compute; reflexivity.
Qed.

(** ** Cache keys *)

Lemma safe_job_name_length (job : string) :
  String.length (safe_job_name job) = String.length job.
Proof.
  induction job as [|c s IH]; [reflexivity |].
  cbn [safe_job_name String.length]. now rewrite IH.
Qed.

Lemma underscore_is_safe : is_safe_char "_" = true.
Proof. vm_compute. reflexivity. Qed.

Lemma safe_job_name_cons (c : ascii) (s : string) :
  safe_job_name (String c s)
  = String (if is_safe_char c then c else "_"%char) (safe_job_name s).
Proof. reflexivity. Qed.

Lemma safe_job_name_safe (job : string) :
  all_chars is_safe_char (safe_job_name job) = true.
Proof.
  induction job as [|c s IH]; [reflexivity |].
  rewrite safe_job_name_cons. cbn [all_chars]. rewrite IH, andb_true_r.
  destruct (is_safe_char c) eqn:Hc; [exact Hc | exact underscore_is_safe].
Qed.

Lemma safe_job_name_fixed (job : string) :
  all_chars is_safe_char job = true -> safe_job_name job = job.
Proof.
  induction job as [|c s IH]; [reflexivity |].
  cbn [all_chars]. intros H. apply andb_true_iff in H as [Hc Hs].
  now rewrite safe_job_name_cons, Hc, (IH Hs).
Qed.

Lemma has_suffix_app (suffix s : string) : has_suffix suffix (s +:+ suffix) = true.
Proof.
  induction s as [|c s IH]; cbn [String.append].
  - destruct suffix; cbn [has_suffix]; now rewrite String.eqb_refl.
  - cbn [has_suffix]. rewrite IH. apply orb_true_r.
Qed.

Lemma append_inj_r (a b c : string) : a +:+ c = b +:+ c -> a = b.
Proof.
  revert b. induction a as [|x a IH]; intros [|y b] H; simpl in H.
  - reflexivity.
  - apply (f_equal String.length) in H. simpl in H. rewrite length_append in H. lia.
  - apply (f_equal String.length) in H. simpl in H. rewrite length_append in H. lia.
  - inversion H; subst. now rewrite (IH b).
Qed.

Lemma cache_file_is_json (job : string) : is_json_file (get_cache_file_path job) = true.
Proof. apply has_suffix_app. Qed.

(** X1: the cache file name of a job keeps the job name's length, consists
    of word characters and hyphens followed by [.json], is the job name
    itself (plus [.json]) when the name is already safe, and is the same
    for a name and its sanitised form; safe names never share a file,
    while names that differ only in other characters do. *)
Theorem cache_file_names (job : string) :
  get_cache_file_path job = safe_job_name job +:+ ".json"
  /\ String.length (safe_job_name job) = String.length job
  /\ all_chars is_safe_char (safe_job_name job) = true
  /\ is_json_file (get_cache_file_path job) = true
  /\ get_cache_file_path (safe_job_name job) = get_cache_file_path job
  /\ (all_chars is_safe_char job = true -> safe_job_name job = job)
  /\ (forall job',
         all_chars is_safe_char job = true ->
         all_chars is_safe_char job' = true ->
         get_cache_file_path job' = get_cache_file_path job -> job' = job)
  /\ (get_cache_file_path "e2e.aws" = get_cache_file_path "e2e/aws"
      /\ "e2e.aws" <> "e2e/aws").
Proof.
  refine (conj eq_refl (conj (safe_job_name_length job)
           (conj (safe_job_name_safe job) (conj (cache_file_is_json job)
           (conj _ (conj (safe_job_name_fixed job) (conj _ _))))))).
  - unfold get_cache_file_path.
    now rewrite (safe_job_name_fixed _ (safe_job_name_safe job)).
  - intros job' Hj Hj' H. unfold get_cache_file_path in H.
    rewrite (safe_job_name_fixed job Hj), (safe_job_name_fixed job' Hj') in H.
    exact (append_inj_r _ _ _ H).
  - split; [reflexivity | discriminate].
Qed.

(** ** Clearing the cache *)

(** X2: [clear_cache_for_job] reports whether the job had a cache file;
    afterwards the file is gone, every other file is as before, nothing was
    requested or printed, the job's next cache read is a miss that does not
    even look at the clock, and clearing again reports [False] and changes
    nothing. *)
Theorem clear_cache_for_job_removes_entry (job : string) (st : state) :
  let cleared := snd (clear_cache_for_job job st) in
  fst (clear_cache_for_job job st)
  = Ok (match files st !! get_cache_file_path job with Some _ => true | None => false end)
  /\ files cleared !! get_cache_file_path job = None
  /\ (forall name, name <> get_cache_file_path job ->
                   files cleared !! name = files st !! name)
  /\ trace cleared = trace st
  /\ ticks cleared = ticks st
  /\ (forall E, load_cached_job_data E job cleared = (Ok JNull, cleared))
  /\ clear_cache_for_job job cleared = (Ok false, cleared).
Proof.
  unfold clear_cache_for_job.
  destruct (files st !! get_cache_file_path job) as [f|] eqn:H; simpl.
  - assert (Hgone : delete (get_cache_file_path job) (files st) !! get_cache_file_path job
                    = None) by apply lookup_delete_eq.
    refine (conj eq_refl (conj Hgone (conj _ (conj eq_refl (conj eq_refl (conj _ _)))))).
    + intros name Hne. now apply lookup_delete_ne.
    + intros E. now apply load_absent.
    + now rewrite Hgone.
  - refine (conj eq_refl (conj H (conj _ (conj eq_refl (conj eq_refl (conj _ _)))))).
    + reflexivity.
    + intros E. now apply load_absent.
    + now rewrite H.
Qed.

(** X3: [clear_all_cache] removes exactly the files named [*.json] and
    returns their number, which is the number of files before minus the
    number after; other files stay; afterwards no job has a cache entry,
    and a second call removes nothing and returns 0. *)
Theorem clear_all_cache_removes_every_entry (st : state) :
  let cleared := snd (clear_all_cache st) in
  (exists n,
      fst (clear_all_cache st) = Ok n
      /\ (n + size (files cleared) = size (files st))%nat)
  /\ (forall name, is_json_file name = true -> files cleared !! name = None)
  /\ (forall name, is_json_file name = false -> files cleared !! name = files st !! name)
  /\ (forall E job, load_cached_job_data E job cleared = (Ok JNull, cleared))
  /\ trace cleared = trace st
  /\ clear_all_cache cleared = (Ok 0%nat, cleared).
Proof.
  unfold clear_all_cache. simpl.
  set (P := fun kv : string * file => is_json_file kv.1 = true).
  assert (Hjson : forall name, is_json_file name = true ->
                               filter (fun kv => ~ P kv) (files st) !! name = None).
  { intros name Hn. apply map_lookup_filter_None. right. intros x _ Hx. now apply Hx. }
  assert (Hother : forall name, is_json_file name = false ->
                                filter (fun kv => ~ P kv) (files st) !! name
                                = files st !! name).
  { intros name Hn. destruct (files st !! name) as [f|] eqn:Hf.
    - apply map_lookup_filter_Some. split; [exact Hf |]. unfold P. simpl. congruence.
    - apply map_lookup_filter_None. now left. }
  refine (conj _ (conj Hjson (conj Hother (conj _ (conj eq_refl _))))).
  - eexists. split; [reflexivity |].
    rewrite <- (map_filter_union_complement P (files st)) at 3.
    rewrite map_size_disj_union; [reflexivity |].
    apply map_disjoint_filter_complement.
  - intros E job. apply load_absent. simpl. apply Hjson, cache_file_is_json.
  - assert (Hempty : filter P (filter (fun kv => ~ P kv) (files st)) = ∅).
    { apply map_empty. intros name. apply map_lookup_filter_None.
      destruct (is_json_file name) eqn:Hn.
      - left. now apply Hjson.
      - right. intros x _ Hx. unfold P in Hx. simpl in Hx. congruence. }
    assert (Hsame : filter (fun kv => ~ P kv) (filter (fun kv => ~ P kv) (files st))
                    = filter (fun kv => ~ P kv) (files st)).
    { apply map_eq. intros name.
      destruct (filter (fun kv => ~ P kv) (files st) !! name) as [f|] eqn:Hf.
      - apply map_lookup_filter_Some. split; [exact Hf |].
        now apply map_lookup_filter_Some in Hf as [_ Hf].
      - apply map_lookup_filter_None. now left. }
    apply f_equal2.
    + change (Ok (size (filter P (filter (fun kv => ~ P kv) (files st)))) = Ok 0%nat).
      now rewrite Hempty, map_size_empty.
    + change ({| files := filter (fun kv => ~ P kv)
                            (filter (fun kv => ~ P kv) (files st));
                 ticks := ticks st; trace := trace st |}
              = {| files := filter (fun kv => ~ P kv) (files st);
                   ticks := ticks st; trace := trace st |}).
      now rewrite Hsame.
Qed.

(** ** Writing and reading back *)

Lemma save_run (E : Env) (job : string) (builds : json) (st : state) :
  save_job_data_to_cache E job builds st
  = (Ok tt,
     store (get_cache_file_path job)
       (cache_file_of E job builds (clock E (ticks st)) (clock E (S (ticks st))))
       (tick (tick st))).
Proof. reflexivity. Qed.

(** X4: what [save_job_data_to_cache] writes for a job is what
    [load_cached_job_data] returns, for that job and for every job name
    with the same cache file, as long as the written document decodes to
    itself and the clock has advanced by less than an hour since the
    write; from one hour on the entry is ignored.  Saving requests nothing
    and leaves every other cache file alone. *)
Theorem saved_builds_are_loaded (E : Env) (job job' : string) (builds : json) (st : state) :
  get_cache_file_path job' = get_cache_file_path job ->
  json_loads E (json_dumps E (cache_document E job builds (clock E (ticks st))))
  = Some (cache_document E job builds (clock E (ticks st))) ->
  let saved := snd (save_job_data_to_cache E job builds st) in
  let age := clock E (ticks saved) - clock E (S (ticks st)) in
  (age < timedelta_hours 1 -> load_cached_job_data E job' saved = (Ok builds, tick saved))
  /\ (timedelta_hours 1 <= age ->
      load_cached_job_data E job' saved = (Ok JNull, tick saved))
  /\ requests_made saved = requests_made st
  /\ (forall name, name <> get_cache_file_path job ->
                   files saved !! name = files st !! name).
Proof.
  intros Hpath Hround saved age. unfold saved, age. rewrite save_run. simpl.
  assert (Hfile : <[get_cache_file_path job :=
                      cache_file_of E job builds (clock E (ticks st)) (clock E (S (ticks st)))]>
                    (files st) !! get_cache_file_path job'
                  = Some (cache_file_of E job builds (clock E (ticks st))
                            (clock E (S (ticks st))))).
  { rewrite Hpath. apply lookup_insert_eq. }
  refine (conj _ (conj _ (conj eq_refl _))).
  - intros Hage.
    exact (load_hit E job' _ (store _ _ (tick (tick st))) _ _ Hfile Hage eq_refl Hround).
  - intros Hage.
    exact (load_stale E job' _ (store _ _ (tick (tick st))) Hfile Hage).
  - intros name Hne. now apply lookup_insert_ne.
Qed.

Lemma saved_builds_are_loaded_witness :
  load_cached_job_data (offline (timedelta_minutes 5)) "e2e.aws"
    (snd (save_job_data_to_cache (offline (timedelta_minutes 5)) "e2e/aws"
            example_builds initial_state))
  = (Ok example_builds,
     tick (snd (save_job_data_to_cache (offline (timedelta_minutes 5)) "e2e/aws"
                  example_builds initial_state))).
Proof.
  refine (proj1 (saved_builds_are_loaded (offline (timedelta_minutes 5))
                   "e2e/aws" "e2e.aws" example_builds initial_state _ _) _).
  - reflexivity.
  - vm_compute. reflexivity.
  - vm_compute. reflexivity.
Defined.

(** X5: starting without a cache file for the job, a fetch with caching
    requests the dashboard once and stores the builds; a second fetch
    before an hour has passed returns the same builds from the cache,
    requests nothing and leaves the cache as it is. *)
Theorem second_fetch_is_served_from_cache
        (E : Env) (job html g : string) (l : list json) (st : state) :
  files st !! get_cache_file_path job = None ->
  requests_get E (job_url E job) = Some html ->
  Re.search html = Some g ->
  json_loads E g = Some (JArr l) ->
  json_loads E (json_dumps E (cache_document E job (JArr l) (clock E (ticks st))))
  = Some (cache_document E job (JArr l) (clock E (ticks st))) ->
  clock E (S (S (ticks st))) - clock E (S (ticks st)) < timedelta_hours 1 ->
  exists st1 st2,
    fetch_builds E job true st = (Ok (JArr l), st1)
    /\ requests_made st1 = requests_made st ++ [job_url E job]
    /\ fetch_builds E job true st1 = (Ok (JArr l), st2)
    /\ requests_made st2 = requests_made st1
    /\ files st2 = files st1.
Proof.
  intros Habsent Hget Hs Hl Hround Hage.
  pose proof (fetch_builds_miss E job st st (load_absent E job st Habsent)) as Hfirst.
  rewrite (fetch_from_dashboard_stores E job html g (JArr l) st Hget Hs Hl) in Hfirst.
  set (st1 := store (get_cache_file_path job)
                (cache_file_of E job (JArr l) (clock E (ticks st)) (clock E (S (ticks st))))
                (tick (tick (log (Get (job_url E job)) st)))) in *.
  assert (Hfile : files st1 !! get_cache_file_path job
                  = Some (cache_file_of E job (JArr l) (clock E (ticks st))
                            (clock E (S (ticks st)))))
    by apply lookup_insert_eq.
  pose proof (load_hit E job _ st1 _ _ Hfile Hage eq_refl Hround) as Hload.
  simpl in Hload.
  exists st1, (match l with [] => tick st1 | _ => log (Print (UsingCachedData job)) (tick st1) end).
  refine (conj Hfirst (conj _ (conj (fetch_builds_hit E job st1 (tick st1) l Hload) _))).
  - unfold st1. simpl. apply requests_made_log_Get.
  - destruct l; split; try reflexivity. now rewrite requests_made_log_Print.
Qed.

Lemma second_fetch_is_served_from_cache_witness :
  exists st1 st2,
    fetch_builds (online [(dashboard "e2e", history_page)] noon_2025_10_21 [])
                 "e2e" true initial_state = (Ok (JArr history_builds), st1)
    /\ requests_made st1 = requests_made initial_state ++ [dashboard "e2e"]
    /\ fetch_builds (online [(dashboard "e2e", history_page)] noon_2025_10_21 [])
                    "e2e" true st1 = (Ok (JArr history_builds), st2)
    /\ requests_made st2 = requests_made st1
    /\ files st2 = files st1.
Proof.
  refine (second_fetch_is_served_from_cache
            (online [(dashboard "e2e", history_page)] noon_2025_10_21 [])
            "e2e" history_page history_literal history_builds initial_state
            _ _ _ _ _ _).
  - reflexivity.
  - vm_compute. reflexivity.
  - vm_compute. reflexivity.
  - vm_compute. reflexivity.
  - vm_compute. reflexivity.
  - vm_compute. reflexivity.
Defined.

(** ** The latest failure and the summary *)

Lemma latest_body_agrees (E : Env) (job : string) (h : Z) (uc : bool) (st : state) :
  get_latest_failed_body E job h uc st
  = latest_of_count job (count_failed_jobs_body E job h uc st).
Proof.
  unfold get_latest_failed_body, count_failed_jobs_body.
  rewrite !bind_unfold.
  destruct (fetch_builds E job uc st) as [[builds|e|c] st1]; try reflexivity.
  cbv beta iota. rewrite !bind_unfold. unfold lift at 1 2.
  destruct (get_failed_jobs builds) as [failed|e|c] eqn:Hf; try reflexivity.
  cbv beta iota. destruct failed as [|b failed]; [reflexivity |].
  rewrite !bind_unfold.
  destruct (failed_jobs_in_window E h (b :: failed) st1) as [[inw|e|c] st2] eqn:Hw;
    try reflexivity.
  cbv beta iota.
  pose proof (details_of_window E h builds (b :: failed) inw st1 st2 Hf Hw) as Hd.
  destruct inw as [|latest inw].
  - reflexivity.
  - rewrite !bind_unfold.
    destruct (enrich E latest st2) as [[info|e|c] st3]; try reflexivity.
    rewrite Hd. reflexivity.
Qed.

Lemma latest_projection (E : Env) (job : string) (h : Z) (uc : bool) (st : state) :
  get_latest_failed_job E job h uc st
  = latest_of_count job (count_failed_jobs_in_window E job h uc st).
Proof.
  unfold get_latest_failed_job, count_failed_jobs_in_window, try_except.
  rewrite latest_body_agrees.
  destruct (count_failed_jobs_body E job h uc st) as [[s|e|c] st1]; reflexivity.
Qed.

(** X6: [get_latest_failed_job] is the projection of
    [count_failed_jobs_in_window]: on every input and in every state both
    leave the same state (same requests, same cache, same output) and the
    result of the first is the job name paired with the latest failure of
    the summary the second returns, or [None] when the summary has none;
    an exit of one is the same exit of the other. *)
Theorem latest_failure_is_the_one_of_the_summary
        (E : Env) (job : string) (hours_back : Z) (use_cache : bool) (st : state) :
  get_latest_failed_job E job hours_back use_cache st
  = latest_of_count job (count_failed_jobs_in_window E job hours_back use_cache st).
Proof.
  unfold get_latest_failed_job, count_failed_jobs_in_window, try_except.
  rewrite latest_body_agrees.
  destruct (count_failed_jobs_body E job hours_back use_cache st) as [[s|e|c] st1].
  - reflexivity.
  - reflexivity.
  - reflexivity.
Qed.

(** ** Status checks *)

Lemma contexts_in_state_dicts (wanted : string) (l : list json) :
  forallb is_dict l = true ->
  contexts_in_state wanted l
  = Ok (map (field "context" (JStr "Unknown")) (List.filter (in_state wanted) l)).
Proof.
  induction l as [|c l IH]; intros H; [reflexivity |].
  cbn [forallb] in H. apply andb_true_iff in H as [Hc Hl].
  destruct (is_dict_inv c Hc) as [d ->].
  cbn [contexts_in_state Py.get rbind List.filter].
  unfold in_state at 1. cbn [field].
  destruct (Py.eq_str (default JNull (Py.lookup "state" d)) wanted).
  - cbn [Py.get_default rbind]. rewrite (IH Hl). reflexivity.
  - exact (IH Hl).
Qed.

Lemma any_failed_or_running_dicts (l : list json) :
  forallb is_dict l = true ->
  any_failed_or_running l
  = Ok (existsb (fun c => in_state "FAILURE" c || in_state "PENDING" c) l).
Proof.
  induction l as [|c l IH]; intros H; [reflexivity |].
  cbn [forallb] in H. apply andb_true_iff in H as [Hc Hl].
  destruct (is_dict_inv c Hc) as [d ->].
  cbn [any_failed_or_running Py.get rbind existsb].
  unfold in_state at 1 2. cbn [field]. unfold failed_or_pending.
  destruct (Py.eq_str (default JNull (Py.lookup "state" d)) "FAILURE"
            || Py.eq_str (default JNull (Py.lookup "state" d)) "PENDING");
    [reflexivity | exact (IH Hl)].
Qed.

Lemma existsb_filters {A} (p q : A -> bool) (l : list A) :
  existsb (fun x => p x || q x) l
  = negb (length (List.filter p l) + length (List.filter q l) =? 0)%nat.
Proof.
  induction l as [|x l IH]; [reflexivity |].
  cbn [existsb List.filter]. rewrite IH.
  destruct (p x), (q x); cbn [length orb]; try reflexivity.
  now rewrite Nat.add_succ_r.
Qed.

Lemma exclusive_filters {A} (p q : A -> bool) (l : list A) :
  (forall x, p x = true -> q x = false) ->
  (length (List.filter p l) + length (List.filter q l) <= length l)%nat.
Proof.
  intros H. induction l as [|x l IH]; [reflexivity |].
  cbn [List.filter]. destruct (p x) eqn:Hp.
  - rewrite (H x Hp). cbn [length]. lia.
  - destruct (q x); cbn [length]; lia.
Qed.

Lemma failed_is_not_pending (c : json) :
  in_state "FAILURE" c = true -> in_state "PENDING" c = false.
Proof.
  unfold in_state. intros H. apply eq_str_true in H. rewrite H. reflexivity.
Qed.

(** X7: on a list of check records the three status helpers agree:
    [get_failed_checks] and [get_running_checks] return the contexts
    ([Unknown] when a record has none) of the records whose state is
    [FAILURE], respectively [PENDING], in order;
    [has_failed_or_running_tests] is true exactly when one of the two lists
    is non-empty; and no record is in both, so together they are never
    longer than the input. *)
Theorem status_helpers_agree (l : list json) :
  forallb is_dict l = true ->
  exists failed running,
    get_failed_checks (JArr l) = Ok failed
    /\ get_running_checks (JArr l) = Ok running
    /\ failed = map (field "context" (JStr "Unknown")) (List.filter (in_state "FAILURE") l)
    /\ running = map (field "context" (JStr "Unknown")) (List.filter (in_state "PENDING") l)
    /\ has_failed_or_running_tests (JArr l)
       = Ok (negb (length failed + length running =? 0)%nat)
    /\ (length failed + length running <= length l)%nat.
Proof.
  intros H.
  exists (map (field "context" (JStr "Unknown")) (List.filter (in_state "FAILURE") l)),
         (map (field "context" (JStr "Unknown")) (List.filter (in_state "PENDING") l)).
  refine (conj _ (conj _ (conj eq_refl (conj eq_refl (conj _ _))))).
  - exact (contexts_in_state_dicts "FAILURE" l H).
  - exact (contexts_in_state_dicts "PENDING" l H).
  - rewrite !length_map. unfold has_failed_or_running_tests.
    destruct l as [|c l]; [reflexivity |].
    cbn [Py.truthy negb Py.iter rbind].
    rewrite (any_failed_or_running_dicts (c :: l) H). f_equal.
    exact (existsb_filters (in_state "FAILURE") (in_state "PENDING") (c :: l)).
  - rewrite !length_map. apply exclusive_filters. exact failed_is_not_pending.
Qed.

Lemma status_helpers_agree_witness :
  exists failed running,
    get_failed_checks
      (JArr [JObj [("state", JStr "FAILURE"); ("context", JStr "ci/prow/e2e-aws")];
             JObj [("state", JStr "SUCCESS"); ("context", JStr "ci/prow/verify")];
             JObj [("state", JStr "PENDING")]]) = Ok failed
    /\ get_running_checks
         (JArr [JObj [("state", JStr "FAILURE"); ("context", JStr "ci/prow/e2e-aws")];
                JObj [("state", JStr "SUCCESS"); ("context", JStr "ci/prow/verify")];
                JObj [("state", JStr "PENDING")]]) = Ok running
    /\ failed = [JStr "ci/prow/e2e-aws"]
    /\ running = [JStr "Unknown"]
    /\ has_failed_or_running_tests
         (JArr [JObj [("state", JStr "FAILURE"); ("context", JStr "ci/prow/e2e-aws")];
                JObj [("state", JStr "SUCCESS"); ("context", JStr "ci/prow/verify")];
                JObj [("state", JStr "PENDING")]])
       = Ok (negb (length failed + length running =? 0)%nat)
    /\ (length failed + length running <= 3)%nat.
Proof.
  exact (status_helpers_agree
           [JObj [("state", JStr "FAILURE"); ("context", JStr "ci/prow/e2e-aws")];
            JObj [("state", JStr "SUCCESS"); ("context", JStr "ci/prow/verify")];
            JObj [("state", JStr "PENDING")]] eq_refl).
Defined.

(** ** Pull-request numbers *)

Lemma append_pull_numbers_spec (pulls acc : list json) :
  append_pull_numbers pulls acc = let+ ns := pull_numbers pulls in Ok (acc ++ ns).
Proof.
  revert acc. induction pulls as [|p pulls IH]; intros acc.
  - cbn [append_pull_numbers pull_numbers rbind]. now rewrite app_nil_r.
  - cbn [append_pull_numbers pull_numbers].
    destruct (Py.get p "number") as [n|e|c]; cbn [rbind]; try reflexivity.
    rewrite IH. destruct (pull_numbers pulls) as [ns|e|c]; cbn [rbind]; try reflexivity.
    destruct (Py.truthy n); [now rewrite <- app_assoc | reflexivity].
Qed.

Lemma extract_pr_numbers_from_spec (jobs acc : list json) :
  extract_pr_numbers_from jobs acc
  = let+ ls := mapR pr_numbers_of jobs in Ok (acc ++ concat ls).
Proof.
  revert acc. induction jobs as [|j jobs IH]; intros acc.
  - cbn [extract_pr_numbers_from mapR rbind concat]. now rewrite app_nil_r.
  - cbn [extract_pr_numbers_from mapR]. unfold pr_numbers_of at 1.
    destruct (Py.get_default j "Refs" (JObj [])) as [refs|e|c]; cbn [rbind];
      try reflexivity.
    destruct (Py.truthy refs).
    + destruct (Py.get_default refs "pulls" (JArr [])) as [pulls|e|c]; cbn [rbind];
        try reflexivity.
      destruct (Py.iter pulls) as [l|e|c]; cbn [rbind]; try reflexivity.
      rewrite append_pull_numbers_spec.
      destruct (pull_numbers l) as [ns|e|c]; cbn [rbind]; try reflexivity.
      rewrite IH. destruct (mapR pr_numbers_of jobs) as [ls|e|c]; cbn [rbind concat];
        try reflexivity.
      now rewrite app_assoc.
    + cbn [rbind]. rewrite IH.
      destruct (mapR pr_numbers_of jobs) as [ls|e|c]; cbn [rbind concat]; reflexivity.
Qed.

Lemma mapR_app {A B} (f : A -> result B) (l1 l2 : list A) :
  mapR f (l1 ++ l2)
  = let+ a := mapR f l1 in let+ b := mapR f l2 in Ok (a ++ b).
Proof.
  induction l1 as [|x l1 IH]; cbn [app mapR rbind].
  - destruct (mapR f l2); reflexivity.
  - destruct (f x) as [y|e|c]; cbn [rbind]; try reflexivity.
    rewrite IH. destruct (mapR f l1) as [a|e|c]; cbn [rbind]; try reflexivity.
    destruct (mapR f l2) as [b|e|c]; reflexivity.
Qed.

Lemma pull_numbers_truthy (pulls ns : list json) :
  pull_numbers pulls = Ok ns -> forallb Py.truthy ns = true.
Proof.
  revert ns. induction pulls as [|p pulls IH]; intros ns H.
  - inversion H. reflexivity.
  - cbn [pull_numbers] in H. apply rbind_Ok_inv in H as (n & _ & H).
    apply rbind_Ok_inv in H as (rest & Hrest & H). inversion H; subst.
    specialize (IH rest Hrest). destruct (Py.truthy n) eqn:Hn; [| exact IH].
    cbn [forallb]. now rewrite Hn.
Qed.

Lemma pr_numbers_of_truthy (b : json) (ns : list json) :
  pr_numbers_of b = Ok ns -> forallb Py.truthy ns = true.
Proof.
  unfold pr_numbers_of. intros H. apply rbind_Ok_inv in H as (refs & _ & H).
  destruct (Py.truthy refs).
  - apply rbind_Ok_inv in H as (pulls & _ & H). apply rbind_Ok_inv in H as (l & _ & H).
    exact (pull_numbers_truthy l ns H).
  - inversion H. reflexivity.
Qed.

Lemma mapR_pr_numbers_truthy (jobs : list json) (ls : list (list json)) :
  mapR pr_numbers_of jobs = Ok ls -> forallb Py.truthy (concat ls) = true.
Proof.
  revert ls. induction jobs as [|j jobs IH]; intros ls H.
  - inversion H. reflexivity.
  - cbn [mapR] in H. apply rbind_Ok_inv in H as (ns & Hns & H).
    apply rbind_Ok_inv in H as (rest & Hrest & H). inversion H; subst.
    cbn [concat]. rewrite forallb_app, (pr_numbers_of_truthy j ns Hns).
    exact (IH rest Hrest).
Qed.

(** X8: the crawler's [extract_pr_numbers] collects, job by job and in
    order, the numbers the summary computes for a single record
    ([pr_numbers_of]); it fails exactly when that fails for one of the
    jobs.  So it distributes over concatenation of job lists, on one job it
    is the summary's computation, and every number it returns is truthy
    (no [None], no [0]). *)
Theorem crawler_collects_the_pull_numbers_of_each_job (jobs : list json) :
  extract_pr_numbers jobs = (let+ ls := mapR pr_numbers_of jobs in Ok (concat ls))
  /\ (forall more,
         extract_pr_numbers (jobs ++ more)
         = let+ a := extract_pr_numbers jobs in
           let+ b := extract_pr_numbers more in Ok (a ++ b))
  /\ (forall numbers,
         extract_pr_numbers jobs = Ok numbers -> forallb Py.truthy numbers = true)
  /\ (forall job, extract_pr_numbers [job] = pr_numbers_of job).
Proof.
  unfold extract_pr_numbers. refine (conj _ (conj _ (conj _ _))).
  - exact (extract_pr_numbers_from_spec jobs []).
  - intros more. rewrite !extract_pr_numbers_from_spec, mapR_app.
    destruct (mapR pr_numbers_of jobs) as [a|e|c]; cbn [rbind app]; try reflexivity.
    destruct (mapR pr_numbers_of more) as [b|e|c]; cbn [rbind app]; try reflexivity.
    now rewrite concat_app.
  - intros numbers. rewrite extract_pr_numbers_from_spec. intros H.
    apply rbind_Ok_inv in H as (ls & Hls & H). inversion H; subst.
    exact (mapR_pr_numbers_truthy jobs ls Hls).
  - intros job. rewrite extract_pr_numbers_from_spec. cbn [mapR].
    destruct (pr_numbers_of job) as [ns|e|c]; cbn [rbind concat app]; try reflexivity.
    now rewrite app_nil_r.
Qed.

(** ** The artifacts link of a detail page *)

(** X9: the URL [extract_artifacts_url] returns is the [href] of an anchor
    of the page that is labelled [Artifacts], or whose address contains
    [gcsweb-ci], or whose text contains [Artifacts]; and it returns nothing
    only when no anchor with an [href] has such an address or text. *)
Theorem artifacts_url_is_an_anchor_of_the_page (E : Env) (html : string) :
  (forall h,
      extract_artifacts_url E html = Some h ->
      exists a,
        In a (find_all_a E html)
        /\ a_href a = Some h
        /\ (a_string a = Some "Artifacts"
            \/ Str.contains "gcsweb-ci" h = true
            \/ Str.contains "Artifacts" (a_text a) = true))
  /\ (extract_artifacts_url E html = None ->
      forall a h,
        In a (find_all_a E html) ->
        a_href a = Some h ->
        Str.contains "gcsweb-ci" h = false
        /\ Str.contains "Artifacts" (a_text a) = false).
Proof.
  unfold extract_artifacts_url.
  set (fallback_test := fun a : anchor =>
                          match a_href a with
                          | Some h => Str.contains "gcsweb-ci" h
                                      || Str.contains "Artifacts" (a_text a)
                          | None => false
                          end).
  set (label_test := fun a : anchor =>
                       match a_string a with
                       | Some s => String.eqb s "Artifacts"
                       | None => false
                       end).
  assert (Hfallback : forall h,
             match List.find fallback_test (find_all_a E html) with
             | Some a => a_href a
             | None => None
             end = Some h ->
             exists a,
               In a (find_all_a E html)
               /\ a_href a = Some h
               /\ (a_string a = Some "Artifacts"
                   \/ Str.contains "gcsweb-ci" h = true
                   \/ Str.contains "Artifacts" (a_text a) = true)).
  { intros h Hh.
    destruct (List.find fallback_test (find_all_a E html)) as [a|] eqn:F; [| discriminate].
    apply find_some in F as [Hin Ht]. exists a. refine (conj Hin (conj Hh _)).
    unfold fallback_test in Ht. rewrite Hh in Ht.
    apply orb_true_iff in Ht. tauto. }
  assert (Hnone : match List.find fallback_test (find_all_a E html) with
                  | Some a => a_href a
                  | None => None
                  end = None ->
                  forall a h,
                    In a (find_all_a E html) ->
                    a_href a = Some h ->
                    Str.contains "gcsweb-ci" h = false
                    /\ Str.contains "Artifacts" (a_text a) = false).
  { intros Hn a h Hin Hh.
    destruct (List.find fallback_test (find_all_a E html)) as [a0|] eqn:F.
    - apply find_some in F as [_ Ht]. unfold fallback_test in Ht.
      rewrite Hn in Ht. discriminate.
    - pose proof (find_none _ _ F a Hin) as Ht. unfold fallback_test in Ht.
      rewrite Hh in Ht. now apply orb_false_iff in Ht. }
  split.
  - intros h.
    destruct (List.find label_test (find_all_a E html)) as [a|] eqn:L; [| apply Hfallback].
    destruct (has_href a) eqn:Hhref; [| apply Hfallback].
    intros Hh. apply find_some in L as [Hin Ht]. exists a.
    refine (conj Hin (conj Hh (or_introl _))).
    unfold label_test in Ht. destruct (a_string a) as [s|]; [| discriminate].
    apply String.eqb_eq in Ht. now subst.
  - destruct (List.find label_test (find_all_a E html)) as [a|] eqn:L; [| apply Hnone].
    destruct (has_href a) eqn:Hhref; [| apply Hnone].
    intros Hh. unfold has_href in Hhref. rewrite Hh in Hhref. discriminate.
Qed.

(** ** What the pattern matches *)

Lemma upto_last_semi_Some (s q : string) :
  Re.upto_last_semi s = Some q ->
  Re.one_line q = true /\ exists post, s = q +:+ String Re.semicolon post.
Proof.
  revert q. induction s as [|c s IH]; intros q H; [discriminate |].
  cbn [Re.upto_last_semi] in H.
  destruct (Ascii.eqb c Re.newline) eqn:Hc; [discriminate |].
  destruct (Re.upto_last_semi s) as [q'|] eqn:Hs.
  - inversion H; subst. destruct (IH q' eq_refl) as [Hq [post ->]].
    split; [cbn [Re.one_line]; now rewrite Hc | now exists post].
  - destruct (Ascii.eqb c Re.semicolon) eqn:Hsemi; [| discriminate].
    inversion H; subst. apply Ascii.eqb_eq in Hsemi. subst c.
    split; [reflexivity | now exists s].
Qed.

Lemma upto_last_semi_exists (g post : string) :
  Re.one_line g = true ->
  exists q, Re.upto_last_semi (g +:+ String Re.semicolon post) = Some q.
Proof.
  intros Hg. induction g as [|c g IH]; cbn [String.append Re.upto_last_semi].
  - change (Ascii.eqb Re.semicolon Re.newline) with false. cbv iota.
    destruct (Re.upto_last_semi post) as [q|]; [now exists (String Re.semicolon q) |].
    rewrite Ascii.eqb_refl. now exists "".
  - cbn [Re.one_line] in Hg. apply andb_true_iff in Hg as [Hc Hg].
    apply negb_true_iff in Hc. rewrite Hc.
    destruct (IH Hg) as [q ->]. now exists (String c q).
Qed.

Lemma match_here_Some (s g : string) :
  Re.match_here s = Some g ->
  g <> "" /\ Re.one_line g = true
  /\ exists post, s = Re.all_builds_prefix +:+ g +:+ String Re.semicolon post.
Proof.
  unfold Re.match_here.
  destruct (Str.strip_prefix Re.all_builds_prefix s) as [rest|] eqn:P; [| discriminate].
  apply strip_prefix_Some in P. subst s.
  unfold Re.dot_plus_semi. destruct rest as [|c rest]; [discriminate |].
  destruct (Ascii.eqb c Re.newline) eqn:Hc; [discriminate |].
  destruct (Re.upto_last_semi rest) as [q|] eqn:Hq; [| discriminate].
  intros H; inversion H; subst.
  destruct (upto_last_semi_Some rest q Hq) as [Hline [post ->]].
  refine (conj _ (conj _ _)).
  - discriminate.
  - cbn [Re.one_line]. now rewrite Hc.
  - now exists post.
Qed.

Lemma match_here_exists (g post : string) :
  g <> "" -> Re.one_line g = true ->
  exists g', Re.match_here (Re.all_builds_prefix +:+ g +:+ String Re.semicolon post) = Some g'.
Proof.
  intros Hne Hg. unfold Re.match_here. rewrite strip_prefix_app.
  destruct g as [|c g]; [congruence |].
  cbn [Re.one_line] in Hg. apply andb_true_iff in Hg as [Hc Hg].
  apply negb_true_iff in Hc.
  cbn [String.append Re.dot_plus_semi]. rewrite Hc.
  destruct (upto_last_semi_exists g post Hg) as [q ->]. now exists (String c q).
Qed.

Lemma search_Some (page g : string) : Re.search page = Some g -> has_assignment page g.
Proof.
  induction page as [|c page IH]; rewrite search_unfold.
  - destruct (Re.match_here "") as [g'|] eqn:Mh; [| discriminate].
    intros H; inversion H; subst.
    destruct (match_here_Some _ _ Mh) as (Hne & Hline & post & Hs).
    exists "", post. now cbn [String.append].
  - destruct (Re.match_here (String c page)) as [g'|] eqn:Mh.
    + intros H; inversion H; subst.
      destruct (match_here_Some _ _ Mh) as (Hne & Hline & post & Hs).
      exists "", post. now cbn [String.append].
    + intros H. destruct (IH H) as (pre & post & Hs & Hne & Hline).
      exists (String c pre), post. cbn [String.append]. now rewrite Hs.
Qed.

Lemma search_exists (page g : string) :
  has_assignment page g -> exists g', Re.search page = Some g'.
Proof.
  intros (pre & post & -> & Hne & Hline).
  induction pre as [|c pre IH]; rewrite search_unfold.
  - cbn [String.append]. destruct (match_here_exists g post Hne Hline) as [g' ->].
    now exists g'.
  - destruct (Re.match_here
                (String c pre +:+ Re.all_builds_prefix +:+ g +:+ String Re.semicolon post))
      as [g'|]; [now exists g' |].
    cbn [String.append]. exact IH.
Qed.

Lemma log_injective (a b : event) (st : state) : log a st = log b st -> a = b.
Proof.
  unfold log. intros H. injection H as H. apply app_inv_head in H. now injection H.
Qed.

(** X10: [extract_builds_json] decodes a text that the page really holds:
    whenever it returns, the state is untouched and the returned value is
    the decoding of a non-empty, single-line text that stands in the page
    between [var allBuilds = ] and a semicolon; and it stops with "could
    not find allBuilds" (exit status 1) exactly when the page holds no such
    text. *)
Theorem extraction_reads_an_assignment_of_the_page (E : Env) (page : string) (st : state) :
  (forall v st',
      extract_builds_json E page st = (Ok v, st') ->
      st' = st /\ exists g, has_assignment page g /\ json_loads E g = Some v)
  /\ (extract_builds_json E page st = (Exit 1, log (Print CouldNotFindAllBuilds) st)
      <-> forall g, ~ has_assignment page g).
Proof.
  split.
  - intros v st'. destruct (Re.search page) as [g|] eqn:Hs.
    + destruct (json_loads E g) as [w|] eqn:Hl.
      * rewrite (extract_builds_json_found E page g w st Hs Hl).
        intros H; inversion H; subst. split; [reflexivity |].
        exists g. split; [exact (search_Some page g Hs) | exact Hl].
      * rewrite (extract_builds_json_malformed E page g st Hs Hl). discriminate.
    + rewrite (extract_builds_json_not_found E page st Hs). discriminate.
  - split.
    + intros H g Hg. destruct (search_exists page g Hg) as [g' Hs].
      destruct (json_loads E g') as [w|] eqn:Hl.
      * rewrite (extract_builds_json_found E page g' w st Hs Hl) in H. discriminate.
      * rewrite (extract_builds_json_malformed E page g' st Hs Hl) in H.
        assert (Hlog : log (Print ErrorParsingJSON) st
                       = log (Print CouldNotFindAllBuilds) st) by congruence.
        apply log_injective in Hlog. discriminate.
    + intros H. apply extract_builds_json_not_found.
      destruct (Re.search page) as [g|] eqn:Hs; [| reflexivity].
      destruct (H g (search_Some page g Hs)).
Qed.

(** ** Failed builds *)

Lemma filterR_is_failure_total (l : list json) :
  filterR is_failure l
  = if forallb is_dict l then Ok (List.filter is_FAILURE l) else Raise AttributeError.
Proof.
  induction l as [|b l IH]; [reflexivity |].
  cbn [filterR forallb List.filter]. rewrite IH.
  destruct b; try reflexivity.
  cbn [is_dict andb]. unfold is_failure, is_FAILURE.
  cbn [Py.get rbind is_dict andb field].
  destruct (forallb is_dict l); cbn [rbind]; [| reflexivity].
  destruct (Py.eq_str (default JNull (Py.lookup "Result" d)) "FAILURE"); reflexivity.
Qed.

Lemma filter_twice {A} (p : A -> bool) (l : list A) :
  List.filter p (List.filter p l) = List.filter p l.
Proof.
  induction l as [|x l IH]; [reflexivity |].
  cbn [List.filter]. destruct (p x) eqn:Hp; [| exact IH].
  cbn [List.filter]. now rewrite Hp, IH.
Qed.

Lemma filter_sublist {A} (p : A -> bool) (l : list A) : sublist (List.filter p l) l.
Proof.
  induction l as [|x l IH]; [constructor |].
  cbn [List.filter]. destruct (p x); now constructor.
Qed.

(** X11: on a list, [get_failed_jobs] either raises [AttributeError],
    which it does exactly when some element is not a dict (wherever it
    stands, also after builds that failed), or returns the elements whose
    result is the string [FAILURE] in their order, a sublist of the input;
    applied to its own result it returns it unchanged. *)
Theorem failed_jobs_of_a_list (l : list json) :
  get_failed_jobs (JArr l)
  = (if forallb is_dict l then Ok (List.filter is_FAILURE l) else Raise AttributeError)
  /\ (forall failed,
         get_failed_jobs (JArr l) = Ok failed ->
         sublist failed l
         /\ forallb is_FAILURE failed = true
         /\ get_failed_jobs (JArr failed) = Ok failed).
Proof.
  assert (Hrun : forall l', get_failed_jobs (JArr l')
                            = if forallb is_dict l' then Ok (List.filter is_FAILURE l')
                              else Raise AttributeError)
    by (intros l'; exact (filterR_is_failure_total l')).
  split; [apply Hrun |].
  intros failed. rewrite Hrun.
  destruct (forallb is_dict l) eqn:Hd; [| discriminate].
  intros H; inversion H; subst. refine (conj _ (conj _ _)).
  - apply filter_sublist.
  - apply forallb_forall. intros b Hb. now apply filter_In in Hb.
  - rewrite Hrun, (forallb_filter is_dict is_FAILURE l Hd). now rewrite filter_twice.
Qed.

(** ** Requests made and cache files touched *)

Lemma footprint_refl (P : string -> Prop) (st : state) : footprint 0 P st st.
Proof.
  split; [| reflexivity]. exists []. split; [now rewrite app_nil_r | reflexivity].
Qed.

Lemma footprint_trans (n k : nat) (P : string -> Prop) (a b c : state) :
  footprint n P a b -> footprint k P b c -> footprint (n + k) P a c.
Proof.
  intros [(l1 & H1 & L1) F1] [(l2 & H2 & L2) F2]. split.
  - exists (l1 ++ l2). split.
    + now rewrite H2, H1, app_assoc.
    + rewrite length_app. lia.
  - intros name Hn. now rewrite (F2 name Hn), (F1 name Hn).
Qed.

Lemma footprint_weaken (n n' : nat) (P P' : string -> Prop) (a b : state) :
  (n <= n')%nat -> (forall x, P x -> P' x) -> footprint n P a b -> footprint n' P' a b.
Proof.
  intros Hn HP [(l & H & L) F]. split.
  - exists l. split; [exact H | lia].
  - intros name Hname. apply F. intros Hp. exact (Hname (HP name Hp)).
Qed.

Lemma footprint_same (P : string -> Prop) (st st' : state) :
  files st' = files st -> trace st' = trace st -> footprint 0 P st st'.
Proof.
  intros Hf Ht. split.
  - exists []. split; [| reflexivity]. unfold requests_made. now rewrite Ht, app_nil_r.
  - intros name _. now rewrite Hf.
Qed.

Lemma footprint_print (P : string -> Prop) (m : message) (st : state) :
  footprint 0 P st (log (Print m) st).
Proof.
  split; [| reflexivity]. exists []. split; [| reflexivity].
  now rewrite requests_made_log_Print, app_nil_r.
Qed.

Lemma footprint_get (P : string -> Prop) (u : string) (st : state) :
  footprint 1 P st (log (Get u) st).
Proof.
  split; [| reflexivity]. exists [u]. split; [apply requests_made_log_Get | reflexivity].
Qed.

Lemma within_weaken {A} (n n' : nat) (P P' : string -> Prop) (m : M A) :
  (n <= n')%nat -> (forall x, P x -> P' x) -> within n P m -> within n' P' m.
Proof. intros Hn HP H st. exact (footprint_weaken n n' P P' _ _ Hn HP (H st)). Qed.

Lemma within_ret {A} (P : string -> Prop) (a : A) : within 0 P (ret a).
Proof. intros st. apply footprint_refl. Qed.

Lemma within_ret_any {A} (n : nat) (P : string -> Prop) (a : A) : within n P (ret a).
Proof.
  intros st. apply (footprint_weaken 0 n P P); [lia | auto | apply footprint_refl].
Qed.

Lemma within_lift {A} (P : string -> Prop) (r : result A) : within 0 P (lift r).
Proof. intros st. apply footprint_refl. Qed.

Lemma within_exit {A} (P : string -> Prop) (c : Z) : within 0 P (@sys_exit A c).
Proof. intros st. apply footprint_refl. Qed.

Lemma within_print (P : string -> Prop) (m : message) : within 0 P (print m).
Proof. intros st. apply footprint_print. Qed.

Lemma within_bind {A B} (n k : nat) (P : string -> Prop) (m : M A) (f : A -> M B) :
  within n P m -> (forall a, within k P (f a)) -> within (n + k) P (bind m f).
Proof.
  intros Hm Hf st. unfold bind. specialize (Hm st).
  destruct (m st) as [[a|e|c] st1]; cbn [snd] in *.
  - exact (footprint_trans n k P st st1 _ Hm (Hf a st1)).
  - apply (footprint_weaken n (n + k) P P); [lia | auto | exact Hm].
  - apply (footprint_weaken n (n + k) P P); [lia | auto | exact Hm].
Qed.

(** A step that asks nothing, before or after one that may. *)
Lemma within_then {A B} (n : nat) (P : string -> Prop) (m : M A) (f : A -> M B) :
  within 0 P m -> (forall a, within n P (f a)) -> within n P (bind m f).
Proof. intros Hm Hf. exact (within_bind 0 n P m f Hm Hf). Qed.

Lemma within_before {A B} (n : nat) (P : string -> Prop) (m : M A) (f : A -> M B) :
  within n P m -> (forall a, within 0 P (f a)) -> within n P (bind m f).
Proof.
  intros Hm Hf. apply (within_weaken (n + 0) n P P); [lia | auto |].
  exact (within_bind n 0 P m f Hm Hf).
Qed.

Lemma within_try_except {A} (n : nat) (P : string -> Prop) (m : M A) catches h :
  within n P m -> (forall e, within 0 P (h e)) -> within n P (try_except m catches h).
Proof.
  intros Hm Hh st. unfold try_except. specialize (Hm st).
  destruct (m st) as [[a|e|c] st1]; cbn [snd] in *; try exact Hm.
  destruct (catches e); [| exact Hm].
  apply (footprint_weaken (n + 0) n P P); [lia | auto |].
  exact (footprint_trans n 0 P st st1 _ Hm (Hh e st1)).
Qed.

Lemma within_when (n : nat) (P : string -> Prop) (c : bool) (m : M unit) :
  (c = true -> within n P m) -> within n P (when c m).
Proof.
  intros H. destruct c; [now apply H | apply within_ret_any].
Qed.

Lemma within_filterM {A} (P : string -> Prop) (p : A -> M bool) (l : list A) :
  (forall a, within 0 P (p a)) -> within 0 P (filterM p l).
Proof.
  intros Hp. induction l as [|x l IH]; cbn [filterM]; [apply within_ret |].
  apply within_then; [apply Hp |]. intros b.
  apply within_then; [exact IH |]. intros ys. apply within_ret.
Qed.

Lemma within_mapM {A B} (n : nat) (P : string -> Prop) (f : A -> M B) (l : list A) :
  (forall a, In a l -> within n P (f a)) -> within (length l * n) P (mapM f l).
Proof.
  induction l as [|x l IH]; intros Hf; cbn [mapM length]; [apply within_ret |].
  apply (within_weaken (n + (length l * n + 0)) _ P P); [lia | auto |].
  apply within_bind; [apply Hf; now left |]. intros y.
  apply within_bind; [apply IH; intros a Ha; apply Hf; now right |].
  intros ys. apply within_ret.
Qed.

Lemma within_now (E : Env) (P : string -> Prop) : within 0 P (now E).
Proof. intros st. now apply footprint_same. Qed.

Lemma within_http_get (E : Env) (P : string -> Prop) (url : string) :
  within 1 P (http_get E url).
Proof.
  intros st. unfold http_get. destruct (requests_get E url); apply footprint_get.
Qed.

Lemma within_is_cache_valid (E : Env) (P : string -> Prop) name max :
  within 0 P (is_cache_valid E name max).
Proof.
  intros st. unfold is_cache_valid.
  destruct (files st !! name); [now apply footprint_same | apply footprint_refl].
Qed.

Lemma within_read_json (E : Env) (P : string -> Prop) name : within 0 P (read_json E name).
Proof.
  intros st. unfold read_json. destruct (files st !! name) as [f|]; [| apply footprint_refl].
  destruct (body f) as [| |s]; [apply footprint_refl | apply footprint_refl |].
  destruct (json_loads E s); apply footprint_refl.
Qed.

Lemma within_load (E : Env) (P : string -> Prop) job :
  within 0 P (load_cached_job_data E job).
Proof.
  unfold load_cached_job_data. apply within_then; [apply within_is_cache_valid |].
  intros valid. destruct valid; cbn [negb]; [| apply within_ret].
  apply within_try_except.
  - apply within_then; [apply within_read_json |]. intros data. apply within_lift.
  - intros e. apply within_then; [apply within_print | intros; apply within_ret].
Qed.

Lemma within_save (E : Env) (P : string -> Prop) job builds :
  P (get_cache_file_path job) -> within 0 P (save_job_data_to_cache E job builds).
Proof.
  intros HP st. rewrite save_run. cbn [snd]. split.
  - exists []. split; [now rewrite app_nil_r | reflexivity].
  - intros name Hn. cbn [files store tick]. apply lookup_insert_ne.
    intros Heq. apply Hn. now rewrite <- Heq.
Qed.

Lemma within_is_within_time_window (E : Env) (P : string -> Prop) v h :
  within 0 P (is_within_time_window E v h).
Proof.
  unfold is_within_time_window.
  destruct (negb (Py.truthy v) || Py.eq_str v "Unknown"); [apply within_ret |].
  destruct (parse_job_start_time E v) as [start|]; [| apply within_ret].
  apply within_then; [apply within_now |]. intros t.
  apply within_then; [apply within_lift |]. intros cutoff. apply within_lift.
Qed.

Lemma within_failed_jobs_in_window (E : Env) (P : string -> Prop) h l :
  within 0 P (failed_jobs_in_window E h l).
Proof.
  unfold failed_jobs_in_window. apply within_filterM. intros b. unfold started_in_window.
  apply within_then; [apply within_lift |]. intros v. apply within_is_within_time_window.
Qed.

Lemma within_fetch_spyglass_page (E : Env) (P : string -> Prop) link :
  within 1 P (fetch_spyglass_page E link).
Proof.
  unfold fetch_spyglass_page. apply within_try_except.
  - apply within_then; [apply within_lift |]. intros url.
    apply within_before; [apply within_http_get |]. intros text. apply within_ret.
  - intros e. apply within_then; [apply within_print | intros; apply within_ret].
Qed.

Lemma within_resolve_artifacts_url (E : Env) (P : string -> Prop) link :
  within 1 P (resolve_artifacts_url E link).
Proof.
  unfold resolve_artifacts_url.
  destruct (Py.truthy link); [| apply within_ret_any].
  apply within_before; [apply within_fetch_spyglass_page |].
  intros [html|]; [| apply within_ret].
  destruct (negb (String.eqb html "")); apply within_ret.
Qed.

Lemma within_enrich (E : Env) (P : string -> Prop) latest : within 1 P (enrich E latest).
Proof.
  unfold enrich.
  apply within_then; [apply within_lift |]. intros build_id.
  apply within_then; [apply within_lift |]. intros link.
  apply within_before; [apply within_resolve_artifacts_url |]. intros artifacts_url.
  apply within_then; [apply within_lift |]. intros prs.
  apply within_then.
  { destruct (Py.truthy link); [apply within_lift | apply within_ret]. }
  intros url.
  repeat (apply within_then; [apply within_lift | intros ?]).
  apply within_ret.
Qed.

Lemma within_fetch_job_history (E : Env) (P : string -> Prop) job :
  within 1 P (fetch_job_history E job).
Proof.
  unfold fetch_job_history. apply within_try_except; [apply within_http_get |].
  intros e. apply within_then; [apply within_print | intros; apply within_exit].
Qed.

Lemma within_extract (E : Env) (P : string -> Prop) html :
  within 0 P (extract_builds_json E html).
Proof.
  unfold extract_builds_json. apply within_try_except.
  - destruct (Re.search html) as [g|].
    + destruct (json_loads E g); [apply within_ret | apply within_lift].
    + apply within_then; [apply within_print | intros; apply within_exit].
  - intros e. apply within_then; [apply within_print | intros; apply within_exit].
Qed.

Lemma cache_of_own (job : string) : cache_of true [job] (get_cache_file_path job).
Proof. split; [reflexivity |]. exists job. split; [now left | reflexivity]. Qed.

Lemma within_fetch_from_dashboard (E : Env) job uc :
  within 1 (cache_of uc [job]) (fetch_from_dashboard E job uc).
Proof.
  unfold fetch_from_dashboard.
  apply within_before; [apply within_fetch_job_history |]. intros html.
  apply within_then; [apply within_extract |]. intros fetched.
  apply within_then; [| intros; apply within_ret].
  apply within_when. intros ->. apply within_save. apply cache_of_own.
Qed.

Lemma within_fetch_builds (E : Env) job uc :
  within 1 (cache_of uc [job]) (fetch_builds E job uc).
Proof.
  unfold fetch_builds. apply within_then.
  - destruct uc; [| apply within_ret].
    apply within_then; [apply within_load |]. intros cached.
    apply within_then; [apply within_when; intros _; apply within_print |].
    intros; apply within_ret.
  - intros builds.
    destruct builds; try apply within_ret_any. apply within_fetch_from_dashboard.
Qed.

Lemma within_count_body (E : Env) job h uc :
  within 2 (cache_of uc [job]) (count_failed_jobs_body E job h uc).
Proof.
  unfold count_failed_jobs_body.
  apply (within_bind 1 1); [apply within_fetch_builds |]. intros builds.
  apply within_then; [apply within_lift |]. intros failed.
  apply within_then; [apply within_failed_jobs_in_window |]. intros in_window.
  apply within_before.
  - destruct in_window as [|latest rest].
    + apply within_ret_any.
    + apply within_before; [apply within_enrich | intros; apply within_ret].
  - intros info. apply within_then; [apply within_lift | intros; apply within_ret].
Qed.

Lemma within_count (E : Env) job h uc :
  within 2 (cache_of uc [job]) (count_failed_jobs_in_window E job h uc).
Proof.
  unfold count_failed_jobs_in_window. apply within_try_except; [apply within_count_body |].
  intros e. apply within_then; [apply within_print | intros; apply within_ret].
Qed.

Lemma latest_leaves_the_state_of_count (E : Env) job h uc st :
  snd (get_latest_failed_job E job h uc st) = snd (count_failed_jobs_in_window E job h uc st).
Proof.
  rewrite latest_projection.
  destruct (count_failed_jobs_in_window E job h uc st) as [[s|e|c] st1]; reflexivity.
Qed.

Lemma within_latest (E : Env) job h uc :
  within 2 (cache_of uc [job]) (get_latest_failed_job E job h uc).
Proof. intros st. rewrite latest_leaves_the_state_of_count. apply within_count. Qed.

(** The footprint, spelled out. *)
Lemma footprint_cache_of (n : nat) (uc : bool) (jobs : list string) (st st' : state) :
  footprint n (cache_of uc jobs) st st' ->
  (exists l, requests_made st' = requests_made st ++ l /\ (length l <= n)%nat)
  /\ (forall name,
         (forall job, In job jobs -> name <> get_cache_file_path job) ->
         files st' !! name = files st !! name)
  /\ (uc = false -> files st' = files st).
Proof.
  intros [Hreq Hfiles]. refine (conj Hreq (conj _ _)).
  - intros name Hname. apply Hfiles. intros [_ (job & Hjob & Heq)].
    exact (Hname job Hjob Heq).
  - intros Huc. apply map_eq. intros name. apply Hfiles. intros [Hc _]. congruence.
Qed.

(** X12: whatever a run of [count_failed_jobs_in_window] or of
    [get_latest_failed_job] meets (a cache hit or miss, a dashboard that
    fails, records that raise), and however it ends, it makes at most two
    requests, it leaves every cache file other than the job's own as it
    was, and with caching off it leaves the whole cache directory as it
    was. *)
Theorem one_job_costs_two_requests_and_its_own_cache_file
        (E : Env) (job : string) (hours_back : Z) (use_cache : bool) (st : state) :
  let counted := snd (count_failed_jobs_in_window E job hours_back use_cache st) in
  let latest := snd (get_latest_failed_job E job hours_back use_cache st) in
  ((exists l, requests_made counted = requests_made st ++ l /\ (length l <= 2)%nat)
   /\ (forall name, name <> get_cache_file_path job ->
                    files counted !! name = files st !! name)
   /\ (use_cache = false -> files counted = files st))
  /\ latest = counted.
Proof.
  intros counted latest. split; [| apply latest_leaves_the_state_of_count].
  destruct (footprint_cache_of 2 use_cache [job] st counted (within_count E job _ _ st))
    as (Hreq & Hfiles & Hoff).
  refine (conj Hreq (conj _ Hoff)).
  intros name Hname. apply Hfiles. intros j [<- | []]. exact Hname.
Qed.

Lemma cache_of_incl (uc : bool) (jobs jobs' : list string) (name : string) :
  incl jobs jobs' -> cache_of uc jobs name -> cache_of uc jobs' name.
Proof.
  intros Hi [Hc (job & Hjob & Hn)]. split; [exact Hc |]. exists job. auto.
Qed.

Lemma within_count_among (E : Env) (h : Z) (uc : bool) (jobs : list string) (job : string) :
  In job jobs -> within 2 (cache_of uc jobs) (count_failed_jobs_in_window E job h uc).
Proof.
  intros Hin. apply (within_weaken 2 2 (cache_of uc [job])); [lia | | apply within_count].
  intros name. apply cache_of_incl. intros j [<- | []]. exact Hin.
Qed.

Lemma within_latest_among (E : Env) (h : Z) (uc : bool) (jobs : list string) (job : string) :
  In job jobs -> within 2 (cache_of uc jobs) (get_latest_failed_job E job h uc).
Proof.
  intros Hin st. rewrite latest_leaves_the_state_of_count.
  now apply within_count_among.
Qed.

Lemma in_full_names (rv job : string) (names : list string) :
  In job names -> In (construct_full_job_name job rv) (full_names rv names).
Proof.
  intros H. unfold full_names.
  exact (in_map (fun j => construct_full_job_name j rv) names job H).
Qed.

Lemma within_counts (E : Env) rv specific h uc :
  within (length (requested_jobs E specific) * 2)
         (cache_of uc (full_names rv (requested_jobs E specific)))
         (get_multiple_periodic_jobs_counts E rv specific h uc).
Proof.
  unfold get_multiple_periodic_jobs_counts, requested_jobs.
  destruct (given specific) as [job|].
  - apply within_before; [| intros; apply within_ret].
    apply within_count_among. now left.
  - apply within_then; [apply within_print |]. intros _.
    destruct (fetch_prow_job_names E) as [|j names] eqn:Hnames.
    + apply within_then; [apply within_print | intros; apply within_ret].
    + apply within_then; [apply within_print |]. intros _.
      apply within_before.
      * apply within_mapM. intros job Hjob. unfold count_one.
        apply within_then; [apply within_print |]. intros _.
        apply within_count_among. now apply in_full_names.
      * intros counts. apply within_then; [apply within_print | intros; apply within_ret].
Qed.

Lemma within_latest_failures (E : Env) rv h uc (all : list string) :
  forall names acc,
    incl names all ->
    within (length names * 2) (cache_of uc (full_names rv all))
           (latest_failures E rv h uc names acc).
Proof.
  induction names as [|job names IH]; intros acc Hi; cbn [latest_failures length].
  - apply within_ret.
  - apply within_then; [apply within_print |]. intros _.
    apply (within_weaken (2 + length names * 2) _ (cache_of uc (full_names rv all))
                         (cache_of uc (full_names rv all))); [lia | auto |].
    apply within_bind.
    + apply within_latest_among, in_full_names, Hi. now left.
    + intros latest. apply IH. intros x Hx. apply Hi. now right.
Qed.

Lemma within_periodic_data (E : Env) rv specific h uc :
  within (length (requested_jobs E specific) * 2)
         (cache_of uc (full_names rv (requested_jobs E specific)))
         (get_multiple_periodic_jobs_data E rv specific h uc).
Proof.
  unfold get_multiple_periodic_jobs_data, requested_jobs.
  destruct (given specific) as [job|].
  - unfold get_periodic_job_data. apply within_before; [| intros; apply within_ret].
    apply within_latest_among. now left.
  - apply within_then; [apply within_print |]. intros _.
    destruct (fetch_prow_job_names E) as [|j names] eqn:Hnames.
    + apply within_then; [apply within_print | intros; apply within_ret].
    + apply within_then; [apply within_print |]. intros _.
      apply within_before.
      * apply within_latest_failures. apply incl_refl.
      * intros issues. apply within_then; [apply within_print | intros; apply within_ret].
Qed.

Lemma spent_of_footprint (n : nat) (uc : bool) (jobs : list string) (st st' : state) :
  footprint n (cache_of uc jobs) st st' -> spent n uc jobs st st'.
Proof. exact (footprint_cache_of n uc jobs st st'). Qed.

(** X13: the two aggregators of one release, [get_multiple_periodic_jobs_counts]
    and [get_multiple_periodic_jobs_data], make at most two dashboard
    requests for each job they work on (the specific job, or else every
    configured job; the request of the job-list provider is its own and is
    not counted), touch no cache file but those of these jobs under the
    release, and with caching off leave the cache directory as it was;
    this holds also for a run that exits half-way. *)
Theorem a_release_costs_two_requests_per_job
        (E : Env) (release_version : string) (specific_job : option string)
        (hours_back : Z) (use_cache : bool) (st : state) :
  spent (length (requested_jobs E specific_job) * 2) use_cache
        (full_names release_version (requested_jobs E specific_job)) st
        (snd (get_multiple_periodic_jobs_counts E release_version specific_job
                hours_back use_cache st))
  /\ spent (length (requested_jobs E specific_job) * 2) use_cache
           (full_names release_version (requested_jobs E specific_job)) st
           (snd (get_multiple_periodic_jobs_data E release_version specific_job
                   hours_back use_cache st)).
Proof.
  split; apply spent_of_footprint.
  - apply within_counts.
  - apply within_periodic_data.
Qed.

Lemma within_release_column (E : Env) rv h uc (all : list string) :
  forall names acc,
    incl (full_names rv names) all ->
    within (length names * 2) (cache_of uc all) (release_column E rv h uc names acc).
Proof.
  induction names as [|job names IH]; intros acc Hi; cbn [release_column length].
  - apply within_ret.
  - apply within_then; [apply within_print |]. intros _.
    apply (within_weaken (2 + length names * 2) _ (cache_of uc all) (cache_of uc all));
      [lia | auto |].
    apply within_bind.
    + apply within_count_among, Hi. now left.
    + intros s. apply IH. intros x Hx. apply Hi. now right.
Qed.

Lemma within_release_rows (E : Env) h uc (names all : list string) :
  forall releases matrix,
    (forall rv, In rv releases -> incl (full_names rv names) all) ->
    within (length releases * (length names * 2)) (cache_of uc all)
           (release_rows E h uc names releases matrix).
Proof.
  induction releases as [|rv releases IH]; intros matrix Hi; cbn [release_rows length].
  - apply within_ret.
  - apply within_then; [apply within_print |]. intros _.
    apply (within_weaken (length names * 2 + length releases * (length names * 2)) _
                         (cache_of uc all) (cache_of uc all)); [lia | auto |].
    apply within_bind.
    + apply within_release_column, Hi. now left.
    + intros column. apply IH. intros r Hr. apply Hi. now right.
Qed.

Lemma within_matrix (E : Env) releases specific h uc :
  within (length releases * (length (selected_jobs E specific) * 2))
         (cache_of uc (flat_map (fun rv => full_names rv (selected_jobs E specific))
                                releases))
         (get_multi_release_counts E releases specific h uc).
Proof.
  unfold get_multi_release_counts, selected_jobs.
  destruct (fetch_prow_job_names E) as [|j names] eqn:Hnames.
  - apply within_then; [| intros; apply within_ret_any].
    apply (within_weaken 0 _ (cache_of uc []) _); [lia | | apply within_print].
    intros name. apply cache_of_incl. intros x [].
  - cbv zeta.
    remember (match given specific with
              | Some job => List.filter (fun j0 => String.eqb j0 job) (j :: names)
              | None => j :: names
              end) as selected eqn:Hsel.
    clear Hsel. destruct selected as [|s rest].
    + apply within_then; [| intros; apply within_ret_any].
      apply (within_weaken 0 _ (cache_of uc []) _); [lia | | apply within_print].
      intros name. apply cache_of_incl. intros x [].
    + apply within_then; [apply within_print |]. intros _.
      apply within_before; [| intros; apply within_ret].
      apply within_release_rows. intros rv Hrv x Hx.
      apply in_flat_map. now exists rv.
Qed.

(** X14: [get_multi_release_counts] makes at most two dashboard requests
    for each selected job and release (none at all when the job list is
    empty or does not hold the specific job), touches no cache file but
    those of the selected jobs under the given releases, and with caching
    off leaves the cache directory as it was. *)
Theorem the_matrix_costs_two_requests_per_cell
        (E : Env) (release_versions : list string) (specific_job : option string)
        (hours_back : Z) (use_cache : bool) (st : state) :
  spent (length release_versions * (length (selected_jobs E specific_job) * 2)) use_cache
        (flat_map (fun rv => full_names rv (selected_jobs E specific_job)) release_versions)
        st
        (snd (get_multi_release_counts E release_versions specific_job
                hours_back use_cache st)).
Proof. apply spent_of_footprint, within_matrix. Qed.

(** ** The latest failures of a release *)




(** ** Widening the window *)

Lemma started_within_wider (E : Env) (t h h' : Z) (b : json) :
  h <= h' -> started_within E t h b = true -> started_within E t h' b = true.
Proof.
  intros Hh. unfold started_within.
  destruct (negb (Py.truthy (field "Started" (JStr "Unknown") b))
            || Py.eq_str (field "Started" (JStr "Unknown") b) "Unknown"); [auto |].
  destruct (parse_job_start_time E (field "Started" (JStr "Unknown") b)) as [start|];
    [| auto].
  destruct (instant start) as [i|]; [| auto].
  rewrite !Z.leb_le. unfold timedelta_hours, microseconds_per_hour. lia.
Qed.

Lemma filter_sublist_mono {A} (p q : A -> bool) (l : list A) :
  (forall x, p x = true -> q x = true) -> sublist (List.filter p l) (List.filter q l).
Proof.
  intros H. induction l as [|x l IH]; [constructor |].
  cbn [List.filter]. destruct (p x) eqn:Hp.
  - rewrite (H x Hp). now constructor.
  - destruct (q x); [now constructor | exact IH].
Qed.

Lemma sublist_map {A B} (f : A -> B) (l1 l2 : list A) :
  sublist l1 l2 -> sublist (map f l1) (map f l2).
Proof. induction 1; cbn [map]; now constructor. Qed.

(** X16: between windows whose cutoffs are datetimes, a wider window
    never hides a failure.  For build records, with the clock stopped at
    [t], if [t] minus [h] hours and [t] minus [h'] hours both lie in the
    years 1 to 9999 and [h <= h'], the failures reported for [h] hours
    back are among those reported for [h'], in the same order, so the
    count does not drop.  (A window reaching before year 1 raises
    [OverflowError] inside the job and is reported without failures.) *)
Theorem wider_window_never_counts_fewer
        (E : Env) (job : string) (h h' : Z) (uc : bool) (st st1 : state)
        (elems : list json) (t : Z) :
  (forall n, clock E n = t) ->
  cutoff_in_range t h = true ->
  cutoff_in_range t h' = true ->
  fetch_builds E job uc st = (Ok (JArr elems), st1) ->
  forallb (well_formed_build E) elems = true ->
  h <= h' ->
  exists s s' sa sb,
    count_failed_jobs_in_window E job h uc st = (Ok s, sa)
    /\ count_failed_jobs_in_window E job h' uc st = (Ok s', sb)
    /\ (total_failures s <= total_failures s')%nat
    /\ sublist (failure_details s) (failure_details s').
Proof.
  intros Hclock Hr Hr' Hfetch Hwf Hh.
  destruct (count_on_well_formed_builds E job h uc st st1 elems t Hclock Hr Hfetch Hwf)
    as (sa & Ha).
  destruct (count_on_well_formed_builds E job h' uc st st1 elems t Hclock Hr' Hfetch Hwf)
    as (sb & Hb).
  exists (summary_of E job (failures_in_window E t h elems)),
         (summary_of E job (failures_in_window E t h' elems)), sa, sb.
  assert (Hsub : sublist (failures_in_window E t h elems) (failures_in_window E t h' elems)).
  { unfold failures_in_window. apply filter_sublist_mono.
    intros b. now apply started_within_wider. }
  refine (conj Ha (conj Hb (conj _ _))).
  - cbn [total_failures summary_of]. exact (sublist_length _ _ Hsub).
  - cbn [failure_details summary_of]. now apply sublist_map.
Qed.

Lemma wider_window_never_counts_fewer_witness :
  exists s s' sa sb,
    count_failed_jobs_in_window history_env "e2e" 12 false initial_state = (Ok s, sa)
    /\ count_failed_jobs_in_window history_env "e2e" 24 false initial_state = (Ok s', sb)
    /\ (total_failures s <= total_failures s')%nat
    /\ sublist (failure_details s) (failure_details s').
Proof.
  refine (wider_window_never_counts_fewer
            history_env "e2e" 12 24 false initial_state
            (log (Get (dashboard "e2e")) initial_state)
            history_builds noon_2025_10_21 _ _ _ _ _ _).
  - intros n. reflexivity.
  - vm_compute. reflexivity.
  - vm_compute. reflexivity.
  - vm_compute. reflexivity.
  - vm_compute. reflexivity.
  - lia.
Defined.
